(** * mat2nc: readers and archive writer of gcam-driver/src/C/mat2nc.c

    A shallow embedding of the C program that converts the flat matrix
    files of a water-model run into one netCDF archive, and the proofs of
    its documented properties.

    Conventions of the embedding:
    - a C [int] or [size_t] is a [Z]; where the C arithmetic could leave
      the range of its type the model says so explicitly;
    - a C [float] is an IEEE-754 binary32 number, a C [double] a binary64
      number, both as [spec_float] with the operations of [SpecFloat];
      an operation on two [float]s is done in binary32;
    - a C array is a total function from its (flat) index; an assignment
      to an element is a pointwise update;
    - a [for] loop is an iteration over its index range;
    - a binary input stream is a sequence of 4-byte items with a read
      position, a text stream is the list of characters still to be read;
    - a call whose behaviour the C standard leaves undefined (a read that
      overruns its buffer, signed overflow, a conversion out of range)
      yields [None]. *)

From Stdlib Require Import ZArith List String Ascii Bool Lia QArith.
From Stdlib Require Import Floats.SpecFloat.
Import ListNotations.

Local Open Scope Z_scope.

(** ** Dimensions (the [#define]s of the source) *)

Definition NLAT : Z := 360.
Definition NLON : Z := 720.
Definition NYEAR : Z := 18.
Definition NRGN : Z := 63.
Definition NBASIN : Z := 235.

(** ** Machine numbers *)

Definition INT_MIN : Z := - 2 ^ 31.
Definition INT_MAX : Z := 2 ^ 31 - 1.
Definition SIZE_MAX : Z := 2 ^ 64 - 1.

Definition in_int (x : Z) : bool := (INT_MIN <=? x) && (x <=? INT_MAX).

(** [a * b] in type [int]; signed overflow is undefined. *)
Definition int_mul (a b : Z) : option Z :=
  if in_int (a * b) then Some (a * b) else None.

(** Conversion of an [int] to [size_t]: reduction modulo [SIZE_MAX + 1]. *)
Definition to_size_t (x : Z) : Z := x mod (SIZE_MAX + 1).

Module F32.
Definition prec : Z := 24.
Definition emax : Z := 128.
Definition t := spec_float.
Definition add : t -> t -> t := SFadd prec emax.
Definition mul : t -> t -> t := SFmul prec emax.
Definition div : t -> t -> t := SFdiv prec emax.
Definition ltb : t -> t -> bool := SFltb.
Definition zero : t := S754_zero false.
(** The [NAN] macro of [math.h]. *)
Definition NAN : t := S754_nan.
(** Rounding of a finite or special number to binary32
    (round to nearest, ties to even). *)
Definition round (x : spec_float) : t :=
  match x with
  | S754_finite s m e => binary_round prec emax s m e
  | _ => x
  end.
Definition of_Z (z : Z) : t := binary_normalize prec emax z 0 false.
End F32.

Module F64.
Definition prec : Z := 53.
Definition emax : Z := 1024.
Definition t := spec_float.
Definition div : t -> t -> t := SFdiv prec emax.
Definition of_Z (z : Z) : t := binary_normalize prec emax z 0 false.
End F64.

Definition float : Type := F32.t.
Definition double : Type := F64.t.

(** The [double] value of a decimal constant of the source (whose
    numerator and power of ten are both below [2 ^ 53]). *)
Definition c_double (q : Q) : double :=
  F64.div (F64.of_Z (Qnum q)) (F64.of_Z (Zpos (Qden q))).

(** The [float] a decimal constant initialises. *)
Definition c_float (q : Q) : float := F32.round (c_double q).

(** The rational a finite floating-point number stands for. *)
Definition F2Q (x : spec_float) : option Q :=
  match x with
  | S754_zero _ => Some 0%Q
  | S754_finite s m e => Some (inject_Z (cond_Zopp s (Zpos m)) * Qpower 2 e)%Q
  | S754_infinity _ | S754_nan => None
  end.

(** ** Arrays and loops *)

(** [float a[n]], and [float a[n][m]] seen through its flat layout. *)
Definition farray := Z -> float.

(** [float data[NYEAR][NLAT][NLON]], the target of a [datasliceptr]. *)
Definition grid := Z -> Z -> Z -> float.

Definition upd (a : farray) (i : Z) (v : float) : farray :=
  fun i' => if i' =? i then v else a i'.

Definition upd3 (a : grid) (i j k : Z) (v : float) : grid :=
  fun i' j' k' =>
    if (i' =? i) && (j' =? j) && (k' =? k) then v else a i' j' k'.

(** [n] iterations of [body], the index starting at [i]. *)
Fixpoint iter_from {S : Type} (n : nat) (i : Z) (body : Z -> S -> S) (s : S) : S :=
  match n with
  | O => s
  | Datatypes.S n' => iter_from n' (i + 1) body (body i s)
  end.

(** [for (i = lo; i < hi; ++i) body] *)
Definition for_loop {S : Type} (lo hi : Z) (body : Z -> S -> S) (s : S) : S :=
  iter_from (Z.to_nat (hi - lo)) lo body s.

(** ** Diagnostics written to [stderr] *)

Inductive diag : Type :=
| Unable_to_open_file (filename : string)
    (* "Unable to open file %s\n" *)
| Unable_to_open_file_for_input (filename : string)
    (* "Unable to open file %s for input.\n" *)
| Error_reading_data_in_year (filename : string) (year : Z)
    (* "Error reading data from %s in year %d\n" *)
| Error_reading_data_from (filename : string)
    (* "Error reading data from %s.\n", "Error reading data from file %s\n" *)
| Error_reading_data_rgn (filename : string) (rgn iyear : Z)
    (* "Error reading data from %s .  rgn= %d  iyear = %d\n" *)
| Error_reading_config
    (* "Error reading from config file.\n" *)
| Unable_to_open_config (name : string)
    (* "Unable to open file for input: %s\n" *)
| Usage (prog : string)
    (* "Usage: %s <infile>\n\t-or-\t%s -\n" *)
| Failed_to_read_global_attributes
    (* "Failed to read global attributes\n" *)
| Reading_config_from_stdin
| Reading_config_from (name : string)
| Nc_error (stat : Z).
    (* "line %d of %s: %s\n" with nc_strerror(stat) *)

(** ** Binary input streams *)

(** A file of [size] 4-byte items; item [i] is [contents i]. *)
Record bin_file : Type := { contents : Z -> float; size : N }.

(** An open stream: the file and the number of items already consumed. *)
Record FILE : Type := { file : bin_file; pos : Z }.

(** The number of items the stream still has. *)
Definition avail (f : FILE) : Z := Z.max 0 (Z.of_N (size (file f)) - pos f).

(** [fread(buf, sizeof(float), nmemb, f)] into an object that holds [cap]
    floats: the number of items stored is the smaller of [nmemb] and what
    the stream still has; storing more than [cap] items is undefined. *)
Definition fread (cap : Z) (buf : farray) (nmemb : Z) (f : FILE)
  : option (farray * Z * FILE) :=
  let n := Z.min nmemb (avail f) in
  if n <=? cap then
    Some (fun j => if (0 <=? j) && (j <? n) then contents (file f) (pos f + j) else buf j,
          n,
          {| file := file f; pos := pos f + n |})
  else None.

(** The files a run can see, by name. [fopen] of a name without an entry
    fails. *)
Definition bin_fs := string -> option bin_file.

Definition fopen (fs : bin_fs) (filename : string) : option FILE :=
  match fs filename with
  | Some bf => Some {| file := bf; pos := 0 |}
  | None => None
  end.

(** ** Results of a reader: return status, diagnostics, output array *)

Record result (A : Type) : Type :=
  { stat : Z; errs : list diag; out : A }.
Arguments stat {A} _.
Arguments errs {A} _.
Arguments out {A} _.

Definition ret {A : Type} (st : Z) (e : list diag) (a : A) : result A :=
  {| stat := st; errs := e; out := a |}.

(** Sequencing of steps that may be undefined. *)
Definition bind {A B : Type} (m : option A) (k : A -> option B) : option B :=
  match m with
  | Some a => k a
  | None => None
  end.

Notation "x <- m ;; k" := (bind m (fun x => k))
  (at level 61, m at next level, right associativity).
Notation "' pat <- m ;; k" := (bind m (fun x => match x with pat => k end))
  (at level 61, pat pattern, m at next level, right associativity).

(** ** The grid readers *)

(** The three nested loops that fill [data] with [NAN]. The result is
    written as a function of the cell, so that evaluating a run goes
    through the loops only for a cell that is looked at. *)
Definition fill_nan (data : grid) : grid :=
  fun i j k =>
    for_loop 0 NYEAR (fun iyear data =>
      for_loop 0 NLAT (fun ilat data =>
        for_loop 0 NLON (fun ilon data =>
          upd3 data iyear ilat ilon F32.NAN) data) data) data
    i j k.

(** [strcmp(filename,"no-data")==0] *)
Definition is_no_data (filename : string) : bool := String.eqb filename "no-data".

(** The transposing store of [read_5yr_data]:
    [data[iyear][ilat][ilon] = readdata[iyear][NLAT*ilon + ilat]]. *)
Definition transpose_5yr (readdata : farray) (data : grid) : grid :=
  for_loop 0 NYEAR (fun iyear data =>
    for_loop 0 NLON (fun ilon data =>
      for_loop 0 NLAT (fun ilat data =>
        upd3 data iyear ilat ilon
             (readdata (iyear * (NLON * NLAT) + (NLAT * ilon + ilat))))
      data) data) data.

(** [read_5yr_data(filename, data, nskipyr)]; [readdata] is the content
    of the static read buffer [readdata[NYEAR][NLON*NLAT]] on entry. *)
Definition read_5yr_data (fs : bin_fs) (readdata : farray)
    (filename : string) (data : grid) (nskipyr : Z) : option (result grid) :=
  if is_no_data filename then
    Some (ret 0 [] (fill_nan data))
  else
    match fopen fs filename with
    | None => Some (ret 1 [Unable_to_open_file_for_input filename] data)
    | Some datafile =>
      m <- int_mul nskipyr NLAT ;;
      nskip <- int_mul m NLON ;;
      (* the throwaway block; its item count is not looked at *)
      '(readdata, _, datafile) <-
         fread (NYEAR * (NLON * NLAT)) readdata (to_size_t nskip) datafile ;;
      (* read the actual data *)
      '(readdata, nread, datafile) <-
         fread (NYEAR * (NLON * NLAT)) readdata (NYEAR * NLAT * NLON) datafile ;;
      if negb (nread =? NYEAR * NLAT * NLON) then
        Some (ret 1 [Error_reading_data_from filename] data)
      else
        Some (ret 0 [] (transpose_5yr readdata data))
    end.

(** Control after one pass through a loop body that can leave the
    function. *)
Inductive ctl (S R : Type) : Type :=
| Continue (s : S)
| Return (r : R)
| Undefined.
Arguments Continue {S R} _.
Arguments Return {S R} _.
Arguments Undefined {S R}.

Fixpoint iter_ctl {S R : Type} (n : nat) (i : Z) (body : Z -> S -> ctl S R) (s : S)
  : ctl S R :=
  match n with
  | O => Continue s
  | Datatypes.S n' =>
    match body i s with
    | Continue s' => iter_ctl n' (i + 1) body s'
    | Return r => Return r
    | Undefined => Undefined
    end
  end.

(** [for (i = lo; i < hi; ++i) body], where [body] may [return]. *)
Definition for_ctl {S R : Type} (lo hi : Z) (body : Z -> S -> ctl S R) (s : S)
  : ctl S R :=
  iter_ctl (Z.to_nat (hi - lo)) lo body s.

(** [memset(a, 0, n*sizeof(float))]: all-zero bits are [+0.0f]. *)
Definition memset0 (a : farray) (n : Z) : farray :=
  fun i => if (0 <=? i) && (i <? n) then F32.zero else a i.

(** [fac = 3.156e-2 / 12.0]: a quotient of two [double] constants,
    converted to [float] by the assignment. *)
Definition fac : float :=
  F32.round (F64.div (c_double 3.156e-2) (c_double 12.0)).

(** [transdata[i] += readdata[imonth][i]] for all months and cells. *)
Definition aggregate (readdata transdata : farray) : farray :=
  for_loop 0 12 (fun imonth transdata =>
    for_loop 0 (NLAT * NLON) (fun i transdata =>
      upd transdata i (F32.add (transdata i) (readdata (imonth * (NLON * NLAT) + i))))
    transdata) transdata.

(** [data[iyear][ilat][ilon] = transdata[NLAT*ilon + ilat]*fac] *)
Definition transpose_scaled (transdata : farray) (iyear : Z) (data : grid) : grid :=
  for_loop 0 NLON (fun ilon data =>
    for_loop 0 NLAT (fun ilat data =>
      upd3 data iyear ilat ilon (F32.mul (transdata (NLAT * ilon + ilat)) fac))
    data) data.

(** The state of the year loop of [read_and_aggregate_data]. *)
Record agg_state : Type :=
  { infile : FILE; readdata_of : farray; transdata_of : farray; data_of : grid }.

(** One pass through [for(year=2001; year <=2095; ++year)]. *)
Definition agg_year (filename : string) (year : Z) (s : agg_state)
  : ctl agg_state (result grid) :=
  match fread (12 * (NLON * NLAT)) (readdata_of s) (12 * NLAT * NLON) (infile s) with
  | None => Undefined
  | Some (readdata, nread, infile) =>
    if negb (nread =? 12 * NLAT * NLON) then
      Return (ret 3 [Error_reading_data_in_year filename year] (data_of s))
    else if (year <? 2010) || negb (Z.rem year 5 =? 0) then
      (* continue: skip years before 2010 *)
      Continue {| infile := infile; readdata_of := readdata;
                  transdata_of := transdata_of s; data_of := data_of s |}
    else
      let iyear := Z.quot (year - 2010) 5 in
      let transdata := memset0 (transdata_of s) (NLAT * NLON) in
      let transdata := aggregate readdata transdata in
      Continue {| infile := infile; readdata_of := readdata;
                  transdata_of := transdata;
                  data_of := transpose_scaled transdata iyear (data_of s) |}
  end.

(** [read_and_aggregate_data(filename, data)]; [readdata] and
    [transdata] are the contents of the two static buffers on entry. *)
Definition read_and_aggregate_data (fs : bin_fs) (readdata transdata : farray)
    (filename : string) (data : grid) : option (result grid) :=
  if is_no_data filename then
    Some (ret 0 [] (fill_nan data))
  else
    match fopen fs filename with
    | None => Some (ret 1 [Unable_to_open_file filename] data)
    | Some infile =>
      match for_ctl 2001 2096 (agg_year filename)
              {| infile := infile; readdata_of := readdata;
                 transdata_of := transdata; data_of := data |} with
      | Continue s => Some (ret 0 [] (data_of s))
      | Return r => Some r
      | Undefined => None
      end
    end.

(** ** The packed-binary table reader *)

(** [read_table_data(filename, nrow, data)]: [data] is the caller's
    [float [NYEAR][nrow]] through its flat layout, [tempdata] the
    indeterminate content of the local [float tempdata[NBASIN]]. (The
    file is opened with mode "r", which on a POSIX system reads the same
    bytes as "rb".) *)
Definition read_table_data (fs : bin_fs) (tempdata : farray)
    (filename : string) (nrow : Z) (data : farray) : option (result farray) :=
  match fopen fs filename with
  | None => Some (ret 1 [Unable_to_open_file_for_input filename] data)
  | Some datafile =>
    (* this is the throwaway year *)
    '(tempdata, _, datafile) <- fread NBASIN tempdata (to_size_t nrow) datafile ;;
    n <- int_mul NYEAR nrow ;;
    '(data', nread, datafile) <- fread (NYEAR * nrow) data (to_size_t n) datafile ;;
    if negb (nread =? n) then
      Some (ret 1 [Error_reading_data_from filename] data')
    else
      Some (ret 0 [] data')
  end.

(** ** Text input streams and the [scanf] conversions the program uses *)

(** The characters still to be read. *)
Definition stream := list ascii.

(** The text files a run can see, by name. *)
Definition txt_fs := string -> option stream.

Definition EOF : Z := -1.

Definition comma : ascii := ","%char.
Definition newline : ascii := ascii_of_nat 10.

(** [isspace] in the C locale: space and the controls 9 to 13. *)
Definition isspace (c : ascii) : bool :=
  let n := Z.of_N (N_of_ascii c) in (n =? 32) || ((9 <=? n) && (n <=? 13)).

Fixpoint skip_ws (s : stream) : stream :=
  match s with
  | c :: s' => if isspace c then skip_ws s' else s
  | [] => []
  end.

(** [fgets(buf, size, f)] as far as the stream goes: at most [size - 1]
    characters are taken, and none after a newline. *)
Fixpoint fgets_chars (n : nat) (s : stream) : stream :=
  match n, s with
  | O, _ => s
  | _, [] => []
  | Datatypes.S n', c :: s' => if Ascii.eqb c newline then s' else fgets_chars n' s'
  end.

Definition fgets (size : Z) (s : stream) : stream :=
  fgets_chars (Z.to_nat (size - 1)) s.

(** [(int) round(x)]: [round] yields the integer nearest to [x], halfway
    cases away from zero; that integer converts to [int] unchanged when it
    is in range, and the conversion of anything else is undefined. *)
Definition round_magnitude (m : positive) (e : Z) : Z :=
  if 0 <=? e then Zpos m * 2 ^ e
  else (2 * Zpos m + 2 ^ (- e)) / (2 * 2 ^ (- e)).

Definition int_of_round (x : double) : option Z :=
  match x with
  | S754_zero _ => Some 0
  | S754_finite s m e =>
    let r := cond_Zopp s (round_magnitude m e) in
    if in_int r then Some r else None
  | S754_infinity _ | S754_nan => None
  end.

(** [int data[][NRGN]], indexed [data[iyear][rgn]]. *)
Definition itable := Z -> Z -> Z.

Definition upd2 (a : itable) (i j : Z) (v : Z) : itable :=
  fun i' j' => if (i' =? i) && (j' =? j) then v else a i' j'.

Section Scanf.

(** The numeric conversion of the C library: the value of the longest
    initial numeral of the input (which has no leading white space) and
    the input after it, or [None] when the input starts with no numeral. *)
Variable strtod : stream -> option (double * stream).

(** [fscanf(f, "%*f,%*f")]: two suppressed conversions around a comma.
    The value returned is the number of assignments (none) or [EOF]. *)
Definition fscanf_skip2 (s : stream) : Z * stream :=
  match skip_ws s with
  | [] => (EOF, [])
  | s1 =>
    match strtod s1 with
    | None => (0, s1)
    | Some (_, s2) =>
      match s2 with
      | c :: s3 =>
        if Ascii.eqb c comma then
          match skip_ws s3 with
          | [] => (0, [])
          | s4 => match strtod s4 with
                  | None => (0, s4)
                  | Some (_, s5) => (0, s5)
                  end
          end
        else (0, s2)
      | [] => (0, [])
      end
    end
  end.

(** [fscanf(f, ",%lf", &tmp)]: the number of assignments or [EOF], the
    content of [tmp] afterwards, and the rest of the stream. *)
Definition fscanf_comma_lf (s : stream) (tmp : double) : Z * double * stream :=
  match s with
  | [] => (EOF, tmp, [])
  | c :: s1 =>
    if Ascii.eqb c comma then
      match skip_ws s1 with
      | [] => (EOF, tmp, [])
      | s2 => match strtod s2 with
              | None => (0, tmp, s2)
              | Some (v, s3) => (1, v, s3)
              end
      end
    else (0, tmp, s)
  end.

(** [fscanf(f, "%f", &x)]: the number of assignments or [EOF], the
    content of [x] afterwards, and the rest of the stream. *)
Definition fscanf_f (s : stream) (x : float) : Z * float * stream :=
  match skip_ws s with
  | [] => (EOF, x, [])
  | s1 => match strtod s1 with
          | None => (0, x, s1)
          | Some (v, s2) => (1, F32.round v, s2)
          end
  end.

(** ** The population reader *)

Record pop_state : Type :=
  { datafile_of : stream; tmp_of : double; popdata_of : itable }.

(** One pass through [for(iyear=0; iyear<NYEAR; ++iyear)]: the
    assignment to [data[iyear][rgn]] comes before the test of [nconv]. *)
Definition pop_year (filename : string) (rgn iyear : Z) (s : pop_state)
  : ctl pop_state (result itable) :=
  let '(nconv, tmp, datafile) := fscanf_comma_lf (datafile_of s) (tmp_of s) in
  match int_of_round tmp with
  | None => Undefined
  | Some v =>
    let data := upd2 (popdata_of s) iyear rgn v in
    if negb (nconv =? 1) then
      Return (ret 1 [Error_reading_data_rgn filename rgn iyear] data)
    else
      Continue {| datafile_of := datafile; tmp_of := tmp; popdata_of := data |}
  end.

(** One pass through [for(rgn=0; rgn<NRGN; ++rgn)]. *)
Definition pop_rgn (filename : string) (rgn : Z) (s : pop_state)
  : ctl pop_state (result itable) :=
  (* drop the first two entries in each line *)
  let '(_, datafile) := fscanf_skip2 (datafile_of s) in
  match for_ctl 0 NYEAR (pop_year filename rgn)
          {| datafile_of := datafile; tmp_of := tmp_of s; popdata_of := popdata_of s |} with
  | Continue s' =>
    (* drop the remainder of the line *)
    Continue {| datafile_of := fgets 1024 (datafile_of s');
                tmp_of := tmp_of s'; popdata_of := popdata_of s' |}
  | Return r => Return r
  | Undefined => Undefined
  end.

(** [read_pop_data(filename, data)]; [tmp] is the indeterminate content
    of the local [double tmp] on entry. *)
Definition read_pop_data (fs : txt_fs) (tmp : double)
    (filename : string) (data : itable) : option (result itable) :=
  match fs filename with
  | None => Some (ret 1 [Unable_to_open_file_for_input filename] data)
  | Some datafile =>
    match for_ctl 0 NRGN (pop_rgn filename)
            {| datafile_of := datafile; tmp_of := tmp; popdata_of := data |} with
    | Continue s => Some (ret 0 [] (popdata_of s))
    | Return r => Some r
    | Undefined => None
    end
  end.

End Scanf.

(** ** The archive writer *)

(** The initialisers of [lat_data], [lon_data] and [time_data]. *)
Definition lat_literals : list Q :=
  [
   -89.75; -89.25; -88.75; -88.25; -87.75; -87.25; -86.75; -86.25; -85.75; -85.25;
   -84.75; -84.25; -83.75; -83.25; -82.75; -82.25; -81.75; -81.25; -80.75; -80.25;
   -79.75; -79.25; -78.75; -78.25; -77.75; -77.25; -76.75; -76.25; -75.75; -75.25;
   -74.75; -74.25; -73.75; -73.25; -72.75; -72.25; -71.75; -71.25; -70.75; -70.25;
   -69.75; -69.25; -68.75; -68.25; -67.75; -67.25; -66.75; -66.25; -65.75; -65.25;
   -64.75; -64.25; -63.75; -63.25; -62.75; -62.25; -61.75; -61.25; -60.75; -60.25;
   -59.75; -59.25; -58.75; -58.25; -57.75; -57.25; -56.75; -56.25; -55.75; -55.25;
   -54.75; -54.25; -53.75; -53.25; -52.75; -52.25; -51.75; -51.25; -50.75; -50.25;
   -49.75; -49.25; -48.75; -48.25; -47.75; -47.25; -46.75; -46.25; -45.75; -45.25;
   -44.75; -44.25; -43.75; -43.25; -42.75; -42.25; -41.75; -41.25; -40.75; -40.25;
   -39.75; -39.25; -38.75; -38.25; -37.75; -37.25; -36.75; -36.25; -35.75; -35.25;
   -34.75; -34.25; -33.75; -33.25; -32.75; -32.25; -31.75; -31.25; -30.75; -30.25;
   -29.75; -29.25; -28.75; -28.25; -27.75; -27.25; -26.75; -26.25; -25.75; -25.25;
   -24.75; -24.25; -23.75; -23.25; -22.75; -22.25; -21.75; -21.25; -20.75; -20.25;
   -19.75; -19.25; -18.75; -18.25; -17.75; -17.25; -16.75; -16.25; -15.75; -15.25;
   -14.75; -14.25; -13.75; -13.25; -12.75; -12.25; -11.75; -11.25; -10.75; -10.25;
   -9.75; -9.25; -8.75; -8.25; -7.75; -7.25; -6.75; -6.25; -5.75; -5.25;
   -4.75; -4.25; -3.75; -3.25; -2.75; -2.25; -1.75; -1.25; -0.75; -0.25;
   0.25; 0.75; 1.25; 1.75; 2.25; 2.75; 3.25; 3.75; 4.25; 4.75;
   5.25; 5.75; 6.25; 6.75; 7.25; 7.75; 8.25; 8.75; 9.25; 9.75;
   10.25; 10.75; 11.25; 11.75; 12.25; 12.75; 13.25; 13.75; 14.25; 14.75;
   15.25; 15.75; 16.25; 16.75; 17.25; 17.75; 18.25; 18.75; 19.25; 19.75;
   20.25; 20.75; 21.25; 21.75; 22.25; 22.75; 23.25; 23.75; 24.25; 24.75;
   25.25; 25.75; 26.25; 26.75; 27.25; 27.75; 28.25; 28.75; 29.25; 29.75;
   30.25; 30.75; 31.25; 31.75; 32.25; 32.75; 33.25; 33.75; 34.25; 34.75;
   35.25; 35.75; 36.25; 36.75; 37.25; 37.75; 38.25; 38.75; 39.25; 39.75;
   40.25; 40.75; 41.25; 41.75; 42.25; 42.75; 43.25; 43.75; 44.25; 44.75;
   45.25; 45.75; 46.25; 46.75; 47.25; 47.75; 48.25; 48.75; 49.25; 49.75;
   50.25; 50.75; 51.25; 51.75; 52.25; 52.75; 53.25; 53.75; 54.25; 54.75;
   55.25; 55.75; 56.25; 56.75; 57.25; 57.75; 58.25; 58.75; 59.25; 59.75;
   60.25; 60.75; 61.25; 61.75; 62.25; 62.75; 63.25; 63.75; 64.25; 64.75;
   65.25; 65.75; 66.25; 66.75; 67.25; 67.75; 68.25; 68.75; 69.25; 69.75;
   70.25; 70.75; 71.25; 71.75; 72.25; 72.75; 73.25; 73.75; 74.25; 74.75;
   75.25; 75.75; 76.25; 76.75; 77.25; 77.75; 78.25; 78.75; 79.25; 79.75;
   80.25; 80.75; 81.25; 81.75; 82.25; 82.75; 83.25; 83.75; 84.25; 84.75;
   85.25; 85.75; 86.25; 86.75; 87.25; 87.75; 88.25; 88.75; 89.25; 89.75
  ]%Q.

Definition lon_literals : list Q :=
  [
   -179.75; -179.25; -178.75; -178.25; -177.75; -177.25; -176.75; -176.25; -175.75; -175.25;
   -174.75; -174.25; -173.75; -173.25; -172.75; -172.25; -171.75; -171.25; -170.75; -170.25;
   -169.75; -169.25; -168.75; -168.25; -167.75; -167.25; -166.75; -166.25; -165.75; -165.25;
   -164.75; -164.25; -163.75; -163.25; -162.75; -162.25; -161.75; -161.25; -160.75; -160.25;
   -159.75; -159.25; -158.75; -158.25; -157.75; -157.25; -156.75; -156.25; -155.75; -155.25;
   -154.75; -154.25; -153.75; -153.25; -152.75; -152.25; -151.75; -151.25; -150.75; -150.25;
   -149.75; -149.25; -148.75; -148.25; -147.75; -147.25; -146.75; -146.25; -145.75; -145.25;
   -144.75; -144.25; -143.75; -143.25; -142.75; -142.25; -141.75; -141.25; -140.75; -140.25;
   -139.75; -139.25; -138.75; -138.25; -137.75; -137.25; -136.75; -136.25; -135.75; -135.25;
   -134.75; -134.25; -133.75; -133.25; -132.75; -132.25; -131.75; -131.25; -130.75; -130.25;
   -129.75; -129.25; -128.75; -128.25; -127.75; -127.25; -126.75; -126.25; -125.75; -125.25;
   -124.75; -124.25; -123.75; -123.25; -122.75; -122.25; -121.75; -121.25; -120.75; -120.25;
   -119.75; -119.25; -118.75; -118.25; -117.75; -117.25; -116.75; -116.25; -115.75; -115.25;
   -114.75; -114.25; -113.75; -113.25; -112.75; -112.25; -111.75; -111.25; -110.75; -110.25;
   -109.75; -109.25; -108.75; -108.25; -107.75; -107.25; -106.75; -106.25; -105.75; -105.25;
   -104.75; -104.25; -103.75; -103.25; -102.75; -102.25; -101.75; -101.25; -100.75; -100.25;
   -99.75; -99.25; -98.75; -98.25; -97.75; -97.25; -96.75; -96.25; -95.75; -95.25;
   -94.75; -94.25; -93.75; -93.25; -92.75; -92.25; -91.75; -91.25; -90.75; -90.25;
   -89.75; -89.25; -88.75; -88.25; -87.75; -87.25; -86.75; -86.25; -85.75; -85.25;
   -84.75; -84.25; -83.75; -83.25; -82.75; -82.25; -81.75; -81.25; -80.75; -80.25;
   -79.75; -79.25; -78.75; -78.25; -77.75; -77.25; -76.75; -76.25; -75.75; -75.25;
   -74.75; -74.25; -73.75; -73.25; -72.75; -72.25; -71.75; -71.25; -70.75; -70.25;
   -69.75; -69.25; -68.75; -68.25; -67.75; -67.25; -66.75; -66.25; -65.75; -65.25;
   -64.75; -64.25; -63.75; -63.25; -62.75; -62.25; -61.75; -61.25; -60.75; -60.25;
   -59.75; -59.25; -58.75; -58.25; -57.75; -57.25; -56.75; -56.25; -55.75; -55.25;
   -54.75; -54.25; -53.75; -53.25; -52.75; -52.25; -51.75; -51.25; -50.75; -50.25;
   -49.75; -49.25; -48.75; -48.25; -47.75; -47.25; -46.75; -46.25; -45.75; -45.25;
   -44.75; -44.25; -43.75; -43.25; -42.75; -42.25; -41.75; -41.25; -40.75; -40.25;
   -39.75; -39.25; -38.75; -38.25; -37.75; -37.25; -36.75; -36.25; -35.75; -35.25;
   -34.75; -34.25; -33.75; -33.25; -32.75; -32.25; -31.75; -31.25; -30.75; -30.25;
   -29.75; -29.25; -28.75; -28.25; -27.75; -27.25; -26.75; -26.25; -25.75; -25.25;
   -24.75; -24.25; -23.75; -23.25; -22.75; -22.25; -21.75; -21.25; -20.75; -20.25;
   -19.75; -19.25; -18.75; -18.25; -17.75; -17.25; -16.75; -16.25; -15.75; -15.25;
   -14.75; -14.25; -13.75; -13.25; -12.75; -12.25; -11.75; -11.25; -10.75; -10.25;
   -9.75; -9.25; -8.75; -8.25; -7.75; -7.25; -6.75; -6.25; -5.75; -5.25;
   -4.75; -4.25; -3.75; -3.25; -2.75; -2.25; -1.75; -1.25; -0.75; -0.25;
   0.25; 0.75; 1.25; 1.75; 2.25; 2.75; 3.25; 3.75; 4.25; 4.75;
   5.25; 5.75; 6.25; 6.75; 7.25; 7.75; 8.25; 8.75; 9.25; 9.75;
   10.25; 10.75; 11.25; 11.75; 12.25; 12.75; 13.25; 13.75; 14.25; 14.75;
   15.25; 15.75; 16.25; 16.75; 17.25; 17.75; 18.25; 18.75; 19.25; 19.75;
   20.25; 20.75; 21.25; 21.75; 22.25; 22.75; 23.25; 23.75; 24.25; 24.75;
   25.25; 25.75; 26.25; 26.75; 27.25; 27.75; 28.25; 28.75; 29.25; 29.75;
   30.25; 30.75; 31.25; 31.75; 32.25; 32.75; 33.25; 33.75; 34.25; 34.75;
   35.25; 35.75; 36.25; 36.75; 37.25; 37.75; 38.25; 38.75; 39.25; 39.75;
   40.25; 40.75; 41.25; 41.75; 42.25; 42.75; 43.25; 43.75; 44.25; 44.75;
   45.25; 45.75; 46.25; 46.75; 47.25; 47.75; 48.25; 48.75; 49.25; 49.75;
   50.25; 50.75; 51.25; 51.75; 52.25; 52.75; 53.25; 53.75; 54.25; 54.75;
   55.25; 55.75; 56.25; 56.75; 57.25; 57.75; 58.25; 58.75; 59.25; 59.75;
   60.25; 60.75; 61.25; 61.75; 62.25; 62.75; 63.25; 63.75; 64.25; 64.75;
   65.25; 65.75; 66.25; 66.75; 67.25; 67.75; 68.25; 68.75; 69.25; 69.75;
   70.25; 70.75; 71.25; 71.75; 72.25; 72.75; 73.25; 73.75; 74.25; 74.75;
   75.25; 75.75; 76.25; 76.75; 77.25; 77.75; 78.25; 78.75; 79.25; 79.75;
   80.25; 80.75; 81.25; 81.75; 82.25; 82.75; 83.25; 83.75; 84.25; 84.75;
   85.25; 85.75; 86.25; 86.75; 87.25; 87.75; 88.25; 88.75; 89.25; 89.75;
   90.25; 90.75; 91.25; 91.75; 92.25; 92.75; 93.25; 93.75; 94.25; 94.75;
   95.25; 95.75; 96.25; 96.75; 97.25; 97.75; 98.25; 98.75; 99.25; 99.75;
   100.25; 100.75; 101.25; 101.75; 102.25; 102.75; 103.25; 103.75; 104.25; 104.75;
   105.25; 105.75; 106.25; 106.75; 107.25; 107.75; 108.25; 108.75; 109.25; 109.75;
   110.25; 110.75; 111.25; 111.75; 112.25; 112.75; 113.25; 113.75; 114.25; 114.75;
   115.25; 115.75; 116.25; 116.75; 117.25; 117.75; 118.25; 118.75; 119.25; 119.75;
   120.25; 120.75; 121.25; 121.75; 122.25; 122.75; 123.25; 123.75; 124.25; 124.75;
   125.25; 125.75; 126.25; 126.75; 127.25; 127.75; 128.25; 128.75; 129.25; 129.75;
   130.25; 130.75; 131.25; 131.75; 132.25; 132.75; 133.25; 133.75; 134.25; 134.75;
   135.25; 135.75; 136.25; 136.75; 137.25; 137.75; 138.25; 138.75; 139.25; 139.75;
   140.25; 140.75; 141.25; 141.75; 142.25; 142.75; 143.25; 143.75; 144.25; 144.75;
   145.25; 145.75; 146.25; 146.75; 147.25; 147.75; 148.25; 148.75; 149.25; 149.75;
   150.25; 150.75; 151.25; 151.75; 152.25; 152.75; 153.25; 153.75; 154.25; 154.75;
   155.25; 155.75; 156.25; 156.75; 157.25; 157.75; 158.25; 158.75; 159.25; 159.75;
   160.25; 160.75; 161.25; 161.75; 162.25; 162.75; 163.25; 163.75; 164.25; 164.75;
   165.25; 165.75; 166.25; 166.75; 167.25; 167.75; 168.25; 168.75; 169.25; 169.75;
   170.25; 170.75; 171.25; 171.75; 172.25; 172.75; 173.25; 173.75; 174.25; 174.75;
   175.25; 175.75; 176.25; 176.75; 177.25; 177.75; 178.25; 178.75; 179.25; 179.75
  ]%Q.

Definition time_literals : list Q :=
  [
   2010; 2015; 2020; 2025; 2030; 2035; 2040; 2045; 2050; 2055;
   2060; 2065; 2070; 2075; 2080; 2085; 2090; 2095
  ]%Q.

(** An array with an initialiser list; elements without an initialiser
    are zero. *)
Definition array_of_list (l : list float) : farray :=
  fun i => if i <? 0 then F32.zero else nth (Z.to_nat i) l F32.zero.

Definition lat_data : farray := array_of_list (map c_float lat_literals).
Definition lon_data : farray := array_of_list (map c_float lon_literals).
Definition time_data : farray := array_of_list (map c_float time_literals).

Definition iarray := Z -> Z.

Definition updz (a : iarray) (i : Z) (v : Z) : iarray :=
  fun i' => if i' =? i then v else a i'.

(** [for(i=0;i<NRGN;++i) rgn_data[i] = i;] on the local array whose
    indeterminate content is [garbage]. *)
Definition rgn_data (garbage : iarray) : iarray :=
  for_loop 0 NRGN (fun i rgn_data => updz rgn_data i i) garbage.

(** [for(i=0; i<NBASIN; ++i) basin_data[i] = i+1;] *)
Definition basin_data (garbage : iarray) : iarray :=
  for_loop 0 NBASIN (fun i basin_data => updz basin_data i (i + 1)) garbage.

(** The calls into the netCDF library. Dimensions and variables are
    named by their strings instead of the ids the library hands out. *)
Inductive nc_type : Type := NC_FLOAT | NC_INT.

Inductive nc_call : Type :=
| nc_create (path : string)
| nc_def_dim (name : string) (len : Z)
| nc_def_var (name : string) (xtype : nc_type) (dims : list string)
| nc_put_att_float (name : string) (value : float)
| nc_put_att_text (var name : string) (len : Z) (text : string)
| nc_enddef
| nc_put_vara (var : string) (start count : Z) (data : farray)
| nc_put_var_int (var : string) (data : iarray)
| nc_put_var_float (var : string) (data : farray)
| nc_close.

(** The library: the status of a call, after the calls made before it. *)
Definition nc_library := list nc_call -> nc_call -> Z.

Definition NC_NOERR : Z := 0.

(** A call followed by [check_err], or one whose status is dropped. *)
Inductive nc_step : Type :=
| Checked (c : nc_call)
| Unchecked (c : nc_call).

(** How a function ends: it returns a status, or [exit] ends the process. *)
Inductive ending : Type :=
| Returns (stat : Z)
| Exits (status : Z).

(** [check_err(stat, line, file)]: [exit(1)] unless [stat] is
    [NC_NOERR]. *)
Definition check_err (stat : Z) : option (ending * list diag) :=
  if negb (stat =? NC_NOERR) then Some (Exits 1, [Nc_error stat]) else None.

(** The calls of [steps] in order, until a checked one fails. The result
    lists the calls made. *)
Fixpoint run_steps (lib : nc_library) (made : list nc_call) (steps : list nc_step)
  : ending * list diag * list nc_call :=
  match steps with
  | [] => (Returns 0, [], made)
  | Checked c :: rest =>
    match check_err (lib made c) with
    | Some (e, d) => (e, d, made ++ [c])
    | None => run_steps lib (made ++ [c]) rest
    end
  | Unchecked c :: rest => run_steps lib (made ++ [c]) rest
  end.

Record metadata : Type :=
  { global_forcing : float; global_pop : float; global_pcgdp : float }.

(** [data[i]] cast to a pointer to [float]: the flat view of a
    [float [NYEAR][NLAT][NLON]]. *)
Definition flat_grid (g : grid) : farray :=
  fun p => g (p / (NLAT * NLON)) ((p / NLON) mod NLAT) (p mod NLON).

(** [popdata] cast to a pointer to [int]: the flat view of an
    [int [NYEAR][NRGN]]. *)
Definition flat_itable (t : itable) : iarray :=
  fun p => t (p / NRGN) (p mod NRGN).

(** The data arrays handed to [mat2nc]: the eight grids, the population
    table, the eight basin tables and the eight region tables. *)
Record dataset : Type :=
  { grids : Z -> grid; pop : itable; btables : Z -> farray; rtables : Z -> farray }.

Definition grid_dims : list string := ["time"; "lat"; "lon"]%string.
Definition pop_dims : list string := ["time"; "rgn"]%string.
Definition basin_tbl_dims : list string := ["time"; "basin"]%string.

Definition units (var : string) (len : Z) (text : string) : nc_call :=
  nc_put_att_text var "units" len text.

Open Scope string_scope.

(** The body of [mat2nc], call by call. *)
Definition mat2nc_steps (outfilename : string) (md : metadata) (d : dataset)
    (rgn_garbage basin_garbage : iarray) : list nc_step :=
  [ (* enter define mode *)
    Checked (nc_create outfilename);
    (* define dimensions *)
    Checked (nc_def_dim "lat" NLAT);
    Checked (nc_def_dim "lon" NLON);
    Checked (nc_def_dim "time" NYEAR);
    Checked (nc_def_dim "rgn" NRGN);
    Checked (nc_def_dim "basin" NBASIN);
    (* define variables *)
    Checked (nc_def_var "lat" NC_FLOAT ["lat"]);
    Checked (nc_def_var "lon" NC_FLOAT ["lon"]);
    Checked (nc_def_var "time" NC_FLOAT ["time"]);
    Checked (nc_def_var "rgn" NC_INT ["rgn"]);
    Checked (nc_def_var "basin" NC_INT ["basin"]);
    Checked (nc_def_var "supply" NC_FLOAT grid_dims);
    Checked (nc_def_var "irrigation_demand" NC_FLOAT grid_dims);
    Checked (nc_def_var "livestock_demand" NC_FLOAT grid_dims);
    Checked (nc_def_var "electricity_demand" NC_FLOAT grid_dims);
    Checked (nc_def_var "mfg_demand" NC_FLOAT grid_dims);
    Checked (nc_def_var "total_demand" NC_FLOAT grid_dims);
    Checked (nc_def_var "domestic_demand" NC_FLOAT grid_dims);
    Checked (nc_def_var "scarcity" NC_FLOAT grid_dims);
    Checked (nc_def_var "population" NC_INT pop_dims);
    Checked (nc_def_var "basin_supply" NC_FLOAT basin_tbl_dims);
    Checked (nc_def_var "basin_irrigation_demand" NC_FLOAT basin_tbl_dims);
    Checked (nc_def_var "basin_livestock_demand" NC_FLOAT basin_tbl_dims);
    Checked (nc_def_var "basin_electricity_demand" NC_FLOAT basin_tbl_dims);
    Checked (nc_def_var "basin_manufacturing_demand" NC_FLOAT basin_tbl_dims);
    Checked (nc_def_var "basin_total_demand" NC_FLOAT basin_tbl_dims);
    Checked (nc_def_var "basin_domestic_demand" NC_FLOAT basin_tbl_dims);
    Checked (nc_def_var "basin_water_scarcity" NC_FLOAT basin_tbl_dims);
    Checked (nc_def_var "region_supply" NC_FLOAT pop_dims);
    Checked (nc_def_var "region_irrigation_demand" NC_FLOAT pop_dims);
    Checked (nc_def_var "region_livestock_demand" NC_FLOAT pop_dims);
    Checked (nc_def_var "region_electricity_demand" NC_FLOAT pop_dims);
    Checked (nc_def_var "region_manufacturing_demand" NC_FLOAT pop_dims);
    Checked (nc_def_var "region_total" NC_FLOAT pop_dims);
    Checked (nc_def_var "region_domestic_demand" NC_FLOAT pop_dims);
    Checked (nc_def_var "region_water_scarcity" NC_FLOAT pop_dims);
    (* assign global attributes *)
    Checked (nc_put_att_float "forcing" (global_forcing md));
    Checked (nc_put_att_float "population" (global_pop md));
    (* assign per-variable attributes *)
    Checked (units "lat" 13 "degrees_north");
    Checked (units "lon" 12 "degrees_east");
    Checked (units "time" 4 "year");
    Checked (units "population" 9 "thousands");
    Unchecked (units "supply" 4 "km^3");
    Unchecked (units "irrigation_demand" 4 "km^3");
    Unchecked (units "livestock_demand" 4 "km^3");
    Unchecked (units "electricity_demand" 4 "km^3");
    Unchecked (units "mfg_demand" 4 "km^3");
    Unchecked (units "total_demand" 4 "km^3");
    Unchecked (units "domestic_demand" 4 "km^3");
    Unchecked (units "basin_supply" 4 "km^3");
    Unchecked (units "basin_irrigation_demand" 4 "km^3");
    Unchecked (units "basin_livestock_demand" 4 "km^3");
    Unchecked (units "basin_electricity_demand" 4 "km^3");
    Unchecked (units "basin_manufacturing_demand" 4 "km^3");
    Unchecked (units "basin_total_demand" 4 "km^3");
    Unchecked (units "basin_domestic_demand" 4 "km^3");
    Unchecked (units "region_supply" 4 "km^3");
    Unchecked (units "region_irrigation_demand" 4 "km^3");
    Unchecked (units "region_livestock_demand" 4 "km^3");
    Unchecked (units "region_electricity_demand" 4 "km^3");
    Unchecked (units "region_manufacturing_demand" 4 "km^3");
    Unchecked (units "region_total" 4 "km^3");
    Unchecked (units "region_domestic_demand" 4 "km^3");
    (* wsi is unitless *)
    Unchecked (units "scarcity" 10 "(unitless)");
    Unchecked (units "basin_water_scarcity" 10 "(unitless)");
    Unchecked (units "region_water_scarcity" 10 "(unitless)");
    (* leave define mode *)
    Checked nc_enddef;
    (* assign variable data *)
    Checked (nc_put_vara "lat" 0 NLAT lat_data);
    Checked (nc_put_vara "lon" 0 NLON lon_data);
    Checked (nc_put_vara "time" 0 NYEAR time_data);
    Checked (nc_put_var_int "rgn" (rgn_data rgn_garbage));
    Checked (nc_put_var_int "basin" (basin_data basin_garbage));
    (* write out the data variables *)
    Checked (nc_put_var_float "supply" (flat_grid (grids d 0)));
    Checked (nc_put_var_float "irrigation_demand" (flat_grid (grids d 1)));
    Checked (nc_put_var_float "livestock_demand" (flat_grid (grids d 2)));
    Checked (nc_put_var_float "electricity_demand" (flat_grid (grids d 3)));
    Checked (nc_put_var_float "mfg_demand" (flat_grid (grids d 4)));
    Checked (nc_put_var_float "total_demand" (flat_grid (grids d 5)));
    Checked (nc_put_var_float "domestic_demand" (flat_grid (grids d 6)));
    Checked (nc_put_var_float "scarcity" (flat_grid (grids d 7)));
    Checked (nc_put_var_int "population" (flat_itable (pop d)));
    Checked (nc_put_var_float "basin_supply" (btables d 0));
    Checked (nc_put_var_float "basin_irrigation_demand" (btables d 1));
    Checked (nc_put_var_float "basin_livestock_demand" (btables d 2));
    Checked (nc_put_var_float "basin_electricity_demand" (btables d 3));
    Checked (nc_put_var_float "basin_manufacturing_demand" (btables d 4));
    Checked (nc_put_var_float "basin_total_demand" (btables d 5));
    Checked (nc_put_var_float "basin_domestic_demand" (btables d 6));
    Checked (nc_put_var_float "basin_water_scarcity" (btables d 7));
    Checked (nc_put_var_float "region_supply" (rtables d 0));
    Checked (nc_put_var_float "region_irrigation_demand" (rtables d 1));
    Checked (nc_put_var_float "region_livestock_demand" (rtables d 2));
    Checked (nc_put_var_float "region_electricity_demand" (rtables d 3));
    Checked (nc_put_var_float "region_manufacturing_demand" (rtables d 4));
    Checked (nc_put_var_float "region_total" (rtables d 5));
    Checked (nc_put_var_float "region_domestic_demand" (rtables d 6));
    Checked (nc_put_var_float "region_water_scarcity" (rtables d 7));
    Checked nc_close ].

Close Scope string_scope.

(** [mat2nc(outfilename, md, ...)]: how the call ends, what it wrote
    to [stderr], and the library calls it made. *)
Definition mat2nc (lib : nc_library) (outfilename : string) (md : metadata)
    (d : dataset) (rgn_garbage basin_garbage : iarray)
  : ending * list diag * list nc_call :=
  run_steps lib [] (mat2nc_steps outfilename md d rgn_garbage basin_garbage).

(** ** The driver *)

(** max length of a configuration line, in characters *)
Definition MAXLEN : Z := 1024.

(** [enum filenum] *)
Definition OUTPUT : Z := 0.
Definition G_SUPPLY : Z := 1.
Definition G_IRR : Z := 2.
Definition G_WSI : Z := 8.
Definition POP : Z := 9.
Definition B_SUPPLY : Z := 10.
Definition B_WSI : Z := 17.
Definition R_SUPPLY : Z := 18.
Definition R_WSI : Z := 25.

(** The longest prefix without white space, and the rest. *)
Fixpoint take_word (s : stream) : list ascii * stream :=
  match s with
  | c :: s' =>
    if isspace c then ([], s)
    else let '(word, rest) := take_word s' in (c :: word, rest)
  | [] => ([], [])
  end.

(** [fscanf(cfg, "%s", fn)] *)
Definition fscanf_s (s : stream) : Z * list ascii * stream :=
  match skip_ws s with
  | [] => (EOF, [], [])
  | s1 => let '(word, rest) := take_word s1 in (1, word, rest)
  end.

(** [read_file_name(cfg, fn)]: status, content of [fn] afterwards, rest
    of the stream and diagnostics. [fn] holds [MAXLEN] characters; a
    longer word overruns it. The line printed to [stdout] is left out. *)
Definition read_file_name (cfg : stream) (fn : string)
  : option (Z * string * stream * list diag) :=
  let '(nr, word, cfg') := fscanf_s cfg in
  if nr =? 1 then
    if Z.of_nat (List.length word) <? MAXLEN
    then Some (0, string_of_list_ascii word, cfg', [])
    else None
  else Some (1, fn, cfg', [Error_reading_config]).

(** What a run of the program is given. *)
Record world : Type :=
  { stdin : stream;
    text_files : txt_fs;
    binary_files : bin_fs;
    nc_lib : nc_library;
    (* indeterminate contents of automatic variables *)
    md0 : metadata;
    filename0 : string;
    tmp0 : double;
    popdata0 : itable;
    tempdata0 : farray;
    rgn_data0 : iarray;
    basin_data0 : iarray }.

(** What a run leaves behind: the exit status of the process, what it
    wrote to [stderr], and the calls it made into the netCDF library. *)
Record run : Type :=
  { exit_status : Z; stderr : list diag; archive : list nc_call }.

(** The variables of [main] that change while the inputs are read. *)
Record main_state : Type :=
  { cfg : stream;
    log : list diag;
    filename : string;
    nskipyr : Z;
    data : Z -> grid;
    popdata : itable;
    bdata : Z -> farray;
    rdata : Z -> farray }.

Definition set_name (s : main_state) (c : stream) (fn : string) (e : list diag)
  : main_state :=
  {| cfg := c; log := log s ++ e; filename := fn; nskipyr := nskipyr s;
     data := data s; popdata := popdata s; bdata := bdata s; rdata := rdata s |}.

Definition set_nskipyr (s : main_state) (n : Z) : main_state :=
  {| cfg := cfg s; log := log s; filename := filename s; nskipyr := n;
     data := data s; popdata := popdata s; bdata := bdata s; rdata := rdata s |}.

Definition set_data (s : main_state) (i : Z) (r : result grid) : main_state :=
  {| cfg := cfg s; log := log s ++ errs r; filename := filename s;
     nskipyr := nskipyr s;
     data := (fun i' => if i' =? i then out r else data s i');
     popdata := popdata s; bdata := bdata s; rdata := rdata s |}.

Definition set_popdata (s : main_state) (r : result itable) : main_state :=
  {| cfg := cfg s; log := log s ++ errs r; filename := filename s;
     nskipyr := nskipyr s; data := data s;
     popdata := out r; bdata := bdata s; rdata := rdata s |}.

Definition set_bdata (s : main_state) (i : Z) (r : result farray) : main_state :=
  {| cfg := cfg s; log := log s ++ errs r; filename := filename s;
     nskipyr := nskipyr s; data := data s; popdata := popdata s;
     bdata := (fun i' => if i' =? i then out r else bdata s i');
     rdata := rdata s |}.

Definition set_rdata (s : main_state) (i : Z) (r : result farray) : main_state :=
  {| cfg := cfg s; log := log s ++ errs r; filename := filename s;
     nskipyr := nskipyr s; data := data s; popdata := popdata s;
     bdata := bdata s;
     rdata := (fun i' => if i' =? i then out r else rdata s i') |}.

(** [return status;] from [main], before the writer is called. *)
Definition leave (s : main_state) (status : Z) : run :=
  {| exit_status := status; stderr := log s; archive := [] |}.

Definition cbind {S S' R : Type} (m : ctl S R) (k : S -> ctl S' R) : ctl S' R :=
  match m with
  | Continue s => k s
  | Return r => Return r
  | Undefined => Undefined
  end.

Notation "x <~ m ;; k" := (cbind m (fun x => k))
  (at level 61, m at next level, right associativity).

(** A result of a reader, or no defined behaviour. *)
Definition defined {A S R : Type} (m : option A) (k : A -> ctl S R) : ctl S R :=
  match m with
  | Some a => k a
  | None => Undefined
  end.

(** Static arrays start out as zeros. The static read buffer of
    [read_5yr_data] is handed to it like this at every call: the reader
    fills it before it looks at it, so what the call before left in it is
    never seen (lemma [read_5yr_data_any_buffer]). *)
Definition static_floats : farray := fun _ => F32.zero.
Definition static_grid : grid := fun _ _ _ => F32.zero.

Section Main.

Variable strtod : stream -> option (double * stream).
Variable w : world.

(** [stat = read_file_name(infile, filename); if(stat) return 3;] *)
Definition next_file_name (s : main_state) : ctl main_state run :=
  defined (read_file_name (cfg s) (filename s)) (fun '(stat, fn, c, e) =>
    let s := set_name s c fn e in
    if negb (stat =? 0) then Return (leave s 3) else Continue s).

(** One pass through [for(i=G_IRR;i<=G_WSI;++i)]. *)
Definition main_grid (i : Z) (s : main_state) : ctl main_state run :=
  s <~ next_file_name s ;;
  let s := if i =? G_WSI then set_nskipyr s 1 else s in
  defined (read_5yr_data (binary_files w) static_floats
             (filename s) (data s (i - G_SUPPLY)) (nskipyr s)) (fun r =>
    let s := set_data s (i - G_SUPPLY) r in
    if negb (stat r =? 0) then Return (leave s (stat r)) else Continue s).

(** One pass through [for(i=B_SUPPLY; i<=B_WSI; ++i)]. *)
Definition main_basin (i : Z) (s : main_state) : ctl main_state run :=
  s <~ next_file_name s ;;
  defined (read_table_data (binary_files w) (tempdata0 w)
             (filename s) NBASIN (bdata s (i - B_SUPPLY))) (fun r =>
    let s := set_bdata s (i - B_SUPPLY) r in
    if negb (stat r =? 0) then Return (leave s (stat r)) else Continue s).

(** One pass through [for(i=R_SUPPLY; i<=R_WSI; ++i)]. *)
Definition main_region (i : Z) (s : main_state) : ctl main_state run :=
  s <~ next_file_name s ;;
  defined (read_table_data (binary_files w) (tempdata0 w)
             (filename s) NRGN (rdata s (i - R_SUPPLY))) (fun r =>
    let s := set_rdata s (i - R_SUPPLY) r in
    if negb (stat r =? 0) then Return (leave s (stat r)) else Continue s).

(** [main] after the global attributes are read. *)
Definition main_files (md : metadata) (s : main_state) : ctl main_state run :=
  s <~ next_file_name s ;;
  let outfilename := filename s in
  (* The first data file is monthly data *)
  s <~ next_file_name s ;;
  (* the status of this call is overwritten before it is looked at *)
  s <~ defined (read_and_aggregate_data (binary_files w) static_floats static_floats
                  (filename s) (data s 0))
         (fun r => Continue (set_data s 0 r)) ;;
  (* most inputs have 2 unused years at the beginning *)
  let s := set_nskipyr s 2 in
  s <~ for_ctl G_IRR (G_WSI + 1) main_grid s ;;
  (* read the population data *)
  s <~ next_file_name s ;;
  s <~ defined (read_pop_data strtod (text_files w) (tmp0 w) (filename s) (popdata s))
         (fun r =>
            let s := set_popdata s r in
            if negb (stat r =? 0) then Return (leave s (stat r)) else Continue s) ;;
  s <~ for_ctl B_SUPPLY (B_WSI + 1) main_basin s ;;
  s <~ for_ctl R_SUPPLY (R_WSI + 1) main_region s ;;
  (* write out the netcdf files. *)
  let '(e, d, calls) :=
    mat2nc (nc_lib w) outfilename md
      {| grids := data s; pop := popdata s; btables := bdata s; rtables := rdata s |}
      (rgn_data0 w) (basin_data0 w) in
  Return {| exit_status := match e with Returns stat => stat | Exits status => status end;
            stderr := log s ++ d;
            archive := calls |}.

(** [argv[1][0] == '-'] *)
Definition is_dash (arg : string) : bool :=
  match arg with
  | String c _ => Ascii.eqb c "-"%char
  | EmptyString => false
  end.

(** [main(argc, argv)] *)
Definition main (argc : Z) (argv : list string) : option run :=
  let start (infile : stream) (e : list diag) : option run :=
    (* read the global attribute values *)
    let '(n1, forcing, infile) := fscanf_f strtod infile (global_forcing (md0 w)) in
    let '(n2, gpop, infile) := fscanf_f strtod infile (global_pop (md0 w)) in
    let '(n3, pcgdp, infile) := fscanf_f strtod infile (global_pcgdp (md0 w)) in
    let nread := n1 + n2 + n3 in
    if negb (nread =? 3) then
      Some {| exit_status := 3; stderr := e ++ [Failed_to_read_global_attributes];
              archive := [] |}
    else
      match main_files
              {| global_forcing := forcing; global_pop := gpop; global_pcgdp := pcgdp |}
              {| cfg := infile; log := e; filename := filename0 w; nskipyr := 0;
                 data := (fun _ => static_grid); popdata := popdata0 w;
                 bdata := (fun _ => static_floats);
                 rdata := (fun _ => static_floats) |} with
      | Return r => Some r
      | Continue _ | Undefined => None
      end in
  if argc =? 2 then
    let arg := nth 1 argv ""%string in
    if is_dash arg then start (stdin w) [Reading_config_from_stdin]
    else
      match text_files w arg with
      | None => Some {| exit_status := 1; stderr := [Unable_to_open_config arg];
                        archive := [] |}
      | Some infile => start infile [Reading_config_from arg]
      end
  else
    Some {| exit_status := 2; stderr := [Usage (nth 0 argv ""%string)]; archive := [] |}.

End Main.

(** * Definitions used to state the properties *)

(** ** Loops, grids and the monthly sum *)

(** What holds of a pass or a loop: [I] of the state it goes on with,
    [Q] of what it returns. *)
Definition ctl_holds {S R : Type} (I : S -> Prop) (Q : R -> Prop) (m : ctl S R) : Prop :=
  match m with
  | Continue s => I s
  | Return r => Q r
  | Undefined => True
  end.

Definition key3 : Type := Z * Z * Z.

Definition rd3 (g : grid) (key : key3) : float :=
  let '(i, j, k) := key in g i j k.

Definition in_range (lo hi x : Z) : bool := (lo <=? x) && (x <? hi).

(** The sum the month loop builds in one cell, starting from [init]:
    the [n] values [v 0], ..., [v (n-1)] added in this order in [float]
    arithmetic. *)
Fixpoint acc_months (v : Z -> float) (n : nat) (init : float) : float :=
  match n with
  | O => init
  | Datatypes.S n' => F32.add (acc_months v n' init) (v (Z.of_nat n'))
  end.

(** Position in the stream of the value at [ilon][ilat] of the record of
    month [m] (from 0) of year [y]: records are consecutive from January
    2001, each [NLON] rows of [NLAT] values. *)
Definition monthly_index (y m ilon ilat : Z) : Z :=
  ((y - 2001) * 12 + m) * (NLAT * NLON) + (NLAT * ilon + ilat).

(** What the reader stores for year [y] in cell [ilat][ilon]: the twelve
    monthly values added up from [+0.0], January first, times [fac]. *)
Definition annual (bf : bin_file) (y ilat ilon : Z) : float :=
  F32.mul
    (acc_months (fun m => contents bf (monthly_index y m ilon ilat)) 12 F32.zero)
    fac.

Definition kept (y : Z) : bool := (2010 <=? y) && (y mod 5 =? 0).

(** The value the specification's sentence asks for in that cell: the
    arithmetic mean of the twelve monthly values, times 0.00263. *)
Definition mean_times_00263 (bf : bin_file) (y ilat ilon : Z) : float :=
  F32.mul
    (F32.div
       (acc_months (fun m => contents bf (monthly_index y m ilon ilat)) 12 F32.zero)
       (c_float 12))
    (c_float 0.00263).

(** ** Rounding to the nearest integer *)

(** A finite binary number as a fraction with a positive denominator. *)
Definition fraction_of (x : spec_float) : option (Z * Z) :=
  match x with
  | S754_zero _ => Some (0, 1)
  | S754_finite s m e =>
    if 0 <=? e then Some (cond_Zopp s (Zpos m * 2 ^ e), 1)
    else Some (cond_Zopp s (Zpos m), 2 ^ (- e))
  | S754_infinity _ | S754_nan => None
  end.

(** [n] is the integer nearest to [num / den], and of two nearest ones
    the one away from zero. *)
Definition nearest_half_away (num den n : Z) : Prop :=
  Z.abs (2 * den * n - 2 * num) <= den /\
  (Z.abs (2 * den * n - 2 * num) = den -> Z.abs num < den * Z.abs n).

(** ** The layout of the population file *)

Section PopFile.

Variable strtod : stream -> option (double * stream).

(** A numeric conversion: white space is skipped, then a numeral read. *)
Definition conv (s : stream) : option (double * stream) :=
  match skip_ws s with
  | [] => None
  | s1 => strtod s1
  end.

(** What may follow a field: the end of the input, a comma, white space
    (a newline is white space). *)
Definition ends_field (t : stream) : Prop :=
  match t with
  | [] => True
  | c :: _ => c = comma \/ isspace c = true
  end.

(** [w] is the text of a number of value [v]: before whatever ends a
    field, the conversion takes [w], no more and no less, and yields
    [v]. *)
Definition numeral (w : stream) (v : double) : Prop :=
  forall t, ends_field t -> conv (w ++ t) = Some (v, t).

(** A field of a line: its text and its value. *)
Definition field : Type := (stream * double)%type.

(** A year field is a numeral whose rounded value fits an [int]. *)
Definition field_ok (f : field) : Prop :=
  numeral (fst f) (snd f) /\ int_of_round (snd f) <> None.

(** The fields as they stand in the file, a comma before each. *)
Definition fields_text (fs : list field) : stream :=
  List.concat (map (fun f => comma :: fst f) fs).

(** A line: two leading numbers, the year fields, and whatever follows
    them up to the newline. *)
Record pop_line : Type :=
  { lead1 : stream; lead2 : stream; years : list field; trailing : stream }.

Definition line_text (l : pop_line) : stream :=
  lead1 l ++ comma :: lead2 l ++ fields_text (years l) ++ trailing l ++ [newline].

(** A line as the sentence of the specification has it: both leading
    numbers and 18 year fields are there, and something that holds no
    newline follows up to the end of the line. *)
Definition line_wf (l : pop_line) : Prop :=
  (exists v, numeral (lead1 l) v) /\
  (exists v, numeral (lead2 l) v) /\
  List.length (years l) = 18%nat /\
  Forall field_ok (years l) /\
  ~ In newline (trailing l) /\
  ends_field (trailing l ++ [newline]).

(** What follows the year fields, newline included, fits the 1023
    characters that [fgets(buf, 1024, f)] takes at most. *)
Definition fits_fgets (l : pop_line) : Prop :=
  (List.length (trailing l) < 1023)%nat.

(** A line as the reader expects it. *)
Definition line_ok (l : pop_line) : Prop := line_wf l /\ fits_fgets l.

(** The value of year field [y] of a list of fields, and what
    [(int) round] makes of it. *)
Definition year_value (fs : list field) (y : Z) : double :=
  snd (nth (Z.to_nat y) fs ([], S754_nan)).

Definition year_int (fs : list field) (y : Z) : Z :=
  match int_of_round (year_value fs y) with
  | Some n => n
  | None => 0
  end.

(** The value of the last of the fields, or [d] if there is none. *)
Definition last_value (fs : list field) (d : double) : double :=
  snd (last fs ([], d)).

Definition no_line : pop_line :=
  {| lead1 := []; lead2 := []; years := []; trailing := [] |}.

(** The conversion [",%lf"] fails on [s]. *)
Definition field_missing (s : stream) : Prop :=
  forall tmp, fst (fst (fscanf_comma_lf strtod s tmp)) <> 1.

End PopFile.

(** The content of [tmp] after the year fields of [lines] have gone
    through it, [d] before. *)
Definition tmp_after (lines : list pop_line) (d : double) : double :=
  fold_left (fun t l => last_value (years l) t) lines d.

(** The year fields of line [r] of [lines]. *)
Definition years_of (lines : list pop_line) (r : Z) : list field :=
  years (nth (Z.to_nat r) lines no_line).

(** ** Coordinates *)

(** The indices [lo], [lo + 1], ..., [lo + n - 1]. *)
Definition zrange (lo : Z) (n : nat) : list Z := map Z.of_nat (seq (Z.to_nat lo) n).

(** The value of a [float] as a fraction in lowest terms. *)
Definition value_of (x : float) : option Q := option_map Qred (F2Q x).

Definition call_of (st : nc_step) : nc_call :=
  match st with
  | Checked c => c
  | Unchecked c => c
  end.

(** ** Exit statuses *)

(** The exit status that goes with a diagnostic; 0 for the diagnostics
    after which the program goes on. *)
Definition status_of (d : diag) : Z :=
  match d with
  | Usage _ => 2
  | Failed_to_read_global_attributes => 3
  | Error_reading_config => 3
  | Unable_to_open_config _ => 1
  | Unable_to_open_file_for_input _ => 1
  | Error_reading_data_from _ => 1
  | Error_reading_data_rgn _ _ _ => 1
  | Nc_error _ => 1
  | Reading_config_from_stdin => 0
  | Reading_config_from _ => 0
  | Unable_to_open_file _ => 0
  | Error_reading_data_in_year _ _ => 0
  end.

Definition quiet (d : diag) : Prop := status_of d = 0.

(** The two diagnostics of the monthly reader. *)
Definition monthly_failure (d : diag) : bool :=
  match d with
  | Unable_to_open_file _ => true
  | Error_reading_data_in_year _ _ => true
  | _ => false
  end.

(** The two notes on where the configuration is read from. *)
Definition note (d : diag) : bool :=
  match d with
  | Reading_config_from_stdin => true
  | Reading_config_from _ => true
  | _ => false
  end.

(** How a run ends: with status 0 after diagnostics that stop nothing,
    or with the status of its last diagnostic, the only one that stops
    it. *)
Definition ends_well (r : run) : Prop :=
  (exit_status r = 0 /\ Forall quiet (stderr r)) \/
  (exists pre d, stderr r = pre ++ [d] /\ Forall quiet pre /\
                 status_of d <> 0 /\ exit_status r = status_of d).

(** How a reader whose failure stops the program ends: with status 0
    and no diagnostic, or with status 1 and one diagnostic. *)
Definition reader_ends {A : Type} (r : result A) : Prop :=
  (stat r = 0 /\ errs r = []) \/
  (exists d, stat r = 1 /\ errs r = [d] /\ status_of d = 1).

Definition log_quiet (s : main_state) : Prop := Forall quiet (log s).

(** * Example inputs *)

(** ** Binary files *)

(** A file system with one binary file. *)
Definition one_file (name : string) (bf : bin_file) : bin_fs :=
  fun n => if String.eqb n name then Some bf else None.

(** No file at all. *)
Definition no_files : bin_fs := fun _ => None.

(** A monthly-flow file of full length, 1 m^3/s in every cell and month. *)
Definition unit_flow : bin_file :=
  {| contents := fun _ => c_float 1; size := 95 * 12 * 360 * 720 |}.

(** A file whose item [i] is the number [i mod 1000]. *)
Definition ramp (n : N) : bin_file :=
  {| contents := fun i => F32.of_Z (i mod 1000); size := n |}.

(** ** A numeric conversion and population files *)

(** A numeric conversion for plain decimal numerals (an optional minus
    sign, digits, optionally a point and more digits), which is all the
    examples need. *)
Definition digit_of (c : ascii) : option Z :=
  let n := Z.of_N (N_of_ascii c) in
  if (48 <=? n) && (n <=? 57) then Some (n - 48) else None.

Fixpoint scan_digits (s : stream) (acc ndigits : Z) : Z * Z * stream :=
  match s with
  | c :: s' =>
    match digit_of c with
    | Some d => scan_digits s' (10 * acc + d) (ndigits + 1)
    | None => (acc, ndigits, s)
    end
  | [] => (acc, ndigits, [])
  end.

Definition strtod_dec (s : stream) : option (double * stream) :=
  let '(neg, s1) :=
    match s with
    | c :: s' => if Ascii.eqb c "-"%char then (true, s') else (false, s)
    | [] => (false, s)
    end in
  let '(ip, n1, s2) := scan_digits s1 0 0 in
  if n1 =? 0 then None
  else
    let '(num, k, s3) :=
      match s2 with
      | c :: s' =>
        if Ascii.eqb c "."%char then scan_digits s' ip 0 else (ip, 0, s2)
      | [] => (ip, 0, s2)
      end in
    Some (F64.div (F64.of_Z (if neg then - num else num)) (F64.of_Z (10 ^ k)), s3).

Definition text (s : string) : stream := list_ascii_of_string s.

(** A file system with one text file. *)
Definition one_text (name : string) (content : stream) : txt_fs :=
  fun n => if String.eqb n name then Some content else None.

Definition no_texts : txt_fs := fun _ => None.

(** Three year fields: two halfway cases and an ordinary number. *)
Definition f_up : field := (text "2.5", c_double 2.5).
Definition f_down : field := (text "-2.5", c_double (-2.5)).
Definition f_plain : field := (text "1234.49", c_double 1234.49).

(** A line of the population file with two more fields than needed. *)
Definition sample_line : pop_line :=
  {| lead1 := text "1"; lead2 := text "2005";
     years := [f_up; f_down; f_plain; f_up; f_down; f_plain;
               f_up; f_down; f_plain; f_up; f_down; f_plain;
               f_up; f_down; f_plain; f_up; f_down; f_plain];
     trailing := text ",7,8" |}.

Definition sample_lines : list pop_line := repeat sample_line 63.

Definition sample_pop : stream := List.concat (map line_text sample_lines).

(** Five good lines, then one that ends after two year fields. *)
Definition broken_pop : stream :=
  List.concat (map line_text (repeat sample_line 5)) ++
  text "1" ++ comma :: text "2005" ++ fields_text [f_up; f_down] ++
  newline :: text "1,2005,2.5".

(** A first line with 600 more fields, 1200 characters, than needed, and
    62 lines with none. *)
Definition f_ten : field := (text "10", c_double 10).
Definition f_twenty : field := (text "20", c_double 20).

Definition long_line : pop_line :=
  {| lead1 := text "1"; lead2 := text "2";
     years := repeat f_ten 18;
     trailing := List.concat (repeat (text ",9") 600) |}.

Definition short_line : pop_line :=
  {| lead1 := text "1"; lead2 := text "2";
     years := repeat f_twenty 18;
     trailing := [] |}.

Definition long_lines : list pop_line := long_line :: repeat short_line 62.

Definition long_pop : stream := List.concat (map line_text long_lines).

Definition zero_table : itable := fun _ _ => 0.

(** ** Runs of the program *)

Definition no_metadata : metadata :=
  {| global_forcing := F32.zero; global_pop := F32.zero; global_pcgdp := F32.zero |}.

(** A run that reads the configuration [config] from [stdin] and finds
    the files [texts] and [bins]; the library reports [nc]. *)
Definition world_of (config : string) (texts : txt_fs) (bins : bin_fs)
    (nc : nc_library) : world :=
  {| stdin := text config; text_files := texts; binary_files := bins; nc_lib := nc;
     md0 := no_metadata; filename0 := ""%string; tmp0 := S754_zero false;
     popdata0 := zero_table; tempdata0 := static_floats;
     rgn_data0 := (fun _ => 0); basin_data0 := (fun _ => 0) |}.

Definition nc_ok : nc_library := fun _ _ => NC_NOERR.

(** The first five-year file cannot be opened. *)
Definition world_open : world :=
  world_of "1 2 3 out.nc no-data missing.dat" no_texts no_files nc_ok.

(** What the run in [world_open] leaves behind. *)
Definition run_open : run :=
  {| exit_status := 1;
     stderr := [Reading_config_from_stdin; Unable_to_open_file_for_input "missing.dat"];
     archive := [] |}.


Definition argv_stdin : list string := ["mat2nc"; "-"]%string.

(** A file system with a basin table and a region table. *)
Definition table_files : bin_fs :=
  fun n => if String.eqb n "basin.dat" then Some (ramp (19 * 235))
           else if String.eqb n "rgn.dat" then Some (ramp (19 * 63))
           else None.

(** A configuration that names no grid, a population file, and the same
    basin and region table eight times each. *)
Definition config_tables : string :=
  "4.5 9000 12.5 out.nc
   no-data no-data no-data no-data no-data no-data no-data no-data
   pop.csv
   basin.dat basin.dat basin.dat basin.dat basin.dat basin.dat basin.dat basin.dat
   rgn.dat rgn.dat rgn.dat rgn.dat rgn.dat rgn.dat rgn.dat rgn.dat".

(** Every input is there and the library reports no error. *)
Definition world_good : world :=
  world_of config_tables (one_text "pop.csv" sample_pop) table_files nc_ok.


(** The library reports an error when the archive is closed. *)
Definition nc_close_fails : nc_library :=
  fun _ c => match c with nc_close => -31 | _ => NC_NOERR end.

Definition world_nc : world :=
  world_of config_tables (one_text "pop.csv" sample_pop) table_files nc_close_fails.

(** The configuration gives the sentinel for the population table, and
    no file is called "no-data". *)
Definition world_no_pop : world :=
  world_of
    "4.5 9000 12.5 out.nc
     no-data no-data no-data no-data no-data no-data no-data no-data
     no-data"
    no_texts table_files nc_ok.

(** * Further definitions *)

(** The first year whose block of twelve records a file of [size] items
    does not hold whole. *)
Definition first_short_year (size : N) : Z := 2001 + Z.of_N size / (12 * NLAT * NLON).

(** Two files agree on the items from [lo] up to [hi]. *)
Definition agree_on (bf1 bf2 : bin_file) (lo hi : Z) : Prop :=
  forall j, lo <= j < hi -> contents bf1 j = contents bf2 j.

(** A cell of the grid. *)
Definition in_grid (i j k : Z) : bool :=
  in_range 0 NYEAR i && in_range 0 NLAT j && in_range 0 NLON k.

(** Two passes or loops end alike: both go on, with states that [RS]
    relates, both return, with results that [RR] relates, or both are
    undefined. *)
Definition ctl_rel {S R : Type} (RS : S -> S -> Prop) (RR : R -> R -> Prop)
    (m1 m2 : ctl S R) : Prop :=
  match m1, m2 with
  | Continue s1, Continue s2 => RS s1 s2
  | Return r1, Return r2 => RR r1 r2
  | Undefined, Undefined => True
  | _, _ => False
  end.

(** Two calls end alike: both are undefined, or both return the same
    status and diagnostics and arrays that [same] relates. *)
Definition same_outcome {A : Type} (same : A -> A -> Prop)
    (m1 m2 : option (result A)) : Prop :=
  match m1, m2 with
  | Some r1, Some r2 => stat r1 = stat r2 /\ errs r1 = errs r2 /\ same (out r1) (out r2)
  | None, None => True
  | _, _ => False
  end.

Definition same_grid (g1 g2 : grid) : Prop := forall i j k, g1 i j k = g2 i j k.

(** Two monthly-flow files agree on every record of a kept year. *)
Definition agree_on_kept (bf1 bf2 : bin_file) : Prop :=
  forall y m ilat ilon,
    2010 <= y <= 2095 -> y mod 5 = 0 -> 0 <= m < 12 ->
    0 <= ilat < NLAT -> 0 <= ilon < NLON ->
    contents bf1 (monthly_index y m ilon ilat) = contents bf2 (monthly_index y m ilon ilat).

(** A full-length monthly-flow file that differs from [unit_flow] in the
    records of the years that are not kept. *)
Definition unit_flow_noise : bin_file :=
  {| contents := fun i =>
       if ((i / (12 * 360 * 720) + 2001) mod 5 =? 0) && (2010 <=? i / (12 * 360 * 720) + 2001)
       then c_float 1 else c_float 77;
     size := 95 * 12 * 360 * 720 |}.

(** ** The calls of the writer *)

(** The variables a list of calls defines, and the variables it writes,
    each with the type of its values. *)
Definition defined_vars (calls : list nc_call) : list (string * nc_type) :=
  flat_map (fun c => match c with
                     | nc_def_var name xtype _ => [(name, xtype)]
                     | _ => []
                     end) calls.

Definition written_vars (calls : list nc_call) : list (string * nc_type) :=
  flat_map (fun c => match c with
                     | nc_put_vara var _ _ _ => [(var, NC_FLOAT)]
                     | nc_put_var_int var _ => [(var, NC_INT)]
                     | nc_put_var_float var _ => [(var, NC_FLOAT)]
                     | _ => []
                     end) calls.

Definition defined_dims (calls : list nc_call) : list (string * Z) :=
  flat_map (fun c => match c with
                     | nc_def_dim name len => [(name, len)]
                     | _ => []
                     end) calls.

Definition used_dims (calls : list nc_call) : list string :=
  flat_map (fun c => match c with
                     | nc_def_var _ _ dims => dims
                     | _ => []
                     end) calls.

(** The text attributes: variable, attribute, length argument, text. *)
Definition text_atts (calls : list nc_call) : list (string * string * Z * string) :=
  flat_map (fun c => match c with
                     | nc_put_att_text var name len text => [(var, name, len, text)]
                     | _ => []
                     end) calls.

Definition mem (x : string) (l : list string) : bool := existsb (String.eqb x) l.

Fixpoint distinct (l : list string) : bool :=
  match l with
  | [] => true
  | x :: l' => negb (mem x l') && distinct l'
  end.

(** Calls of define mode and calls of data mode. *)
Definition in_define_mode (c : nc_call) : bool :=
  match c with
  | nc_def_dim _ _ | nc_def_var _ _ _ | nc_put_att_float _ _
  | nc_put_att_text _ _ _ _ => true
  | _ => false
  end.

Definition in_data_mode (c : nc_call) : bool :=
  match c with
  | nc_put_vara _ _ _ _ | nc_put_var_int _ _ | nc_put_var_float _ _ => true
  | _ => false
  end.

(** A library that accepts every call but the setting of the units
    ["km^3"] and ["(unitless)"]. *)
Definition nc_units_fail : nc_library :=
  fun _ c =>
    match c with
    | nc_put_att_text _ _ _ text =>
      if String.eqb text "km^3"%string || String.eqb text "(unitless)"%string then -45 else NC_NOERR
    | _ => NC_NOERR
    end.

(** ** How a run leaves the archive *)

(** Every call of the writer was made. *)
Definition complete (w : world) (r : run) : Prop :=
  exists outfilename md d,
    archive r = map call_of (mat2nc_steps outfilename md d (rgn_data0 w) (basin_data0 w)).

(** The calls of the writer were made up to a checked call for which
    the library reported an error, the last thing the run wrote to
    [stderr]. *)
Definition cut_short (w : world) (r : run) : Prop :=
  exists outfilename md d pre c post,
    mat2nc_steps outfilename md d (rgn_data0 w) (basin_data0 w) = pre ++ Checked c :: post /\
    archive r = map call_of pre ++ [c] /\
    nc_lib w (map call_of pre) c <> NC_NOERR /\
    exists l, stderr r = l ++ [Nc_error (nc_lib w (map call_of pre) c)].

(** The three ways a run can leave the archive. *)
Definition archive_left (w : world) (r : run) : Prop :=
  (exit_status r = 0 /\ complete w r) \/
  (exit_status r = 1 /\ cut_short w r) \/
  ((exit_status r = 1 \/ exit_status r = 2 \/ exit_status r = 3) /\ archive r = []).

(** A configuration that ends after two numbers. *)
Definition world_two_numbers : world :=
  world_of "4.5 9000" no_texts no_files nc_ok.

(** A population file that ends after five lines and a blank one. *)
Definition short_pop : stream :=
  List.concat (map line_text (repeat sample_line 5)) ++ [newline].

(** ** The names of the configuration *)

(** Nothing, or something that begins with white space: what may follow
    a name. *)
Definition ends_name (t : stream) : Prop :=
  match t with
  | [] => True
  | c :: _ => isspace c = true
  end.

(** A name of the configuration with the white space before it: some
    white space, then a name without white space that fits the buffer. *)
Definition entry_ok (e : stream * stream) : Prop :=
  fst e <> [] /\ forallb isspace (fst e) = true /\
  snd e <> [] /\ forallb (fun c => negb (isspace c)) (snd e) = true /\
  Z.of_nat (List.length (snd e)) < MAXLEN.

Definition names_text (entries : list (stream * stream)) : stream :=
  List.concat (map (fun e => fst e ++ snd e) entries).

(** Name [k] of the configuration, counted from 0. *)
Definition name_at (entries : list (stream * stream)) (k : Z) : string :=
  string_of_list_ascii (snd (nth (Z.to_nat k) entries ([], []))).

(** What the readers make of the files that names 1 to 25 stand for,
    each called as [main] calls it: [rd 1] is the result of the monthly
    reader, [rd 2] to [rd 8] those of the five-year reader (two records
    skipped, one for the last), [p] that of the population reader, [tb 10]
    to [tb 17] those of the table reader on the basin tables and [tb 18]
    to [tb 25] on the region tables. Every reader but the monthly one
    returns 0. *)
Definition inputs_read (strtod : stream -> option (double * stream)) (w : world)
    (entries : list (stream * stream))
    (rd : Z -> result grid) (p : result itable) (tb : Z -> result farray) : Prop :=
  read_and_aggregate_data (binary_files w) static_floats static_floats
    (name_at entries 1) static_grid = Some (rd 1) /\
  (forall i, 2 <= i <= 8 ->
     read_5yr_data (binary_files w) static_floats (name_at entries i) static_grid
       (if i =? 8 then 1 else 2) = Some (rd i) /\
     stat (rd i) = 0) /\
  (read_pop_data strtod (text_files w) (tmp0 w) (name_at entries 9) (popdata0 w)
     = Some p /\
   stat p = 0) /\
  (forall i, 10 <= i <= 17 ->
     read_table_data (binary_files w) (tempdata0 w) (name_at entries i) NBASIN
       static_floats = Some (tb i) /\
     stat (tb i) = 0) /\
  (forall i, 18 <= i <= 25 ->
     read_table_data (binary_files w) (tempdata0 w) (name_at entries i) NRGN
       static_floats = Some (tb i) /\
     stat (tb i) = 0).

(** The arrays the writer is given then. *)
Definition dataset_read (rd : Z -> result grid) (p : result itable)
    (tb : Z -> result farray) : dataset :=
  {| grids := fun i => out (rd (i + 1));
     pop := out p;
     btables := fun i => out (tb (i + 10));
     rtables := fun i => out (tb (i + 18)) |}.

(** The names of [config_tables], a blank before each. *)
Definition sample_entries : list (stream * stream) :=
  map (fun n => ([" "%char], text n))
    (("out.nc"%string :: repeat "no-data"%string 8) ++
     ("pop.csv"%string :: repeat "basin.dat"%string 8) ++
     repeat "rgn.dat"%string 8).

Definition world_entries : world :=
  {| stdin := text "4.5 9000 12.5" ++ names_text sample_entries ++ [newline];
     text_files := one_text "pop.csv" sample_pop; binary_files := table_files;
     nc_lib := nc_ok;
     md0 := no_metadata; filename0 := ""%string; tmp0 := S754_zero false;
     popdata0 := zero_table; tempdata0 := static_floats;
     rgn_data0 := (fun _ => 0); basin_data0 := (fun _ => 0) |}.



(** ** The variables of [main] while the names are read *)

(** A run that ended before the writer was called, or in the writer. *)
Definition run_shape (w : world) (r : run) : Prop :=
  (exit_status r <> 0 /\ archive r = []) \/
  (exit_status r = 0 /\ complete w r) \/
  (exit_status r = 1 /\ cut_short w r).

Definition any_state (s : main_state) : Prop := True.

(** What is left of the configuration before name [k]. *)
Definition rest_from (entries : list (stream * stream)) (tail : stream) (k : Z)
  : stream :=
  names_text (skipn (Z.to_nat k) entries) ++ tail.

Definition entry_at (entries : list (stream * stream)) (k : Z) : stream * stream :=
  nth (Z.to_nat k) entries ([], []).

(** The variables of [main] before name [k] is read. *)
Definition before (entries : list (stream * stream)) (tail : stream) (k : Z)
    (L : list diag) (G : Z -> grid) (P : itable) (B R : Z -> farray)
    (t : main_state) : Prop :=
  cfg t = rest_from entries tail k /\ log t = L /\
  (forall i, data t i = G i) /\ popdata t = P /\
  (forall i, bdata t i = B i) /\ (forall i, rdata t i = R i).

(** The grids before name [j] is read: those of the names before it
    are read, the others are as they started out. Likewise the tables
    whose names begin at place [first]. *)
Definition grids_read (rd : Z -> result grid) (j : Z) : Z -> grid :=
  fun i => if in_range 0 (j - 1) i then out (rd (i + 1)) else static_grid.

Definition tables_read (tb : Z -> result farray) (first j : Z) : Z -> farray :=
  fun i => if in_range 0 (j - first) i then out (tb (i + first)) else static_floats.

(** ** The coordinates in the archive *)

Definition coordinates : list string :=
  ["lat"; "lon"; "time"; "rgn"; "basin"]%string.

(** The calls that say something of a dimension or of a coordinate
    variable: the definition of a dimension, and the definition, an
    attribute or the values of a variable called as a coordinate. *)
Definition about_coordinate (c : nc_call) : bool :=
  match c with
  | nc_def_dim _ _ => true
  | nc_def_var name _ _ => mem name coordinates
  | nc_put_att_text var _ _ _ => mem var coordinates
  | nc_put_vara var _ _ _ => mem var coordinates
  | nc_put_var_int var _ => mem var coordinates
  | nc_put_var_float var _ => mem var coordinates
  | _ => false
  end.

(** ** A population file without a final newline *)

Definition pop_no_final_newline : stream :=
  List.concat (map line_text (repeat sample_line 62)) ++
  text "1" ++ comma :: text "2005" ++ fields_text (years sample_line) ++ text ",7,8".

(** ** What can go wrong in a run *)

(** The readers of the names before place [m] do what the run needs to
    reach name [m]: the monthly reader returns, with whatever status, and
    every other reader returns 0. The readers are called as [main] calls
    them. *)
Definition inputs_ok_upto (strtod : stream -> option (double * stream)) (w : world)
    (entries : list (stream * stream))
    (rd : Z -> result grid) (p : result itable) (tb : Z -> result farray)
    (m : Z) : Prop :=
  (1 < m ->
   read_and_aggregate_data (binary_files w) static_floats static_floats
     (name_at entries 1) static_grid = Some (rd 1)) /\
  (forall i, 2 <= i <= 8 -> i < m ->
     read_5yr_data (binary_files w) static_floats (name_at entries i) static_grid
       (if i =? 8 then 1 else 2) = Some (rd i) /\
     stat (rd i) = 0) /\
  (9 < m ->
   read_pop_data strtod (text_files w) (tmp0 w) (name_at entries 9) (popdata0 w)
     = Some p /\
   stat p = 0) /\
  (forall i, 10 <= i <= 17 -> i < m ->
     read_table_data (binary_files w) (tempdata0 w) (name_at entries i) NBASIN
       static_floats = Some (tb i) /\
     stat (tb i) = 0) /\
  (forall i, 18 <= i <= 25 -> i < m ->
     read_table_data (binary_files w) (tempdata0 w) (name_at entries i) NRGN
       static_floats = Some (tb i) /\
     stat (tb i) = 0).







(** ** Inputs of runs that fail *)






(** ** From a grid file to its variable *)







(** * Proofs *)

(** Case analysis on every integer comparison of the goal. *)
Ltac zcases :=
  repeat match goal with
    | |- context [?a <? ?b] => destruct (Z.ltb_spec a b)
    | |- context [?a <=? ?b] => destruct (Z.leb_spec a b)
    | |- context [?a =? ?b] => destruct (Z.eqb_spec a b)
    end;
  cbn [andb orb negb]; try reflexivity; try discriminate; try lia.

(** Blind case analysis on the comparisons of a boolean identity. *)
Ltac bcases :=
  cbn [fst snd];
  repeat match goal with
    | |- context [?a <? ?b] => destruct (a <? b)
    | |- context [?a <=? ?b] => destruct (a <=? b)
    | |- context [?a =? ?b] => destruct (a =? b)
    end;
  reflexivity.

(** ** Loops *)

Lemma iter_from_ind {S : Type} (P : Z -> S -> Prop) (body : Z -> S -> S) (n : nat) :
  forall i s,
    P i s ->
    (forall j t, i <= j < i + Z.of_nat n -> P j t -> P (j + 1) (body j t)) ->
    P (i + Z.of_nat n) (iter_from n i body s).
Proof.
  induction n as [|n IH]; intros i s H0 Hstep.
  - simpl. now replace (i + 0) with i by lia.
  - cbn [iter_from].
    replace (i + Z.of_nat (Datatypes.S n)) with ((i + 1) + Z.of_nat n) by lia.
    apply IH.
    + apply Hstep; [lia | exact H0].
    + intros j t Hj. apply Hstep. lia.
Qed.

Lemma for_loop_ind {S : Type} (P : Z -> S -> Prop) (lo hi : Z) (body : Z -> S -> S) (s : S) :
  lo <= hi ->
  P lo s ->
  (forall j t, lo <= j < hi -> P j t -> P (j + 1) (body j t)) ->
  P hi (for_loop lo hi body s).
Proof.
  intros Hle H0 Hstep. unfold for_loop.
  replace hi with (lo + Z.of_nat (Z.to_nat (hi - lo))) at 1 by lia.
  apply iter_from_ind; [exact H0|].
  intros j t Hj. apply Hstep. lia.
Qed.

(** A loop each of whose passes [i] stores, at the keys selected by
    [sel key = i] and [inr key], a value computed from the key and from
    what the key held before. *)
Lemma for_loop_store {S K V : Type} (rd : S -> K -> V) (body : Z -> S -> S)
    (sel : K -> Z) (inr : K -> bool) (val : V -> K -> V) (lo hi : Z) :
  lo <= hi ->
  (forall i s key, lo <= i < hi ->
     rd (body i s) key =
     if (sel key =? i) && inr key then val (rd s key) key else rd s key) ->
  forall s key,
    rd (for_loop lo hi body s) key =
    if (lo <=? sel key) && (sel key <? hi) && inr key
    then val (rd s key) key else rd s key.
Proof.
  intros Hle Hbody s key.
  apply (for_loop_ind (fun i t =>
           rd t key = if (lo <=? sel key) && (sel key <? i) && inr key
                      then val (rd s key) key else rd s key)); [exact Hle | |].
  - zcases.
  - intros j t Hj IH. rewrite Hbody by exact Hj. rewrite IH.
    destruct (inr key); rewrite ?andb_true_r, ?andb_false_r; [|reflexivity].
    zcases.
Qed.

Lemma iter_ctl_ind {S R : Type} (P : Z -> S -> Prop) (body : Z -> S -> ctl S R) (n : nat) :
  forall i s,
    P i s ->
    (forall j t, i <= j < i + Z.of_nat n -> P j t ->
       exists t', body j t = Continue t' /\ P (j + 1) t') ->
    exists s', iter_ctl n i body s = Continue s' /\ P (i + Z.of_nat n) s'.
Proof.
  induction n as [|n IH]; intros i s H0 Hstep.
  - exists s. simpl. split; [reflexivity|]. now replace (i + 0) with i by lia.
  - cbn [iter_ctl].
    destruct (Hstep i s) as (t' & Hb & Ht'); [lia | exact H0 |].
    rewrite Hb.
    replace (i + Z.of_nat (Datatypes.S n)) with ((i + 1) + Z.of_nat n) by lia.
    apply IH; [exact Ht'|].
    intros j t Hj. apply Hstep. lia.
Qed.

Lemma for_ctl_ind {S R : Type} (P : Z -> S -> Prop) (lo hi : Z)
    (body : Z -> S -> ctl S R) (s : S) :
  lo <= hi ->
  P lo s ->
  (forall j t, lo <= j < hi -> P j t ->
     exists t', body j t = Continue t' /\ P (j + 1) t') ->
  exists s', for_ctl lo hi body s = Continue s' /\ P hi s'.
Proof.
  intros Hle H0 Hstep. unfold for_ctl.
  destruct (iter_ctl_ind P body (Z.to_nat (hi - lo)) lo s H0) as (s' & E & HP).
  { intros j t Hj. apply Hstep. lia. }
  exists s'. split; [exact E|].
  now replace (lo + Z.of_nat (Z.to_nat (hi - lo))) with hi in HP by lia.
Qed.

Lemma iter_ctl_app {S R : Type} (body : Z -> S -> ctl S R) (n m : nat) :
  forall i s,
    iter_ctl (n + m) i body s =
    match iter_ctl n i body s with
    | Continue s' => iter_ctl m (i + Z.of_nat n) body s'
    | Return r => Return r
    | Undefined => Undefined
    end.
Proof.
  induction n as [|n IH]; intros i s.
  - cbn [iter_ctl Nat.add]. now replace (i + Z.of_nat 0) with i by lia.
  - cbn [iter_ctl Nat.add]. destruct (body i s); try reflexivity.
    rewrite IH. now replace (i + 1 + Z.of_nat n) with (i + Z.of_nat (Datatypes.S n)) by lia.
Qed.

(** A loop is its passes up to [mid], then the others. *)
Lemma for_ctl_split {S R : Type} (lo mid hi : Z) (body : Z -> S -> ctl S R) (s : S) :
  lo <= mid <= hi ->
  for_ctl lo hi body s =
  match for_ctl lo mid body s with
  | Continue s' => for_ctl mid hi body s'
  | Return r => Return r
  | Undefined => Undefined
  end.
Proof.
  intros H. unfold for_ctl.
  replace (Z.to_nat (hi - lo)) with (Z.to_nat (mid - lo) + Z.to_nat (hi - mid))%nat by lia.
  rewrite iter_ctl_app.
  now replace (lo + Z.of_nat (Z.to_nat (mid - lo))) with mid by lia.
Qed.

Lemma for_ctl_first {S R : Type} (lo hi : Z) (body : Z -> S -> ctl S R) (s : S) :
  lo < hi ->
  for_ctl lo hi body s =
  match body lo s with
  | Continue s' => for_ctl (lo + 1) hi body s'
  | Return r => Return r
  | Undefined => Undefined
  end.
Proof.
  intros H. unfold for_ctl.
  replace (Z.to_nat (hi - lo)) with (Datatypes.S (Z.to_nat (hi - (lo + 1)))) by lia.
  reflexivity.
Qed.

(** A loop whose passes before [i] go through and whose pass [i]
    returns. *)
Lemma for_ctl_return {S R : Type} (lo i hi : Z) (body : Z -> S -> ctl S R)
    (s s' : S) (r : R) :
  lo <= i < hi ->
  for_ctl lo i body s = Continue s' ->
  body i s' = Return r ->
  for_ctl lo hi body s = Return r.
Proof.
  intros H Hrun Hret.
  rewrite (for_ctl_split lo i hi) by lia. rewrite Hrun.
  rewrite for_ctl_first by lia. now rewrite Hret.
Qed.

Lemma iter_ctl_holds {S R : Type} (I : S -> Prop) (Q : R -> Prop)
    (body : Z -> S -> ctl S R) (n : nat) :
  forall i s,
    I s ->
    (forall j t, i <= j < i + Z.of_nat n -> I t -> ctl_holds I Q (body j t)) ->
    ctl_holds I Q (iter_ctl n i body s).
Proof.
  induction n as [|n IH]; intros i s Hs Hbody; [exact Hs|].
  cbn [iter_ctl]. pose proof (Hbody i s ltac:(lia) Hs) as H.
  destruct (body i s) as [s'| |]; cbn [ctl_holds] in *; try exact H.
  apply IH; [exact H|]. intros j t Hj. apply Hbody. lia.
Qed.

Lemma for_ctl_holds {S R : Type} (I : S -> Prop) (Q : R -> Prop) (lo hi : Z)
    (body : Z -> S -> ctl S R) (s : S) :
  I s ->
  (forall j t, lo <= j < hi -> I t -> ctl_holds I Q (body j t)) ->
  ctl_holds I Q (for_ctl lo hi body s).
Proof.
  intros Hs Hbody. unfold for_ctl. apply iter_ctl_holds; [exact Hs|].
  intros j t Hj. apply Hbody. lia.
Qed.

Lemma for_ctl_nil {S R : Type} (lo : Z) (body : Z -> S -> ctl S R) (s : S) :
  for_ctl lo lo body s = Continue s.
Proof. unfold for_ctl. now rewrite Z.sub_diag. Qed.

(** From here on the loops are reasoned about through the lemmas above
    only. *)
#[global] Opaque for_loop for_ctl.

(** ** Grids *)

Lemma rd3_upd3 (g : grid) (i j k : Z) (v : float) (key : key3) :
  rd3 (upd3 g i j k v) key =
  let '(i', j', k') := key in
  if (i' =? i) && (j' =? j) && (k' =? k) then v else rd3 g key.
Proof. destruct key as [[i' j'] k']. reflexivity. Qed.

(** What three nested loops that store [val] at every cell of the grid
    leave behind, whatever the order of the two inner loops. *)
Lemma fill_nan_spec (data : grid) (i j k : Z) :
  fill_nan data i j k =
  if in_range 0 NYEAR i && in_range 0 NLAT j && in_range 0 NLON k
  then F32.NAN else data i j k.
Proof.
  unfold fill_nan.
  change (for_loop 0 NYEAR ?b data i j k) with (rd3 (for_loop 0 NYEAR b data) (i, j, k)).
  rewrite (for_loop_store rd3 _ (fun key => fst (fst key))
             (fun key => in_range 0 NLAT (snd (fst key)) && in_range 0 NLON (snd key))
             (fun _ _ => F32.NAN)); [unfold in_range, rd3; bcases | unfold NYEAR; lia |].
  intros iyear s key _.
  rewrite (for_loop_store rd3 _ (fun key => snd (fst key))
             (fun key => (fst (fst key) =? iyear) && in_range 0 NLON (snd key))
             (fun _ _ => F32.NAN)); [| unfold NLAT; lia |].
  - destruct key as [[a b] c]. unfold in_range. bcases.
  - intros ilat s' key' _.
    rewrite (for_loop_store rd3 _ (fun key => snd key)
               (fun key => (fst (fst key) =? iyear) && (snd (fst key) =? ilat))
               (fun _ _ => F32.NAN)); [| unfold NLON; lia |].
    + destruct key' as [[a b] c]. unfold in_range. bcases.
    + intros ilon s'' key'' _. rewrite rd3_upd3.
      destruct key'' as [[a b] c]. bcases.
Qed.

Lemma transpose_5yr_spec (readdata : farray) (data : grid) (i j k : Z) :
  transpose_5yr readdata data i j k =
  if in_range 0 NYEAR i && in_range 0 NLAT j && in_range 0 NLON k
  then readdata (i * (NLON * NLAT) + (NLAT * k + j)) else data i j k.
Proof.
  unfold transpose_5yr.
  set (val := fun (_ : float) (key : key3) =>
                let '(a, b, c) := key in readdata (a * (NLON * NLAT) + (NLAT * c + b))).
  change (for_loop 0 NYEAR ?b data i j k) with (rd3 (for_loop 0 NYEAR b data) (i, j, k)).
  rewrite (for_loop_store rd3 _ (fun key => fst (fst key))
             (fun key => in_range 0 NLAT (snd (fst key)) && in_range 0 NLON (snd key))
             val); [unfold in_range, rd3, val; bcases | unfold NYEAR; lia |].
  intros iyear s key _.
  rewrite (for_loop_store rd3 _ (fun key => snd key)
             (fun key => (fst (fst key) =? iyear) && in_range 0 NLAT (snd (fst key)))
             val); [| unfold NLON; lia |].
  - destruct key as [[a b] c]. unfold in_range. bcases.
  - intros ilon s' key' _.
    rewrite (for_loop_store rd3 _ (fun key => snd (fst key))
               (fun key => (fst (fst key) =? iyear) && (snd key =? ilon))
               val); [| unfold NLAT; lia |].
    + destruct key' as [[a b] c]. unfold in_range. bcases.
    + intros ilat s'' key'' _. rewrite rd3_upd3.
      destruct key'' as [[a b] c]. cbn [fst snd val].
      destruct (Z.eqb_spec a iyear), (Z.eqb_spec b ilat), (Z.eqb_spec c ilon);
        subst; reflexivity.
Qed.

(** ** Machine arithmetic and [fread] *)

Lemma int_mul_ok (a b : Z) :
  INT_MIN <= a * b <= INT_MAX -> int_mul a b = Some (a * b).
Proof.
  intros H. unfold int_mul, in_int.
  destruct (Z.leb_spec INT_MIN (a * b)), (Z.leb_spec (a * b) INT_MAX);
    try reflexivity; lia.
Qed.

Lemma to_size_t_small (x : Z) : 0 <= x <= SIZE_MAX -> to_size_t x = x.
Proof. intros H. unfold to_size_t. apply Z.mod_small. lia. Qed.

Lemma fread_some (cap : Z) (buf : farray) (nmemb : Z) (f : FILE) :
  Z.min nmemb (avail f) <= cap ->
  fread cap buf nmemb f =
  Some (fun j => if (0 <=? j) && (j <? Z.min nmemb (avail f))
                 then contents (file f) (pos f + j) else buf j,
        Z.min nmemb (avail f),
        {| file := file f; pos := pos f + Z.min nmemb (avail f) |}).
Proof.
  intros H. unfold fread.
  destruct (Z.leb_spec (Z.min nmemb (avail f)) cap); [reflexivity | lia].
Qed.

(** ** The five-year reader on a named file *)

Lemma read_5yr_data_run (fs : bin_fs) (readdata : farray) (filename : string)
    (data : grid) (nskipyr : Z) (bf : bin_file) :
  is_no_data filename = false ->
  fs filename = Some bf ->
  0 <= nskipyr <= NYEAR ->
  exists readdata' : farray,
    (forall j, 0 <= j < NYEAR * NLAT * NLON ->
       (nskipyr + NYEAR) * (NLAT * NLON) <= Z.of_N (size bf) ->
       readdata' j = contents bf (nskipyr * (NLAT * NLON) + j)) /\
    read_5yr_data fs readdata filename data nskipyr =
    Some (if (nskipyr + NYEAR) * (NLAT * NLON) <=? Z.of_N (size bf)
          then ret 0 [] (transpose_5yr readdata' data)
          else ret 1 [Error_reading_data_from filename] data).
Proof.
  intros Hnd Hfs Hk. unfold read_5yr_data. rewrite Hnd. unfold fopen. rewrite Hfs.
  rewrite int_mul_ok by (unfold INT_MIN, INT_MAX, NLAT, NYEAR in *; lia).
  cbn [bind].
  rewrite int_mul_ok by (unfold INT_MIN, INT_MAX, NLAT, NLON, NYEAR in *; lia).
  cbn [bind].
  rewrite to_size_t_small by (unfold SIZE_MAX, NLAT, NLON, NYEAR in *; lia).
  rewrite fread_some by (unfold NLAT, NLON, NYEAR in *; lia).
  cbn [bind].
  rewrite fread_some by (unfold NLAT, NLON, NYEAR in *; lia).
  cbn [bind file pos].
  unfold avail; cbn [file pos].
  eexists. split; [|
    match goal with |- (if negb ?c then _ else _) = Some (if ?d then _ else _) =>
      replace c with d; [destruct d; reflexivity|] end ].
  - intros j Hj Hsz. cbn beta.
    replace (Z.min (NYEAR * NLAT * NLON)
               (Z.max 0 (Z.of_N (size bf) -
                  (0 + Z.min (nskipyr * NLAT * NLON) (Z.max 0 (Z.of_N (size bf) - 0))))))
      with (NYEAR * NLAT * NLON) by (unfold NLAT, NLON, NYEAR in *; lia).
    replace (Z.min (nskipyr * NLAT * NLON) (Z.max 0 (Z.of_N (size bf) - 0)))
      with (nskipyr * (NLAT * NLON)) by (unfold NLAT, NLON, NYEAR in *; lia).
    replace ((0 <=? j) && (j <? NYEAR * NLAT * NLON)) with true by (symmetry; zcases).
    f_equal; lia.
  - unfold NLAT, NLON, NYEAR in *. zcases.
Qed.

(** ** The table reader on a named file *)

Lemma read_table_data_run (fs : bin_fs) (tempdata : farray) (filename : string)
    (nrow : Z) (data : farray) (bf : bin_file) :
  fs filename = Some bf ->
  0 <= nrow <= NBASIN ->
  exists data' : farray,
    (forall j, 0 <= j < NYEAR * nrow ->
       (NYEAR + 1) * nrow <= Z.of_N (size bf) ->
       data' j = contents bf (nrow + j)) /\
    (forall j, ~ 0 <= j < NYEAR * nrow -> data' j = data j) /\
    read_table_data fs tempdata filename nrow data =
    Some (if (NYEAR + 1) * nrow <=? Z.of_N (size bf)
          then ret 0 [] data'
          else ret 1 [Error_reading_data_from filename] data').
Proof.
  intros Hfs Hn. unfold read_table_data, fopen. rewrite Hfs.
  rewrite to_size_t_small by (unfold SIZE_MAX, NBASIN in *; lia).
  rewrite fread_some by lia.
  cbn [bind].
  rewrite int_mul_ok by (unfold INT_MIN, INT_MAX, NYEAR, NBASIN in *; lia).
  cbn [bind].
  rewrite to_size_t_small by (unfold SIZE_MAX, NYEAR, NBASIN in *; lia).
  rewrite fread_some by lia.
  cbn [bind file pos].
  unfold avail; cbn [file pos].
  eexists. split; [| split; [|
    match goal with |- (if negb ?c then _ else _) = Some (if ?d then _ else _) =>
      replace c with d; [destruct d; reflexivity|] end ]].
  - intros j Hj Hsz. cbn beta.
    replace (Z.min (NYEAR * nrow)
               (Z.max 0 (Z.of_N (size bf) -
                  (0 + Z.min nrow (Z.max 0 (Z.of_N (size bf) - 0))))))
      with (NYEAR * nrow) by (unfold NYEAR in *; lia).
    replace (Z.min nrow (Z.max 0 (Z.of_N (size bf) - 0))) with nrow by lia.
    replace ((0 <=? j) && (j <? NYEAR * nrow)) with true by (symmetry; zcases).
    f_equal; lia.
  - intros j Hj. cbn beta.
    match goal with |- (if ?c then _ else _) = _ => replace c with false; [reflexivity|] end.
    symmetry. zcases.
  - unfold NYEAR in *. zcases.
Qed.

(** ** The sentinel input of the grid readers *)

Lemma read_and_aggregate_data_no_data (fs : bin_fs) (readdata transdata : farray)
    (data : grid) :
  read_and_aggregate_data fs readdata transdata "no-data" data =
  Some (ret 0 [] (fill_nan data)).
Proof. reflexivity. Qed.

Lemma read_5yr_data_no_data (fs : bin_fs) (readdata : farray) (data : grid)
    (nskipyr : Z) :
  read_5yr_data fs readdata "no-data" data nskipyr = Some (ret 0 [] (fill_nan data)).
Proof. reflexivity. Qed.

Lemma fill_nan_in_range (data : grid) (iyear ilat ilon : Z) :
  0 <= iyear < NYEAR -> 0 <= ilat < NLAT -> 0 <= ilon < NLON ->
  fill_nan data iyear ilat ilon = F32.NAN.
Proof.
  intros Hy Hlat Hlon. rewrite fill_nan_spec. unfold in_range.
  replace ((0 <=? iyear) && (iyear <? NYEAR)) with true by (symmetry; zcases).
  replace ((0 <=? ilat) && (ilat <? NLAT)) with true by (symmetry; zcases).
  replace ((0 <=? ilon) && (ilon <? NLON)) with true by (symmetry; zcases).
  reflexivity.
Qed.

(** C7. Given the sentinel name ["no-data"], either grid reader returns
    status 0, writes no diagnostic, and leaves the not-a-number marker in
    every cell [iyear][ilat][ilon] of the 18 x 360 x 720 grid, whatever
    the files, the buffers and the grid held before. *)
Theorem C7_sentinel_grid_all_nan (fs : bin_fs) (readdata transdata : farray)
    (data : grid) (nskipyr : Z) (iyear ilat ilon : Z) :
  0 <= iyear < 18 -> 0 <= ilat < 360 -> 0 <= ilon < 720 ->
  (exists r, read_and_aggregate_data fs readdata transdata "no-data" data = Some r /\
             stat r = 0 /\ errs r = [] /\ out r iyear ilat ilon = F32.NAN) /\
  (exists r, read_5yr_data fs readdata "no-data" data nskipyr = Some r /\
             stat r = 0 /\ errs r = [] /\ out r iyear ilat ilon = F32.NAN).
Proof.
  intros Hy Hlat Hlon. split.
  - eexists. split; [apply read_and_aggregate_data_no_data|].
    cbn [ret stat errs out]. repeat split. now apply fill_nan_in_range.
  - eexists. split; [apply read_5yr_data_no_data|].
    cbn [ret stat errs out]. repeat split. now apply fill_nan_in_range.
Qed.

(** ** The five-year reader: records kept and records dropped *)

Lemma transpose_5yr_in_range (readdata : farray) (data : grid) (i ilat ilon : Z) :
  0 <= i < NYEAR -> 0 <= ilat < NLAT -> 0 <= ilon < NLON ->
  transpose_5yr readdata data i ilat ilon =
  readdata (i * (NLON * NLAT) + (NLAT * ilon + ilat)).
Proof.
  intros Hy Hlat Hlon. rewrite transpose_5yr_spec. unfold in_range.
  replace ((0 <=? i) && (i <? NYEAR)) with true by (symmetry; zcases).
  replace ((0 <=? ilat) && (ilat <? NLAT)) with true by (symmetry; zcases).
  replace ((0 <=? ilon) && (ilon <? NLON)) with true by (symmetry; zcases).
  reflexivity.
Qed.

(** C4. For a five-year-interval file that holds at least [k + 18]
    records of 360 x 720 values, [read_5yr_data] with skip-year count [k]
    returns 0 and output time-step [i], cell [ilat][ilon], is the value at
    position [ilon][ilat] of input record [k + i]: the [k] leading records
    are dropped, the axes are swapped, the number is not changed.
    ([k] is within the 18 records the read buffer holds.) *)
Theorem C4_read_5yr_skip_and_transpose (fs : bin_fs) (readdata : farray)
    (filename : string) (data : grid) (k : Z) (bf : bin_file) (i ilat ilon : Z) :
  is_no_data filename = false ->
  fs filename = Some bf ->
  0 <= k <= 18 ->
  (k + 18) * (360 * 720) <= Z.of_N (size bf) ->
  0 <= i < 18 -> 0 <= ilat < 360 -> 0 <= ilon < 720 ->
  exists r, read_5yr_data fs readdata filename data k = Some r /\
            stat r = 0 /\
            out r i ilat ilon = contents bf ((k + i) * (360 * 720) + (ilon * 360 + ilat)).
Proof.
  intros Hnd Hfs Hk Hsz Hi Hlat Hlon.
  destruct (read_5yr_data_run fs readdata filename data k bf Hnd Hfs Hk)
    as (rd' & Hrd & Hrun).
  rewrite Hrun.
  replace ((k + NYEAR) * (NLAT * NLON) <=? Z.of_N (size bf)) with true
    by (symmetry; unfold NYEAR, NLAT, NLON; zcases).
  eexists. split; [reflexivity|]. cbn [ret stat out]. split; [reflexivity|].
  rewrite transpose_5yr_in_range by assumption.
  rewrite Hrd by (unfold NYEAR, NLAT, NLON in *; lia).
  f_equal. unfold NYEAR, NLAT, NLON. lia.
Qed.

(** C5. For a packed-binary table file with [n] rows that holds at
    least [19 * n] values, [read_table_data] returns 0 and entry
    [t][e] of the [time][entity] table is value [n + (t * n + e)] of the
    stream: the first [n] values are dropped and the next [18 * n] are
    copied in stream order, unchanged; nothing else of the table is
    touched. ([n] is within the 235 values the throwaway buffer holds.) *)
Theorem C5_read_table_verbatim (fs : bin_fs) (tempdata : farray)
    (filename : string) (n : Z) (data : farray) (bf : bin_file) (t e : Z) :
  fs filename = Some bf ->
  0 <= n <= 235 ->
  19 * n <= Z.of_N (size bf) ->
  0 <= t < 18 -> 0 <= e < n ->
  exists r, read_table_data fs tempdata filename n data = Some r /\
            stat r = 0 /\
            out r (t * n + e) = contents bf (n + (t * n + e)) /\
            (forall j, ~ 0 <= j < 18 * n -> out r j = data j).
Proof.
  intros Hfs Hn Hsz Ht He.
  destruct (read_table_data_run fs tempdata filename n data bf Hfs Hn)
    as (data' & Hin & Hout & Hrun).
  rewrite Hrun.
  replace ((NYEAR + 1) * n <=? Z.of_N (size bf)) with true
    by (symmetry; unfold NYEAR; zcases).
  eexists. split; [reflexivity|]. cbn [ret stat out]. split; [reflexivity|]. split.
  - apply Hin; unfold NYEAR; nia.
  - exact Hout.
Qed.

(** C10. Neither reader looks at the count of its throwaway read. On a
    file that can be opened and is not the sentinel, [read_5yr_data]
    returns 0 exactly when the file holds at least [(k + 18) * 360 * 720]
    values and [read_table_data] exactly when it holds at least
    [19 * n]; every shortfall, also one inside the dropped leading block,
    gives status 1 with the one diagnostic of the main read. *)
Theorem C10_truncation_single_check (fs : bin_fs) (readdata tempdata : farray)
    (filename : string) (data : grid) (tdata : farray) (k n : Z) (bf : bin_file) :
  is_no_data filename = false ->
  fs filename = Some bf ->
  0 <= k <= 18 ->
  0 <= n <= 235 ->
  (exists r, read_5yr_data fs readdata filename data k = Some r /\
     stat r = (if (k + 18) * 360 * 720 <=? Z.of_N (size bf) then 0 else 1) /\
     errs r = (if (k + 18) * 360 * 720 <=? Z.of_N (size bf) then []
               else [Error_reading_data_from filename])) /\
  (exists r, read_table_data fs tempdata filename n tdata = Some r /\
     stat r = (if 19 * n <=? Z.of_N (size bf) then 0 else 1) /\
     errs r = (if 19 * n <=? Z.of_N (size bf) then []
               else [Error_reading_data_from filename])).
Proof.
  intros Hnd Hfs Hk Hn. split.
  - destruct (read_5yr_data_run fs readdata filename data k bf Hnd Hfs Hk)
      as (rd' & _ & Hrun).
    rewrite Hrun. eexists. split; [reflexivity|].
    replace ((k + 18) * 360 * 720) with ((k + NYEAR) * (NLAT * NLON))
      by (unfold NYEAR, NLAT, NLON; lia).
    destruct (_ <=? _); now split.
  - destruct (read_table_data_run fs tempdata filename n tdata bf Hfs Hn)
      as (data' & _ & _ & Hrun).
    rewrite Hrun. eexists. split; [reflexivity|].
    replace (19 * n) with ((NYEAR + 1) * n) by (unfold NYEAR; lia).
    destruct (_ <=? _); now split.
Qed.

(** ** The monthly reader: aggregation of one year *)

Lemma acc_months_ext (v v' : Z -> float) (n : nat) (init : float) :
  (forall m, 0 <= m < Z.of_nat n -> v m = v' m) ->
  acc_months v n init = acc_months v' n init.
Proof.
  induction n as [|n IH]; intros H; [reflexivity|].
  cbn [acc_months]. rewrite IH by (intros; apply H; lia).
  rewrite H by lia. reflexivity.
Qed.

Lemma acc_months_fold (v : Z -> float) (init : float) :
  acc_months v 12 init =
  fold_left F32.add (map v [0; 1; 2; 3; 4; 5; 6; 7; 8; 9; 10; 11]) init.
Proof.
  cbn [acc_months map fold_left Z.of_nat Pos.of_succ_nat Pos.succ]. reflexivity.
Qed.

Lemma aggregate_spec (readdata transdata : farray) (i : Z) :
  aggregate readdata transdata i =
  if in_range 0 (NLAT * NLON) i
  then acc_months (fun m => readdata (m * (NLON * NLAT) + i)) 12 (transdata i)
  else transdata i.
Proof.
  unfold aggregate.
  apply (for_loop_ind (fun m t => forall j,
           t j = if in_range 0 (NLAT * NLON) j
                 then acc_months (fun m => readdata (m * (NLON * NLAT) + j))
                        (Z.to_nat m) (transdata j)
                 else transdata j)); [lia | |].
  - intros j. cbn [Z.to_nat acc_months]. now destruct (in_range 0 (NLAT * NLON) j).
  - intros m t Hm IH j.
    rewrite (for_loop_store (fun (t : farray) (key : Z) => t key) _
               (fun key => key) (fun _ => true)
               (fun old key => F32.add old (readdata (m * (NLON * NLAT) + key))));
      [| unfold NLAT, NLON; lia |].
    + rewrite andb_true_r. fold (in_range 0 (NLAT * NLON) j). rewrite IH.
      destruct (in_range 0 (NLAT * NLON) j); [|reflexivity].
      replace (Z.to_nat (m + 1)) with (Datatypes.S (Z.to_nat m)) by lia.
      cbn [acc_months]. rewrite Z2Nat.id by lia. reflexivity.
    + intros i' s key _. unfold upd. rewrite andb_true_r.
      destruct (Z.eqb_spec key i'); subst; reflexivity.
Qed.

Lemma transpose_scaled_spec (transdata : farray) (iyear : Z) (data : grid) (a b c : Z) :
  transpose_scaled transdata iyear data a b c =
  if (a =? iyear) && in_range 0 NLAT b && in_range 0 NLON c
  then F32.mul (transdata (NLAT * c + b)) fac else data a b c.
Proof.
  unfold transpose_scaled.
  set (val := fun (_ : float) (key : key3) =>
                let '(_, b, c) := key in F32.mul (transdata (NLAT * c + b)) fac).
  change (for_loop 0 NLON ?f data a b c) with (rd3 (for_loop 0 NLON f data) (a, b, c)).
  rewrite (for_loop_store rd3 _ (fun key => snd key)
             (fun key => (fst (fst key) =? iyear) && in_range 0 NLAT (snd (fst key)))
             val); [unfold in_range, rd3, val; bcases | unfold NLON; lia |].
  intros ilon s key _.
  rewrite (for_loop_store rd3 _ (fun key => snd (fst key))
             (fun key => (fst (fst key) =? iyear) && (snd key =? ilon))
             val); [| unfold NLAT; lia |].
  - destruct key as [[a' b'] c']. unfold in_range. bcases.
  - intros ilat s' key' _. rewrite rd3_upd3.
    destruct key' as [[a' b'] c']. cbn [fst snd val].
    destruct (Z.eqb_spec a' iyear), (Z.eqb_spec b' ilat), (Z.eqb_spec c' ilon);
      subst; reflexivity.
Qed.

(** ** The monthly reader: the year loop *)

Lemma agg_year_step (filename : string) (bf : bin_file) (y : Z) (s : agg_state) :
  file (infile s) = bf ->
  pos (infile s) = (y - 2001) * (12 * NLAT * NLON) ->
  2001 <= y <= 2095 ->
  95 * 12 * (NLAT * NLON) <= Z.of_N (size bf) ->
  exists s',
    agg_year filename y s = Continue s' /\
    file (infile s') = bf /\
    pos (infile s') = (y + 1 - 2001) * (12 * NLAT * NLON) /\
    forall a b c,
      data_of s' a b c =
      if kept y && (a =? (y - 2010) / 5) && in_range 0 NLAT b && in_range 0 NLON c
      then annual bf y b c else data_of s a b c.
Proof.
  intros Hf Hp Hy Hsz. unfold agg_year.
  assert (Hav : 12 * NLAT * NLON <= avail (infile s)).
  { unfold avail. rewrite Hf, Hp. unfold NLAT, NLON in *. lia. }
  rewrite fread_some by (unfold NLAT, NLON in *; lia).
  rewrite (Z.min_l _ _ Hav). rewrite Z.eqb_refl. cbn [negb].
  destruct ((y <? 2010) || negb (Z.rem y 5 =? 0)) eqn:Hskip.
  - eexists. split; [reflexivity|]. cbn [infile file pos data_of].
    split; [exact Hf|]. split; [lia|]. intros a b c.
    replace (kept y) with false; [reflexivity|].
    unfold kept. rewrite Z.rem_mod_nonneg in Hskip by lia.
    symmetry. revert Hskip. zcases.
  - eexists. split; [reflexivity|]. cbn [infile file pos data_of].
    split; [exact Hf|]. split; [lia|]. intros a b c.
    rewrite Z.rem_mod_nonneg in Hskip by lia.
    assert (Hk : kept y = true) by (unfold kept; revert Hskip; zcases).
    assert (Hy10 : 2010 <= y) by (revert Hskip; zcases).
    rewrite Hk. rewrite Z.quot_div_nonneg by lia.
    rewrite transpose_scaled_spec. cbn [andb].
    destruct ((a =? (y - 2010) / 5) && in_range 0 NLAT b && in_range 0 NLON c) eqn:Hc;
      [|reflexivity].
    unfold annual. f_equal.
    assert (Hb : 0 <= b < NLAT /\ 0 <= c < NLON).
    { unfold in_range in Hc. revert Hc. zcases. }
    rewrite aggregate_spec.
    replace (in_range 0 (NLAT * NLON) (NLAT * c + b)) with true
      by (symmetry; unfold in_range, NLAT, NLON in *; zcases).
    unfold memset0.
    replace ((0 <=? NLAT * c + b) && (NLAT * c + b <? NLAT * NLON)) with true
      by (symmetry; unfold NLAT, NLON in *; zcases).
    apply acc_months_ext. intros m Hm. cbn beta.
    replace ((0 <=? m * (NLON * NLAT) + (NLAT * c + b)) &&
             (m * (NLON * NLAT) + (NLAT * c + b) <? 12 * NLAT * NLON)) with true
      by (symmetry; unfold NLAT, NLON in *; zcases).
    rewrite Hf, Hp. f_equal. unfold monthly_index. lia.
Qed.

Lemma read_and_aggregate_data_run (fs : bin_fs) (readdata transdata : farray)
    (filename : string) (data : grid) (bf : bin_file) :
  is_no_data filename = false ->
  fs filename = Some bf ->
  95 * 12 * (NLAT * NLON) <= Z.of_N (size bf) ->
  exists r,
    read_and_aggregate_data fs readdata transdata filename data = Some r /\
    stat r = 0 /\ errs r = [] /\
    forall a b c,
      out r a b c =
      if in_range 0 NYEAR a && in_range 0 NLAT b && in_range 0 NLON c
      then annual bf (2010 + 5 * a) b c else data a b c.
Proof.
  intros Hnd Hfs Hsz. unfold read_and_aggregate_data. rewrite Hnd.
  unfold fopen. rewrite Hfs.
  destruct (for_ctl_ind
    (fun y s =>
       file (infile s) = bf /\
       pos (infile s) = (y - 2001) * (12 * NLAT * NLON) /\
       forall a b c,
         data_of s a b c =
         if in_range 0 NYEAR a && (2010 + 5 * a <? y) &&
            in_range 0 NLAT b && in_range 0 NLON c
         then annual bf (2010 + 5 * a) b c else data a b c)
    2001 2096 (agg_year filename)
    {| infile := {| file := bf; pos := 0 |}; readdata_of := readdata;
       transdata_of := transdata; data_of := data |}) as (s' & Hrun & _ & _ & Hdata).
  - lia.
  - cbn [infile file pos data_of]. split; [reflexivity|]. split; [lia|].
    intros a b c.
    replace (in_range 0 NYEAR a && (2010 + 5 * a <? 2001)) with false; [reflexivity|].
    symmetry. unfold in_range. zcases.
  - intros y s Hy (Hf & Hp & Hd).
    destruct (agg_year_step filename bf y s Hf Hp ltac:(lia) Hsz)
      as (s' & Hs' & Hf' & Hp' & Hd').
    exists s'. split; [exact Hs'|]. split; [exact Hf'|]. split; [exact Hp'|].
    intros a b c. rewrite Hd', Hd.
    destruct (in_range 0 NLAT b); rewrite ?andb_false_r; [|reflexivity].
    destruct (in_range 0 NLON c); rewrite ?andb_false_r; [|reflexivity].
    rewrite !andb_true_r. unfold kept, in_range, NYEAR.
    destruct (Z.leb_spec 2010 y), (Z.eqb_spec (y mod 5) 0),
      (Z.eqb_spec a ((y - 2010) / 5)), (Z.leb_spec 0 a), (Z.ltb_spec a 18),
      (Z.ltb_spec (2010 + 5 * a) (y + 1)), (Z.ltb_spec (2010 + 5 * a) y);
      cbn [andb]; try reflexivity;
      try (exfalso; Z.to_euclidean_division_equations; lia).
    f_equal. Z.to_euclidean_division_equations. lia.
  - rewrite Hrun. eexists. split; [reflexivity|]. cbn [ret stat errs out].
    split; [reflexivity|]. split; [reflexivity|].
    intros a b c. rewrite Hdata.
    replace (in_range 0 NYEAR a && (2010 + 5 * a <? 2096)) with (in_range 0 NYEAR a);
      [reflexivity|].
    unfold in_range, NYEAR. zcases.
Qed.

Lemma fac_value : fac = c_float 0.00263.
Proof. vm_compute. reflexivity. Qed.

(** C1, as the code has it. For a monthly-flow file of full length (95
    years of 12 records) and a kept year [y] in 2010, 2015, ..., 2095, the
    reader returns 0 and stores at time-step [(y - 2010) / 5], cell
    [ilat][ilon], the SUM of the twelve monthly values found at
    [ilon][ilat] of the records of year [y] (added in month order from
    zero, in single precision), multiplied by the constant
    [3.156e-2 / 12.0], which is the [float] 0.00263. The twelfth that
    turns the sum into a mean is part of that constant. *)
Theorem C1_monthly_sum_times_fac (fs : bin_fs) (readdata transdata : farray)
    (filename : string) (data : grid) (bf : bin_file) (y ilat ilon : Z) :
  is_no_data filename = false ->
  fs filename = Some bf ->
  95 * 12 * (360 * 720) <= Z.of_N (size bf) ->
  2010 <= y <= 2095 -> y mod 5 = 0 ->
  0 <= ilat < 360 -> 0 <= ilon < 720 ->
  exists r,
    read_and_aggregate_data fs readdata transdata filename data = Some r /\
    stat r = 0 /\
    out r ((y - 2010) / 5) ilat ilon =
      F32.mul
        (fold_left F32.add
           (map (fun m => contents bf (monthly_index y m ilon ilat))
                [0; 1; 2; 3; 4; 5; 6; 7; 8; 9; 10; 11])
           F32.zero)
        fac /\
    fac = c_float 0.00263.
Proof.
  intros Hnd Hfs Hsz Hy Hy5 Hlat Hlon.
  destruct (read_and_aggregate_data_run fs readdata transdata filename data bf
              Hnd Hfs Hsz) as (r & Hr & Hst & _ & Hout).
  exists r. split; [exact Hr|]. split; [exact Hst|]. split; [|exact fac_value].
  rewrite Hout.
  replace (in_range 0 NYEAR ((y - 2010) / 5)) with true
    by (symmetry; unfold in_range, NYEAR; zcases;
        Z.to_euclidean_division_equations; lia).
  replace (in_range 0 NLAT ilat) with true by (symmetry; unfold in_range, NLAT; zcases).
  replace (in_range 0 NLON ilon) with true by (symmetry; unfold in_range, NLON; zcases).
  cbn [andb]. unfold annual. rewrite acc_months_fold.
  replace (2010 + 5 * ((y - 2010) / 5)) with y
    by (Z.to_euclidean_division_equations; lia).
  reflexivity.
Qed.

Lemma C1_monthly_sum_times_fac_witness :
  exists r,
    read_and_aggregate_data (one_file "flow.dat" unit_flow) static_floats static_floats
      "flow.dat" static_grid = Some r /\
    stat r = 0 /\
    out r ((2095 - 2010) / 5) 359 719 =
      F32.mul
        (fold_left F32.add
           (map (fun m => contents unit_flow (monthly_index 2095 m 719 359))
                [0; 1; 2; 3; 4; 5; 6; 7; 8; 9; 10; 11])
           F32.zero)
        fac /\
    fac = c_float 0.00263.
Proof.
  apply (C1_monthly_sum_times_fac (one_file "flow.dat" unit_flow) static_floats
           static_floats "flow.dat" static_grid unit_flow 2095 359 719).
  - reflexivity.
  - reflexivity.
  - vm_compute. discriminate.
  - lia.
  - reflexivity.
  - lia.
  - lia.
Defined.

(** C1, as the sentence has it, fails: on the full-length file that holds
    1.0 everywhere the cell of 2010 at [0][0] is not the mean (1.0) times
    0.00263 but more than ten times as much. *)
Lemma C1_mean_times_00263_counterexample :
  exists r,
    read_and_aggregate_data (one_file "flow.dat" unit_flow) static_floats static_floats
      "flow.dat" static_grid = Some r /\
    stat r = 0 /\
    out r 0 0 0 <> mean_times_00263 unit_flow 2010 0 0 /\
    F32.ltb (F32.mul (c_float 10) (mean_times_00263 unit_flow 2010 0 0)) (out r 0 0 0)
    = true.
Proof.
  assert (Hsz : 95 * 12 * (NLAT * NLON) <= Z.of_N (size unit_flow))
    by (vm_compute; discriminate).
  destruct (read_and_aggregate_data_run (one_file "flow.dat" unit_flow) static_floats
              static_floats "flow.dat" static_grid unit_flow eq_refl eq_refl Hsz)
    as (r & Hr & Hst & _ & Hout).
  exists r. split; [exact Hr|]. split; [exact Hst|].
  rewrite (Hout 0 0 0).
  change (in_range 0 NYEAR 0 && in_range 0 NLAT 0 && in_range 0 NLON 0) with true.
  cbn match. split.
  - vm_compute. discriminate.
  - vm_compute. reflexivity.
Qed.

(** ** Rounding *)

Lemma round_magnitude_nearest (m : positive) (e : Z) :
  e < 0 ->
  let p := 2 ^ (- e) in
  let r := round_magnitude m e in
  0 <= r /\ 2 * p * r <= 2 * Zpos m + p < 2 * p * (r + 1).
Proof.
  intros He p r. unfold r, round_magnitude.
  replace (0 <=? e) with false by (symmetry; zcases).
  fold p. assert (Hp : 0 < p) by (unfold p; apply Z.pow_pos_nonneg; lia).
  split.
  - apply Z.div_pos; lia.
  - pose proof (Z.mul_div_le (2 * Zpos m + p) (2 * p) ltac:(lia)).
    pose proof (Z.mul_succ_div_gt (2 * Zpos m + p) (2 * p) ltac:(lia)).
    lia.
Qed.

(** [(int) round(x)], when defined, is the integer nearest to [x], halves
    rounded away from zero. *)
Lemma int_of_round_nearest (x : double) (n : Z) :
  int_of_round x = Some n ->
  exists num den, fraction_of x = Some (num, den) /\ 0 < den /\
                  nearest_half_away num den n.
Proof.
  destruct x as [s|s| |s m e]; cbn [int_of_round fraction_of]; try discriminate.
  - intros [= <-]. exists 0, 1. unfold nearest_half_away. repeat split; lia.
  - destruct (in_int _); [|discriminate]. intros [= <-].
    destruct (Z.leb_spec 0 e) as [He|He].
    + eexists _, 1. split; [reflexivity|]. split; [lia|].
      unfold round_magnitude. replace (0 <=? e) with true by (symmetry; zcases).
      unfold nearest_half_away. split; lia.
    + eexists _, (2 ^ (- e)). split; [reflexivity|].
      pose proof (round_magnitude_nearest m e He) as (Hr0 & Hlo & Hhi).
      assert (Hp : 0 < 2 ^ (- e)) by (apply Z.pow_pos_nonneg; lia).
      split; [exact Hp|].
      unfold nearest_half_away. destruct s; cbn [cond_Zopp]; split; nia.
Qed.

Example int_of_round_values :
  map (fun q => int_of_round (c_double q))
      [2.5; -2.5; 0.5; -0.5; 0.4; 1234.49; 2147483647.4; 2147483647.5]%Q
  = [Some 3; Some (-3); Some 1; Some (-1); Some 0; Some 1234; Some 2147483647; None].
Proof. vm_compute. reflexivity. Qed.

(** ** The population reader *)

Example fscanf_comma_lf_values :
  fscanf_comma_lf strtod_dec (text ", 12.5,3") (c_double 7) = (1, c_double 12.5, text ",3") /\
  fscanf_comma_lf strtod_dec (text ",x") (c_double 7) = (0, c_double 7, text "x") /\
  fscanf_comma_lf strtod_dec (text "12.5") (c_double 7) = (0, c_double 7, text "12.5") /\
  fscanf_comma_lf strtod_dec (text ",") (c_double 7) = (EOF, c_double 7, []) /\
  snd (fscanf_skip2 strtod_dec (text " 1,2005,3")) = text ",3" /\
  fgets 1024 (text ",7,8" ++ newline :: text "next") = text "next".
Proof. vm_compute. repeat split. Qed.

Lemma fgets_chars_line (tr more : stream) :
  ~ In newline tr ->
  forall n, (List.length tr < n)%nat ->
  fgets_chars n (tr ++ newline :: more) = more.
Proof.
  induction tr as [|c tr IH]; intros Hnl n Hn.
  - destruct n; [cbn in Hn; lia|]. cbn. reflexivity.
  - destruct n; [cbn in Hn; lia|]. cbn [fgets_chars app].
    destruct (Ascii.eqb_spec c newline) as [->|_].
    + exfalso. apply Hnl. now left.
    + apply IH; [intros H; apply Hnl; now right | cbn in Hn; lia].
Qed.

Lemma ends_field_comma (t : stream) : ends_field (comma :: t).
Proof. now left. Qed.

Section PopProofs.

Variable strtod : stream -> option (double * stream).
Variable filename : string.

Lemma fscanf_comma_lf_conv (s t : stream) (v tmp : double) :
  conv strtod s = Some (v, t) ->
  fscanf_comma_lf strtod (comma :: s) tmp = (1, v, t).
Proof.
  unfold conv, fscanf_comma_lf. rewrite Ascii.eqb_refl.
  destruct (skip_ws s); [discriminate|]. now intros ->.
Qed.

Lemma fscanf_comma_lf_keeps (s : stream) (tmp : double) :
  fst (fst (fscanf_comma_lf strtod s tmp)) <> 1 ->
  snd (fst (fscanf_comma_lf strtod s tmp)) = tmp.
Proof.
  unfold fscanf_comma_lf. destruct s as [|c s]; [reflexivity|].
  destruct (Ascii.eqb c comma); [|reflexivity].
  destruct (skip_ws s); [reflexivity|].
  destruct (strtod _) as [[v s3]|]; [|reflexivity].
  cbn. congruence.
Qed.

Lemma fscanf_skip2_conv (s s2 t : stream) (v1 v2 : double) :
  conv strtod s = Some (v1, comma :: s2) ->
  conv strtod s2 = Some (v2, t) ->
  snd (fscanf_skip2 strtod s) = t.
Proof.
  unfold conv, fscanf_skip2.
  destruct (skip_ws s); [discriminate|]. intros ->.
  rewrite Ascii.eqb_refl.
  destruct (skip_ws s2); [discriminate|]. now intros ->.
Qed.

Lemma ends_field_fields (fs : list field) (more : stream) :
  ends_field more -> ends_field (fields_text fs ++ more).
Proof. destruct fs; [trivial | intros _; apply ends_field_comma]. Qed.

(** The year loop over good fields, from pass [i] on. *)
Lemma pop_years_run (rgn : Z) (fs : list field) :
  forall (i : Z) (s : pop_state) (more : stream),
    Forall (field_ok strtod) fs ->
    ends_field more ->
    datafile_of s = fields_text fs ++ more ->
    exists s',
      for_ctl i (i + Z.of_nat (List.length fs)) (pop_year strtod filename rgn) s
        = Continue s' /\
      datafile_of s' = more /\
      tmp_of s' = last_value fs (tmp_of s) /\
      forall y r,
        popdata_of s' y r =
        if (r =? rgn) && in_range i (i + Z.of_nat (List.length fs)) y
        then year_int fs (y - i) else popdata_of s y r.
Proof.
  induction fs as [|f fs IH]; intros i s more Hok Hmore Hs.
  - exists s. cbn [List.length Z.of_nat]. rewrite Z.add_0_r, for_ctl_nil.
    split; [reflexivity|]. split; [exact Hs|]. split; [reflexivity|].
    intros y r. replace (in_range i i y) with false by (symmetry; unfold in_range; zcases).
    now rewrite andb_false_r.
  - inversion Hok as [|f' fs' [Hnum Hint] Hok']; subst.
    destruct (int_of_round (snd f)) as [n|] eqn:Hn; [|congruence].
    rewrite for_ctl_first by (cbn [List.length]; lia).
    unfold pop_year at 1. rewrite Hs. unfold fields_text. cbn [map List.concat].
    rewrite <- !app_assoc. cbn [app].
    rewrite (fscanf_comma_lf_conv _ (fields_text fs ++ more) (snd f))
      by (apply Hnum, ends_field_fields, Hmore).
    rewrite Hn. cbn [Z.eqb negb].
    destruct (IH (i + 1)
                {| datafile_of := fields_text fs ++ more; tmp_of := snd f;
                   popdata_of := upd2 (popdata_of s) i rgn n |} more Hok' Hmore eq_refl)
      as (s' & Hrun & Hd & Htmp & Hdata).
    exists s'. cbn [List.length].
    replace (i + Z.of_nat (Datatypes.S (List.length fs)))
      with (i + 1 + Z.of_nat (List.length fs)) by lia.
    split; [exact Hrun|]. split; [exact Hd|]. split.
    + rewrite Htmp. cbn [tmp_of]. unfold last_value.
      destruct fs as [|g fs]; [reflexivity|].
      cbn [last]. clear. revert g. induction fs as [|h fs IHfs]; intros g; [reflexivity|].
      cbn [last]. apply IHfs.
    + intros y r. rewrite Hdata. cbn [popdata_of]. unfold upd2, in_range.
      destruct (Z.eqb_spec r rgn); cbn [andb]; [|now rewrite andb_false_r].
      destruct (Z.leb_spec (i + 1) y), (Z.ltb_spec y (i + 1 + Z.of_nat (List.length fs))),
        (Z.leb_spec i y), (Z.eqb_spec y i); cbn [andb]; try reflexivity; try lia.
      * unfold year_int, year_value.
        replace (Z.to_nat (y - i)) with (Datatypes.S (Z.to_nat (y - (i + 1)))) by lia.
        reflexivity.
      * subst y. unfold year_int, year_value. rewrite Z.sub_diag. cbn [Z.to_nat nth].
        now rewrite Hn.
Qed.

Lemma ends_field_trailing (tr more : stream) :
  ends_field (tr ++ [newline]) -> ends_field (tr ++ newline :: more).
Proof. destruct tr; cbn; trivial. Qed.

(** One pass of the region loop over a good line. *)
Lemma pop_rgn_line (rgn : Z) (l : pop_line) (s : pop_state) (more : stream) :
  line_ok strtod l ->
  datafile_of s = line_text l ++ more ->
  exists s',
    pop_rgn strtod filename rgn s = Continue s' /\
    datafile_of s' = more /\
    tmp_of s' = last_value (years l) (tmp_of s) /\
    forall y r,
      popdata_of s' y r =
      if (r =? rgn) && in_range 0 NYEAR y
      then year_int (years l) y else popdata_of s y r.
Proof.
  intros (([v1 H1] & [v2 H2] & Hlen & Hok & Hnl & Hend) & Htr) Hs.
  unfold fits_fgets in Htr.
  unfold pop_rgn. rewrite Hs. unfold line_text.
  repeat (rewrite <- app_assoc; cbn [app]).
  set (T := fields_text (years l) ++ trailing l ++ newline :: more).
  assert (HT : ends_field T).
  { unfold T. apply ends_field_fields, ends_field_trailing, Hend. }
  pose proof (fscanf_skip2_conv (lead1 l ++ comma :: lead2 l ++ T) (lead2 l ++ T) T v1 v2
                (H1 _ (ends_field_comma _)) (H2 _ HT)) as Hskip.
  destruct (fscanf_skip2 strtod _) as [n0 df]. cbn [snd] in Hskip. subst df.
  cbv beta iota.
  destruct (pop_years_run rgn (years l) 0
              {| datafile_of := T; tmp_of := tmp_of s; popdata_of := popdata_of s |}
              (trailing l ++ newline :: more) Hok
              (ends_field_trailing _ _ Hend) eq_refl)
    as (s' & Hrun & Hd & Htmp & Hdata).
  rewrite Hlen in Hrun, Hdata.
  change (0 + Z.of_nat 18) with NYEAR in Hrun, Hdata.
  rewrite Hrun. eexists. split; [reflexivity|]. cbn [datafile_of tmp_of popdata_of].
  split.
  - rewrite Hd. unfold fgets. apply fgets_chars_line; [exact Hnl | lia].
  - split; [exact Htmp|]. intros y r. rewrite Hdata. cbn [popdata_of].
    now rewrite Z.sub_0_r.
Qed.

(** The region loop over good lines, from pass [i] on. *)
Lemma pop_lines_run (lines : list pop_line) :
  forall (i : Z) (s : pop_state) (tail : stream),
    Forall (line_ok strtod) lines ->
    datafile_of s = List.concat (map line_text lines) ++ tail ->
    exists s',
      for_ctl i (i + Z.of_nat (List.length lines)) (pop_rgn strtod filename) s
        = Continue s' /\
      datafile_of s' = tail /\
      tmp_of s' = tmp_after lines (tmp_of s) /\
      forall y r,
        popdata_of s' y r =
        if in_range i (i + Z.of_nat (List.length lines)) r && in_range 0 NYEAR y
        then year_int (years_of lines (r - i)) y else popdata_of s y r.
Proof.
  induction lines as [|l lines IH]; intros i s tail Hok Hs.
  - exists s. cbn [List.length Z.of_nat]. rewrite Z.add_0_r, for_ctl_nil.
    split; [reflexivity|]. split; [exact Hs|]. split; [reflexivity|].
    intros y r. now replace (in_range i i r) with false
      by (symmetry; unfold in_range; zcases).
  - inversion Hok as [|l' lines' Hl Hok']; subst.
    rewrite for_ctl_first by (cbn [List.length]; lia).
    cbn [map List.concat] in Hs. rewrite <- app_assoc in Hs.
    destruct (pop_rgn_line i l s _ Hl Hs) as (s1 & Hrun1 & Hd1 & Htmp1 & Hdata1).
    rewrite Hrun1.
    destruct (IH (i + 1) s1 tail Hok' Hd1) as (s' & Hrun & Hd & Htmp & Hdata).
    exists s'. cbn [List.length].
    replace (i + Z.of_nat (Datatypes.S (List.length lines)))
      with (i + 1 + Z.of_nat (List.length lines)) by lia.
    split; [exact Hrun|]. split; [exact Hd|]. split.
    + rewrite Htmp, Htmp1. reflexivity.
    + intros y r. rewrite Hdata, Hdata1. unfold in_range.
      destruct ((0 <=? y) && (y <? NYEAR)); rewrite ?andb_false_r; [|reflexivity].
      rewrite !andb_true_r.
      destruct (Z.leb_spec (i + 1) r), (Z.ltb_spec r (i + 1 + Z.of_nat (List.length lines))),
        (Z.leb_spec i r), (Z.eqb_spec r i); cbn [andb]; try reflexivity; try lia.
      * unfold years_of.
        replace (Z.to_nat (r - i)) with (Datatypes.S (Z.to_nat (r - (i + 1)))) by lia.
        reflexivity.
      * subst r. unfold years_of. rewrite Z.sub_diag. reflexivity.
Qed.

(** The reader on a file whose first 63 lines are good. *)
Lemma read_pop_data_run (fs : txt_fs) (tmp : double) (data : itable)
    (lines : list pop_line) (tail : stream) :
  fs filename = Some (List.concat (map line_text lines) ++ tail) ->
  List.length lines = 63%nat ->
  Forall (line_ok strtod) lines ->
  exists res,
    read_pop_data strtod fs tmp filename data = Some res /\
    stat res = 0 /\ errs res = [] /\
    forall y r,
      out res y r =
      if in_range 0 NRGN r && in_range 0 NYEAR y
      then year_int (years_of lines r) y else data y r.
Proof.
  intros Hfs Hlen Hok. unfold read_pop_data. rewrite Hfs.
  destruct (pop_lines_run lines 0
              {| datafile_of := List.concat (map line_text lines) ++ tail;
                 tmp_of := tmp; popdata_of := data |} tail Hok eq_refl)
    as (s' & Hrun & _ & _ & Hdata).
  rewrite Hlen in Hrun, Hdata. change (0 + Z.of_nat 63) with NRGN in Hrun, Hdata.
  rewrite Hrun. eexists. split; [reflexivity|]. cbn [ret stat errs out].
  split; [reflexivity|]. split; [reflexivity|].
  intros y r. rewrite Hdata. cbn [popdata_of]. now rewrite Z.sub_0_r.
Qed.

(** The reader on a file with [r] good lines and then a line that
    breaks off after [y] year fields. *)
Lemma read_pop_data_breaks (fs : txt_fs) (tmp : double) (data : itable)
    (good : list pop_line) (l1 l2 : stream) (flds : list field) (bad : stream)
    (v1 v2 : double) (g : Z) :
  fs filename =
    Some (List.concat (map line_text good) ++
          l1 ++ comma :: l2 ++ fields_text flds ++ bad) ->
  Forall (line_ok strtod) good ->
  numeral strtod l1 v1 -> numeral strtod l2 v2 ->
  Forall (field_ok strtod) flds ->
  ends_field bad -> field_missing strtod bad ->
  (List.length good < 63)%nat -> (List.length flds < 18)%nat ->
  int_of_round (last_value flds (tmp_after good tmp)) = Some g ->
  let r := Z.of_nat (List.length good) in
  let y := Z.of_nat (List.length flds) in
  exists res,
    read_pop_data strtod fs tmp filename data = Some res /\
    stat res = 1 /\ errs res = [Error_reading_data_rgn filename r y] /\
    forall y' r',
      out res y' r' =
      if in_range 0 r r' && in_range 0 NYEAR y' then year_int (years_of good r') y'
      else if (r' =? r) && in_range 0 y y' then year_int flds y'
      else if (r' =? r) && (y' =? y) then g
      else data y' r'.
Proof.
  intros Hfs Hgood H1 H2 Hflds Hbad Hmiss Hr Hy Hg r y.
  unfold read_pop_data. rewrite Hfs.
  destruct (pop_lines_run good 0
              {| datafile_of := List.concat (map line_text good) ++
                                l1 ++ comma :: l2 ++ fields_text flds ++ bad;
                 tmp_of := tmp; popdata_of := data |} _ Hgood eq_refl)
    as (s1 & Hrun1 & Hd1 & Htmp1 & Hdata1).
  cbn [tmp_of popdata_of] in Htmp1, Hdata1. fold r in Hrun1, Hdata1.
  rewrite Z.add_0_l in Hrun1, Hdata1.
  (* the pass over the line that breaks off *)
  set (T := fields_text flds ++ bad).
  assert (HT : ends_field T) by (apply ends_field_fields, Hbad).
  pose proof (fscanf_skip2_conv (l1 ++ comma :: l2 ++ T) (l2 ++ T) T v1 v2
                (H1 _ (ends_field_comma _)) (H2 _ HT)) as Hskip.
  destruct (pop_years_run r flds 0
              {| datafile_of := T; tmp_of := tmp_of s1; popdata_of := popdata_of s1 |}
              bad Hflds Hbad eq_refl)
    as (s2 & Hrun2 & Hd2 & Htmp2 & Hdata2).
  cbn [tmp_of popdata_of] in Htmp2, Hdata2. fold y in Hrun2, Hdata2.
  rewrite Z.add_0_l in Hrun2, Hdata2.
  subst T.
  pose proof (Hmiss (tmp_of s2)) as Hn.
  pose proof (fscanf_comma_lf_keeps bad (tmp_of s2) Hn) as Hkeep.
  assert (Hret : pop_year strtod filename r y s2 =
                 Return (ret 1 [Error_reading_data_rgn filename r y]
                           (upd2 (popdata_of s2) y r g))).
  { unfold pop_year. rewrite Hd2.
    destruct (fscanf_comma_lf strtod bad (tmp_of s2)) as [[nconv tmp'] df].
    cbn [fst snd] in Hn, Hkeep. subst tmp'.
    rewrite Htmp2, Htmp1, Hg.
    replace (nconv =? 1) with false by (symmetry; zcases). reflexivity. }
  assert (Hrgn : pop_rgn strtod filename r s1 =
                 Return (ret 1 [Error_reading_data_rgn filename r y]
                           (upd2 (popdata_of s2) y r g))).
  { unfold pop_rgn. rewrite Hd1.
    destruct (fscanf_skip2 strtod _) as [n0 df]. cbn [snd] in Hskip. subst df.
    cbv beta iota.
    rewrite (for_ctl_return 0 y NYEAR _ _ s2 _ ltac:(unfold y, NYEAR; lia) Hrun2 Hret).
    reflexivity. }
  rewrite (for_ctl_return 0 r NRGN _ _ s1 _ ltac:(unfold r, NRGN; lia) Hrun1 Hrgn).
  eexists. split; [reflexivity|]. cbn [ret stat errs out].
  split; [reflexivity|]. split; [reflexivity|].
  intros y' r'. unfold upd2. rewrite Hdata2, Hdata1.
  rewrite !Z.sub_0_r. unfold in_range.
  destruct (Z.eqb_spec r' r), (Z.eqb_spec y' y), (Z.leb_spec 0 r'), (Z.ltb_spec r' r),
    (Z.leb_spec 0 y'), (Z.ltb_spec y' y), (Z.ltb_spec y' NYEAR);
    cbn [andb]; try reflexivity; try (unfold NYEAR, r, y in *; lia).
Qed.

End PopProofs.

Lemma year_int_defined (strtod : stream -> option (double * stream))
    (lines : list pop_line) (r y : Z) :
  Forall (line_wf strtod) lines ->
  0 <= r < Z.of_nat (List.length lines) -> 0 <= y < 18 ->
  int_of_round (year_value (years_of lines r) y)
  = Some (year_int (years_of lines r) y).
Proof.
  intros Hok Hr Hy.
  assert (Hl : line_wf strtod (nth (Z.to_nat r) lines no_line))
    by (apply Forall_nth; [exact Hok | lia]).
  destruct Hl as (_ & _ & Hlen & Hf & _).
  assert (Hfy : field_ok strtod (nth (Z.to_nat y) (years_of lines r) ([], S754_nan))).
  { apply Forall_nth; [exact Hf | unfold years_of; rewrite Hlen; lia]. }
  destruct Hfy as [_ Hint]. unfold year_int, year_value in *.
  destruct (int_of_round _); [reflexivity | congruence].
Qed.

Lemma Forall_line_wf (strtod : stream -> option (double * stream))
    (lines : list pop_line) :
  Forall (line_ok strtod) lines -> Forall (line_wf strtod) lines.
Proof. apply Forall_impl. now intros l [H _]. Qed.

(** C9. When the conversion of year field [y] of line [r] fails,
    [read_pop_data] returns 1 with the diagnostic that names [r] and
    [y], and the table it leaves is not the one it was given: the cells
    of the regions before [r] and of the years before [y] of region [r]
    hold their rounded fields, and cell [y][r] holds the rounding [g] of
    what the temporary still held, the value of the field converted last
    (or its content on entry), assigned before the count of conversions
    is tested. Every other cell is as before. *)
Theorem C9_read_pop_data_partial_write
    (strtod : stream -> option (double * stream)) (fs : txt_fs) (tmp : double)
    (filename : string) (data : itable)
    (good : list pop_line) (l1 l2 : stream) (flds : list field) (bad : stream)
    (v1 v2 : double) (g : Z) :
  fs filename =
    Some (List.concat (map line_text good) ++
          l1 ++ comma :: l2 ++ fields_text flds ++ bad) ->
  Forall (line_ok strtod) good ->
  numeral strtod l1 v1 -> numeral strtod l2 v2 ->
  Forall (field_ok strtod) flds ->
  ends_field bad -> field_missing strtod bad ->
  (List.length good < 63)%nat -> (List.length flds < 18)%nat ->
  int_of_round (last_value flds (tmp_after good tmp)) = Some g ->
  exists res,
    read_pop_data strtod fs tmp filename data = Some res /\
    stat res = 1 /\
    errs res = [Error_reading_data_rgn filename (Z.of_nat (List.length good))
                  (Z.of_nat (List.length flds))] /\
    forall y' r',
      out res y' r' =
      if in_range 0 (Z.of_nat (List.length good)) r' && in_range 0 NYEAR y'
      then year_int (years_of good r') y'
      else if (r' =? Z.of_nat (List.length good)) &&
              in_range 0 (Z.of_nat (List.length flds)) y'
      then year_int flds y'
      else if (r' =? Z.of_nat (List.length good)) &&
              (y' =? Z.of_nat (List.length flds))
      then g
      else data y' r'.
Proof.
  intros Hfs Hgood H1 H2 Hflds Hbad Hmiss Hr Hy Hg.
  exact (read_pop_data_breaks strtod filename fs tmp data good l1 l2 flds bad v1 v2 g
           Hfs Hgood H1 H2 Hflds Hbad Hmiss Hr Hy Hg).
Qed.

(** ** The examples *)

(** A text is a numeral of the example conversion: it is tried before
    the end of input, a comma, and each white-space character. *)
Ltac prove_numeral :=
  let t := fresh "t" in
  let Ht := fresh "Ht" in
  let c := fresh "c" in
  intros t Ht; destruct t as [|c t];
  [ vm_compute; reflexivity
  | destruct Ht as [->|Ht];
    [ vm_compute; reflexivity
    | destruct c as [[] [] [] [] [] [] [] []]; vm_compute in Ht;
      try discriminate Ht; vm_compute; reflexivity ] ].

Lemma numeral_1 : numeral strtod_dec (text "1") (c_double 1).
Proof. prove_numeral. Qed.

Lemma numeral_2 : numeral strtod_dec (text "2") (c_double 2).
Proof. prove_numeral. Qed.

Lemma numeral_2005 : numeral strtod_dec (text "2005") (c_double 2005).
Proof. prove_numeral. Qed.

Lemma field_ok_up : field_ok strtod_dec f_up.
Proof. split; [prove_numeral | vm_compute; discriminate]. Qed.

Lemma field_ok_down : field_ok strtod_dec f_down.
Proof. split; [prove_numeral | vm_compute; discriminate]. Qed.

Lemma field_ok_plain : field_ok strtod_dec f_plain.
Proof. split; [prove_numeral | vm_compute; discriminate]. Qed.

Lemma field_ok_ten : field_ok strtod_dec f_ten.
Proof. split; [prove_numeral | vm_compute; discriminate]. Qed.

Lemma field_ok_twenty : field_ok strtod_dec f_twenty.
Proof. split; [prove_numeral | vm_compute; discriminate]. Qed.

Lemma no_newline_forallb (s : stream) :
  forallb (fun c => negb (Ascii.eqb c newline)) s = true -> ~ In newline s.
Proof.
  intros H Hin. rewrite forallb_forall in H. specialize (H _ Hin).
  now rewrite Ascii.eqb_refl in H.
Qed.

Lemma Forall_repeat {A : Type} (P : A -> Prop) (a : A) (n : nat) :
  P a -> Forall P (repeat a n).
Proof. intros H. induction n; cbn; constructor; assumption. Qed.

Lemma sample_line_ok : line_ok strtod_dec sample_line.
Proof.
  split; [|unfold fits_fgets; cbn; lia].
  split; [exists (c_double 1); exact numeral_1|].
  split; [exists (c_double 2005); exact numeral_2005|].
  split; [reflexivity|].
  split.
  { repeat (apply Forall_cons;
            [first [exact field_ok_up | exact field_ok_down | exact field_ok_plain]|]).
    apply Forall_nil. }
  split; [apply no_newline_forallb; reflexivity | now left].
Qed.

Lemma long_line_wf : line_wf strtod_dec long_line.
Proof.
  split; [exists (c_double 1); exact numeral_1|].
  split; [exists (c_double 2); exact numeral_2|].
  split; [reflexivity|].
  split; [apply Forall_repeat, field_ok_ten|].
  split; [apply no_newline_forallb; vm_compute; reflexivity | now left].
Qed.

Lemma short_line_wf : line_wf strtod_dec short_line.
Proof.
  split; [exists (c_double 1); exact numeral_1|].
  split; [exists (c_double 2); exact numeral_2|].
  split; [reflexivity|].
  split; [apply Forall_repeat, field_ok_twenty|].
  split; [intros [] | now right].
Qed.

(** C6. The reader at a line whose remainder is longer than the buffer
    of [fgets]. All 63 lines of [long_pop] have their two leading numbers
    and 18 year fields, the first line 600 fields (1200 characters) more.
    The source says of its call of [fgets] that it drops the remainder of
    the line; [fgets(buf, 1024, datafile)] takes 1023 characters of it.
    The reader returns 0 without a diagnostic, and what it stores for
    region 1 is not the fields of line 2 (every one of them 20) but fields
    of the remainder of line 1 (every one of them 9). *)
Lemma C6_long_remainder_read_as_next_line :
  Forall (line_wf strtod_dec) long_lines /\
  List.length long_lines = 63%nat /\
  List.length (trailing long_line) = 1200%nat /\
  map (year_int (years_of long_lines 1)) (zrange 0 18) = repeat 20 18 /\
  option_map (fun res => (stat res, errs res, map (fun y => out res y 0) (zrange 0 18),
                          map (fun y => out res y 1) (zrange 0 18)))
    (read_pop_data strtod_dec (one_text "pop.csv" long_pop) S754_nan "pop.csv" zero_table)
  = Some (0, [], repeat 10 18, repeat 9 18).
Proof.
  split; [|split; [reflexivity | split; [vm_compute; reflexivity|]]].
  - constructor; [exact long_line_wf | apply Forall_repeat, short_line_wf].
  - split; vm_compute; reflexivity.
Qed.

Lemma C9_read_pop_data_partial_write_witness :
  exists res,
    read_pop_data strtod_dec (one_text "pop.csv" broken_pop) S754_nan "pop.csv" zero_table
      = Some res /\
    stat res = 1 /\
    errs res = [Error_reading_data_rgn "pop.csv"
                  (Z.of_nat (List.length (repeat sample_line 5)))
                  (Z.of_nat (List.length [f_up; f_down]))] /\
    forall y' r',
      out res y' r' =
      if in_range 0 (Z.of_nat (List.length (repeat sample_line 5))) r' &&
         in_range 0 NYEAR y'
      then year_int (years_of (repeat sample_line 5) r') y'
      else if (r' =? Z.of_nat (List.length (repeat sample_line 5))) &&
              in_range 0 (Z.of_nat (List.length [f_up; f_down])) y'
      then year_int [f_up; f_down] y'
      else if (r' =? Z.of_nat (List.length (repeat sample_line 5))) &&
              (y' =? Z.of_nat (List.length [f_up; f_down]))
      then (-3)
      else zero_table y' r'.
Proof.
  apply (C9_read_pop_data_partial_write strtod_dec (one_text "pop.csv" broken_pop)
           S754_nan "pop.csv" zero_table (repeat sample_line 5)
           (text "1") (text "2005") [f_up; f_down] (newline :: text "1,2005,2.5")
           (c_double 1) (c_double 2005) (-3)).
  - reflexivity.
  - apply Forall_repeat, sample_line_ok.
  - exact numeral_1.
  - exact numeral_2005.
  - apply Forall_cons; [exact field_ok_up|].
    apply Forall_cons; [exact field_ok_down | apply Forall_nil].
  - right. reflexivity.
  - intros tmp H. vm_compute in H. discriminate H.
  - cbn. lia.
  - cbn. lia.
  - vm_compute. reflexivity.
Defined.

(** ** The archive writer *)


Lemma run_steps_end (lib : nc_library) (steps : list nc_step) :
  forall made,
    let '(e, d, _) := run_steps lib made steps in
    (e = Returns 0 /\ d = []) \/
    (exists st, st <> 0 /\ e = Exits 1 /\ d = [Nc_error st]).
Proof.
  induction steps as [|[c|c] steps IH]; intros made; cbn [run_steps].
  - now left.
  - unfold check_err. destruct (Z.eqb_spec (lib made c) NC_NOERR) as [E|E]; cbn [negb].
    + apply IH.
    + right. exists (lib made c). now repeat split.
  - apply IH.
Qed.

Lemma lat_values :
  map (fun i => value_of (lat_data i)) (zrange 0 360) =
  map (fun i => Some (Qred (-89.75 + inject_Z i * 0.5))) (zrange 0 360).
Proof. vm_compute. reflexivity. Qed.

Lemma lon_values :
  map (fun i => value_of (lon_data i)) (zrange 0 720) =
  map (fun i => Some (Qred (-179.75 + inject_Z i * 0.5))) (zrange 0 720).
Proof. vm_compute. reflexivity. Qed.

Lemma time_values :
  map (fun i => value_of (time_data i)) (zrange 0 18) =
  map (fun i => Some (Qred (2010 + inject_Z i * 5))) (zrange 0 18).
Proof. vm_compute. reflexivity. Qed.

Lemma rgn_values (garbage : iarray) :
  map (rgn_data garbage) (zrange 0 63) = zrange 0 63.
Proof. vm_compute. reflexivity. Qed.

Lemma basin_values (garbage : iarray) :
  map (basin_data garbage) (zrange 0 235) = zrange 1 235.
Proof. vm_compute. reflexivity. Qed.

(** ** How the readers end *)

Lemma read_5yr_data_ends (fs : bin_fs) (readdata : farray) (filename : string)
    (data : grid) (nskipyr : Z) (r : result grid) :
  read_5yr_data fs readdata filename data nskipyr = Some r -> reader_ends r.
Proof.
  unfold read_5yr_data, bind.
  destruct (is_no_data filename); [intros [= <-]; now left|].
  destruct (fopen fs filename); [|intros [= <-]; right; eexists; now repeat split].
  destruct (int_mul nskipyr NLAT); [|discriminate].
  destruct (int_mul _ NLON); [|discriminate].
  destruct (fread _ _ _ _) as [[[rd n] f1]|]; [|discriminate].
  destruct (fread _ _ _ _) as [[[rd' n'] f2]|]; [|discriminate].
  destruct (negb _); intros [= <-]; [right; eexists; now repeat split | now left].
Qed.

Lemma read_table_data_ends (fs : bin_fs) (tempdata : farray) (filename : string)
    (nrow : Z) (data : farray) (r : result farray) :
  read_table_data fs tempdata filename nrow data = Some r -> reader_ends r.
Proof.
  unfold read_table_data, bind.
  destruct (fopen fs filename); [|intros [= <-]; right; eexists; now repeat split].
  destruct (fread _ _ _ _) as [[[rd n] f1]|]; [|discriminate].
  destruct (int_mul NYEAR nrow); [|discriminate].
  destruct (fread _ _ _ _) as [[[rd' n'] f2]|]; [|discriminate].
  destruct (negb _); intros [= <-]; [right; eexists; now repeat split | now left].
Qed.

Lemma read_pop_data_ends (strtod : stream -> option (double * stream)) (fs : txt_fs)
    (tmp : double) (filename : string) (data : itable) (r : result itable) :
  read_pop_data strtod fs tmp filename data = Some r -> reader_ends r.
Proof.
  unfold read_pop_data.
  destruct (fs filename); [|intros [= <-]; right; eexists; now repeat split].
  match goal with |- context [for_ctl ?lo ?hi ?body ?s] =>
    pose proof (for_ctl_holds (fun _ => True)
                  (fun r : result itable =>
                     exists d, stat r = 1 /\ errs r = [d] /\ status_of d = 1)
                  lo hi body s I) as H end.
  destruct (for_ctl _ _ _ _) as [s'|r'|]; [intros [= <-]; now left | | discriminate].
  intros [= <-]. right. apply H. clear H.
  intros rgn t _ _. unfold pop_rgn.
  destruct (fscanf_skip2 strtod _) as [n0 df].
  match goal with |- context [for_ctl ?lo ?hi ?body ?s] =>
    pose proof (for_ctl_holds (fun _ => True)
                  (fun r : result itable =>
                     exists d, stat r = 1 /\ errs r = [d] /\ status_of d = 1)
                  lo hi body s I) as H end.
  destruct (for_ctl _ _ _ _) as [s2|r2|]; cbn [ctl_holds]; trivial.
  apply H. clear H.
  intros iyear t' _ _. unfold pop_year.
  destruct (fscanf_comma_lf strtod _ _) as [[nconv tmp'] df'].
  destruct (int_of_round tmp'); cbn [ctl_holds]; trivial.
  destruct (negb _); cbn [ctl_holds]; trivial.
  eexists. now repeat split.
Qed.

Lemma read_and_aggregate_data_quiet (fs : bin_fs) (readdata transdata : farray)
    (filename : string) (data : grid) (r : result grid) :
  read_and_aggregate_data fs readdata transdata filename data = Some r ->
  Forall quiet (errs r).
Proof.
  unfold read_and_aggregate_data.
  destruct (is_no_data filename); [intros [= <-]; constructor|].
  destruct (fopen fs filename);
    [|intros [= <-]; repeat constructor].
  match goal with |- context [for_ctl ?lo ?hi ?body ?s] =>
    pose proof (for_ctl_holds (fun _ => True)
                  (fun r : result grid => Forall quiet (errs r))
                  lo hi body s I) as H end.
  destruct (for_ctl _ _ _ _) as [s'|r'|]; [intros [= <-]; constructor | | discriminate].
  intros [= <-]. apply H. clear H.
  intros year t _ _. unfold agg_year.
  destruct (fread _ _ _ _) as [[[rd n] f']|]; cbn [ctl_holds]; trivial.
  destruct (negb _); cbn [ctl_holds]; [repeat constructor|].
  destruct (_ || _); cbn [ctl_holds]; trivial.
Qed.

(** ** How the program ends *)

Lemma cbind_holds {S S' R : Type} (I : S -> Prop) (I' : S' -> Prop) (Q : R -> Prop)
    (m : ctl S R) (k : S -> ctl S' R) :
  ctl_holds I Q m ->
  (forall s, I s -> ctl_holds I' Q (k s)) ->
  ctl_holds I' Q (cbind m k).
Proof. destruct m; cbn; auto. Qed.

Lemma defined_holds {A S R : Type} (I : S -> Prop) (Q : R -> Prop)
    (m : option A) (k : A -> ctl S R) :
  (forall a, m = Some a -> ctl_holds I Q (k a)) ->
  ctl_holds I Q (defined m k).
Proof. destruct m; cbn; auto. Qed.

Lemma reader_step {A : Type} (s' : main_state) (pre : list diag) (r : result A) :
  log s' = pre ++ errs r ->
  Forall quiet pre ->
  reader_ends r ->
  ctl_holds log_quiet ends_well
    (if negb (stat r =? 0) then Return (leave s' (stat r)) else Continue s').
Proof.
  intros Hlog Hpre [[Hst He]|(d & Hst & He & Hd)]; rewrite Hst; cbn [Z.eqb negb ctl_holds].
  - unfold log_quiet. rewrite Hlog, He, app_nil_r. exact Hpre.
  - right. exists pre, d. unfold leave. cbn [stderr exit_status].
    rewrite Hlog, He, Hd. repeat split; [exact Hpre | lia].
Qed.

Section MainProofs.

Variable strtod : stream -> option (double * stream).
Variable w : world.

Lemma next_file_name_holds (s : main_state) :
  log_quiet s -> ctl_holds log_quiet ends_well (next_file_name s).
Proof.
  intros Hs. unfold next_file_name. apply defined_holds.
  intros [[[st fn] c] e]. unfold read_file_name.
  destruct (fscanf_s (cfg s)) as [[nr word] cfg'].
  destruct (nr =? 1).
  - destruct (_ <? MAXLEN); [|discriminate]. intros [= <- <- <- <-].
    cbn [Z.eqb negb ctl_holds]. unfold log_quiet, set_name. cbn [log].
    now rewrite app_nil_r.
  - intros [= <- <- <- <-]. cbn [Z.eqb negb ctl_holds].
    right. exists (log s), Error_reading_config. unfold leave, set_name.
    cbn [stderr exit_status log status_of]. repeat split; [exact Hs | lia].
Qed.

Lemma main_grid_holds (i : Z) (s : main_state) :
  log_quiet s -> ctl_holds log_quiet ends_well (main_grid w i s).
Proof.
  intros Hs. unfold main_grid.
  apply (cbind_holds log_quiet); [now apply next_file_name_holds|].
  clear s Hs. intros s Hs.
  assert (Hs' : log_quiet (if i =? G_WSI then set_nskipyr s 1 else s))
    by (destruct (i =? G_WSI); exact Hs).
  revert Hs'. generalize (if i =? G_WSI then set_nskipyr s 1 else s).
  clear s Hs. intros s Hs.
  apply defined_holds. intros r Hr.
  apply (reader_step _ (log s)); [reflexivity | exact Hs |].
  eapply read_5yr_data_ends, Hr.
Qed.

Lemma main_basin_holds (i : Z) (s : main_state) :
  log_quiet s -> ctl_holds log_quiet ends_well (main_basin w i s).
Proof.
  intros Hs. unfold main_basin.
  apply (cbind_holds log_quiet); [now apply next_file_name_holds|].
  clear s Hs. intros s Hs.
  apply defined_holds. intros r Hr.
  apply (reader_step _ (log s)); [reflexivity | exact Hs |].
  eapply read_table_data_ends, Hr.
Qed.

Lemma main_region_holds (i : Z) (s : main_state) :
  log_quiet s -> ctl_holds log_quiet ends_well (main_region w i s).
Proof.
  intros Hs. unfold main_region.
  apply (cbind_holds log_quiet); [now apply next_file_name_holds|].
  clear s Hs. intros s Hs.
  apply defined_holds. intros r Hr.
  apply (reader_step _ (log s)); [reflexivity | exact Hs |].
  eapply read_table_data_ends, Hr.
Qed.

Lemma main_files_holds (md : metadata) (s : main_state) :
  log_quiet s -> ctl_holds log_quiet ends_well (main_files strtod w md s).
Proof.
  intros Hs. unfold main_files.
  apply (cbind_holds log_quiet); [now apply next_file_name_holds|].
  clear s Hs. intros s0 Hs0. cbv zeta.
  apply (cbind_holds log_quiet); [now apply next_file_name_holds|].
  intros s Hs.
  apply (cbind_holds log_quiet).
  { apply defined_holds. intros r Hr. cbn [ctl_holds].
    unfold log_quiet, set_data. cbn [log]. apply Forall_app. split; [exact Hs|].
    eapply read_and_aggregate_data_quiet, Hr. }
  clear s Hs. intros s Hs.
  apply (cbind_holds log_quiet).
  { apply for_ctl_holds; [exact Hs|]. intros j t _. apply main_grid_holds. }
  clear s Hs. intros s Hs.
  apply (cbind_holds log_quiet); [now apply next_file_name_holds|].
  clear s Hs. intros s Hs.
  apply (cbind_holds log_quiet).
  { apply defined_holds. intros r Hr.
    apply (reader_step _ (log s)); [reflexivity | exact Hs |].
    eapply read_pop_data_ends, Hr. }
  clear s Hs. intros s Hs.
  apply (cbind_holds log_quiet).
  { apply for_ctl_holds; [exact Hs|]. intros j t _. apply main_basin_holds. }
  clear s Hs. intros s Hs.
  apply (cbind_holds log_quiet).
  { apply for_ctl_holds; [exact Hs|]. intros j t _. apply main_region_holds. }
  clear s Hs. intros s Hs.
  unfold mat2nc.
  match goal with |- context [run_steps ?lib ?made ?steps] =>
    pose proof (run_steps_end lib steps made) as H;
    destruct (run_steps lib made steps) as [[e d] calls] end.
  cbn [ctl_holds].
  destruct H as [[-> ->]|(st & Hst & -> & ->)].
  - left. cbn [exit_status stderr]. split; [reflexivity|].
    rewrite app_nil_r. exact Hs.
  - right. exists (log s), (Nc_error st). cbn [exit_status stderr status_of].
    repeat split; [exact Hs | lia].
Qed.

Lemma main_ends_well (argc : Z) (argv : list string) (r : run) :
  main strtod w argc argv = Some r -> ends_well r.
Proof.
  unfold main.
  assert (Hstart : forall infile e,
    Forall quiet e ->
    (let '(n1, forcing, infile) := fscanf_f strtod infile (global_forcing (md0 w)) in
     let '(n2, gpop, infile) := fscanf_f strtod infile (global_pop (md0 w)) in
     let '(n3, pcgdp, infile) := fscanf_f strtod infile (global_pcgdp (md0 w)) in
     let nread := n1 + n2 + n3 in
     if negb (nread =? 3) then
       Some {| exit_status := 3; stderr := e ++ [Failed_to_read_global_attributes];
               archive := [] |}
     else
       match main_files strtod w
               {| global_forcing := forcing; global_pop := gpop; global_pcgdp := pcgdp |}
               {| cfg := infile; log := e; filename := filename0 w; nskipyr := 0;
                  data := (fun _ => static_grid); popdata := popdata0 w;
                  bdata := (fun _ => static_floats);
                  rdata := (fun _ => static_floats) |} with
       | Return r => Some r
       | Continue _ | Undefined => None
       end) = Some r -> ends_well r).
  { intros infile e He.
    destruct (fscanf_f strtod infile _) as [[n1 forcing] in1].
    destruct (fscanf_f strtod in1 _) as [[n2 gpop] in2].
    destruct (fscanf_f strtod in2 _) as [[n3 pcgdp] in3].
    cbv zeta. destruct (negb _).
    - intros [= <-]. right. exists e, Failed_to_read_global_attributes.
      cbn [exit_status stderr status_of]. repeat split; [exact He | lia].
    - match goal with |- context [main_files strtod w ?md ?s] =>
        pose proof (main_files_holds md s He) as H;
        destruct (main_files strtod w md s) end; try discriminate.
      intros [= <-]. exact H. }
  destruct (argc =? 2).
  - destruct (is_dash _).
    + apply Hstart. repeat constructor.
    + destruct (text_files w _).
      * apply Hstart. repeat constructor.
      * intros [= <-]. right. exists [], (Unable_to_open_config (nth 1 argv ""%string)).
        cbn [exit_status stderr status_of app]. repeat split; [constructor | lia].
  - intros [= <-]. right. exists [], (Usage (nth 0 argv ""%string)).
    cbn [exit_status stderr status_of app]. repeat split; [constructor | lia].
Qed.

End MainProofs.

Lemma quiet_note (d : diag) : quiet d -> monthly_failure d = false -> note d = true.
Proof. destruct d; cbn; intros; try reflexivity; try discriminate; try lia. Qed.

Lemma Forall_quiet_note (l : list diag) :
  Forall quiet l ->
  forallb (fun d => negb (monthly_failure d)) l = true ->
  forallb note l = true.
Proof.
  induction 1 as [|d l Hd Hl IH]; [reflexivity|]. cbn [forallb].
  intros H. apply andb_prop in H as [H1 H2].
  rewrite (quiet_note d Hd) by (now destruct (monthly_failure d)).
  now apply IH.
Qed.


(** A run in which everything is there: status 0, nothing but the note
    on the error stream, and all 98 calls into the library made. *)
Example run_good :
  option_map (fun r => (exit_status r, stderr r, List.length (archive r)))
    (main strtod_dec world_good 2 argv_stdin)
  = Some (0, [Reading_config_from_stdin], 98%nat).
Proof. vm_compute. reflexivity. Qed.

(** ** The sentinel and the table readers *)

(** C2, as the code has it. The sentinel is known to the two grid
    readers only: given ["no-data"] they return 0 without a diagnostic
    and with the not-a-number marker in every cell of the 18 x 360 x 720
    grid (and nothing else touched), whatever files there are: they do
    not look for one. The table reader and the population reader take
    the same token for a file name, and when no file of that name can be
    opened they return 1 with the diagnostic of a failed open and leave
    their table as it was. *)
Theorem C2_sentinel_only_in_grid_readers
    (strtod : stream -> option (double * stream)) (gfs fs : bin_fs) (tfs : txt_fs)
    (readdata transdata tempdata : farray) (tmp : double)
    (data : grid) (tdata : farray) (pdata : itable) (nskipyr nrow : Z) :
  fs "no-data"%string = None ->
  tfs "no-data"%string = None ->
  (exists r, read_and_aggregate_data gfs readdata transdata "no-data" data = Some r /\
             stat r = 0 /\ errs r = [] /\
             forall i j k,
               out r i j k = if in_grid i j k then F32.NAN else data i j k) /\
  (exists r, read_5yr_data gfs readdata "no-data" data nskipyr = Some r /\
             stat r = 0 /\ errs r = [] /\
             forall i j k,
               out r i j k = if in_grid i j k then F32.NAN else data i j k) /\
  (exists r, read_table_data fs tempdata "no-data" nrow tdata = Some r /\
             stat r = 1 /\ errs r = [Unable_to_open_file_for_input "no-data"] /\
             out r = tdata) /\
  (exists r, read_pop_data strtod tfs tmp "no-data" pdata = Some r /\
             stat r = 1 /\ errs r = [Unable_to_open_file_for_input "no-data"] /\
             out r = pdata).
Proof.
  intros Hfs Htfs. split; [|split; [|split]].
  - eexists. split; [apply read_and_aggregate_data_no_data|].
    cbn [ret stat errs out]. split; [reflexivity|]. split; [reflexivity|].
    intros i j k. apply fill_nan_spec.
  - eexists. split; [apply read_5yr_data_no_data|].
    cbn [ret stat errs out]. split; [reflexivity|]. split; [reflexivity|].
    intros i j k. apply fill_nan_spec.
  - eexists. unfold read_table_data, fopen. rewrite Hfs.
    split; [reflexivity|]. split; [reflexivity|]. split; reflexivity.
  - eexists. unfold read_pop_data. rewrite Htfs.
    split; [reflexivity|]. split; [reflexivity|]. split; reflexivity.
Qed.

Lemma C2_sentinel_only_in_grid_readers_witness :
  (exists r, read_and_aggregate_data (one_file "no-data" unit_flow) static_floats
               static_floats "no-data" static_grid = Some r /\
             stat r = 0 /\ errs r = [] /\
             forall i j k,
               out r i j k = if in_grid i j k then F32.NAN else static_grid i j k) /\
  (exists r, read_5yr_data (one_file "no-data" unit_flow) static_floats "no-data"
               static_grid 2 = Some r /\
             stat r = 0 /\ errs r = [] /\
             forall i j k,
               out r i j k = if in_grid i j k then F32.NAN else static_grid i j k) /\
  (exists r, read_table_data no_files static_floats "no-data" 235 static_floats = Some r /\
             stat r = 1 /\ errs r = [Unable_to_open_file_for_input "no-data"] /\
             out r = static_floats) /\
  (exists r, read_pop_data strtod_dec no_texts (S754_zero false) "no-data" zero_table
               = Some r /\
             stat r = 1 /\ errs r = [Unable_to_open_file_for_input "no-data"] /\
             out r = zero_table).
Proof.
  apply (C2_sentinel_only_in_grid_readers strtod_dec (one_file "no-data" unit_flow)
           no_files no_texts
           static_floats static_floats static_floats (S754_zero false)
           static_grid static_floats zero_table 2 235).
  - reflexivity.
  - reflexivity.
Defined.

(** C2, as the sentence has it, fails for the table paths and the
    population path: where no file is called "no-data", the table reader
    (for basins and for regions) and the population reader answer the
    sentinel with status 1 and the diagnostic of a failed open, and a run
    whose configuration gives the sentinel for the population table ends
    there with status 1. *)
Lemma C2_table_sentinel_counterexample :
  option_map (fun r => (stat r, errs r))
    (read_table_data no_files static_floats "no-data" NBASIN static_floats)
  = Some (1, [Unable_to_open_file_for_input "no-data"]) /\
  option_map (fun r => (stat r, errs r))
    (read_table_data no_files static_floats "no-data" NRGN static_floats)
  = Some (1, [Unable_to_open_file_for_input "no-data"]) /\
  option_map (fun r => (stat r, errs r))
    (read_pop_data strtod_dec no_texts (S754_zero false) "no-data" zero_table)
  = Some (1, [Unable_to_open_file_for_input "no-data"]) /\
  option_map (fun r => (exit_status r, stderr r))
    (main strtod_dec world_no_pop 2 argv_stdin)
  = Some (1, [Reading_config_from_stdin; Unable_to_open_file_for_input "no-data"]).
Proof. repeat split. Qed.

(** ** Instances of the theorems on the readers *)

Lemma C7_sentinel_grid_all_nan_witness :
  (exists r, read_and_aggregate_data no_files static_floats static_floats "no-data"
               static_grid = Some r /\
             stat r = 0 /\ errs r = [] /\ out r 17 359 719 = F32.NAN) /\
  (exists r, read_5yr_data no_files static_floats "no-data" static_grid 2 = Some r /\
             stat r = 0 /\ errs r = [] /\ out r 17 359 719 = F32.NAN).
Proof.
  apply (C7_sentinel_grid_all_nan no_files static_floats static_floats static_grid 2
           17 359 719); lia.
Defined.

Lemma C4_read_5yr_skip_and_transpose_witness :
  exists r,
    read_5yr_data (one_file "irr.dat" (ramp (20 * 360 * 720))) static_floats "irr.dat"
      static_grid 2 = Some r /\
    stat r = 0 /\
    out r 17 359 719 =
      contents (ramp (20 * 360 * 720)) ((2 + 17) * (360 * 720) + (719 * 360 + 359)).
Proof.
  apply (C4_read_5yr_skip_and_transpose (one_file "irr.dat" (ramp (20 * 360 * 720)))
           static_floats "irr.dat" static_grid 2 (ramp (20 * 360 * 720)) 17 359 719).
  - reflexivity.
  - reflexivity.
  - lia.
  - vm_compute. discriminate.
  - lia.
  - lia.
  - lia.
Defined.

Lemma C5_read_table_verbatim_witness :
  exists r,
    read_table_data table_files static_floats "basin.dat" 235 static_floats = Some r /\
    stat r = 0 /\
    out r (17 * 235 + 234) = contents (ramp (19 * 235)) (235 + (17 * 235 + 234)) /\
    (forall j, ~ 0 <= j < 18 * 235 -> out r j = static_floats j).
Proof.
  apply (C5_read_table_verbatim table_files static_floats "basin.dat" 235 static_floats
           (ramp (19 * 235)) 17 234).
  - reflexivity.
  - lia.
  - vm_compute. discriminate.
  - lia.
  - lia.
Defined.

Lemma C10_truncation_single_check_witness :
  (exists r, read_5yr_data (one_file "short.dat" (ramp 10)) static_floats "short.dat"
               static_grid 2 = Some r /\
     stat r = (if (2 + 18) * 360 * 720 <=? Z.of_N (size (ramp 10)) then 0 else 1) /\
     errs r = (if (2 + 18) * 360 * 720 <=? Z.of_N (size (ramp 10)) then []
               else [Error_reading_data_from "short.dat"])) /\
  (exists r, read_table_data (one_file "short.dat" (ramp 10)) static_floats "short.dat"
               63 static_floats = Some r /\
     stat r = (if 19 * 63 <=? Z.of_N (size (ramp 10)) then 0 else 1) /\
     errs r = (if 19 * 63 <=? Z.of_N (size (ramp 10)) then []
               else [Error_reading_data_from "short.dat"])).
Proof.
  apply (C10_truncation_single_check (one_file "short.dat" (ramp 10)) static_floats
           static_floats "short.dat" static_grid static_floats 2 63 (ramp 10)).
  - reflexivity.
  - reflexivity.
  - lia.
  - lia.
Defined.

(** ** The static read buffer *)

(** What [read_5yr_data] returns does not depend on what its static
    buffer holds on entry. *)
Lemma read_5yr_data_any_buffer (fs : bin_fs) (readdata1 readdata2 : farray)
    (filename : string) (data : grid) (nskipyr : Z) :
  match read_5yr_data fs readdata1 filename data nskipyr,
        read_5yr_data fs readdata2 filename data nskipyr with
  | Some r1, Some r2 =>
    stat r1 = stat r2 /\ errs r1 = errs r2 /\
    forall i j k, out r1 i j k = out r2 i j k
  | None, None => True
  | _, _ => False
  end.
Proof.
  unfold read_5yr_data, bind.
  destruct (is_no_data filename); [now repeat split|].
  destruct (fopen fs filename) as [datafile|]; [|now repeat split].
  destruct (int_mul nskipyr NLAT) as [m|]; [|exact I].
  destruct (int_mul m NLON) as [nskip|]; [|exact I].
  unfold fread. cbv zeta. cbn [file pos].
  destruct (Z.min (to_size_t nskip) (avail datafile) <=? _); [|exact I].
  cbn [file pos].
  set (n := Z.min (NYEAR * NLAT * NLON) _).
  destruct (n <=? _); [|exact I].
  destruct (Z.eqb_spec n (NYEAR * NLAT * NLON)) as [E|E]; cbn [negb];
    [|now repeat split].
  cbn [ret stat errs out]. split; [reflexivity|]. split; [reflexivity|].
  intros i j k. rewrite !transpose_5yr_spec. rewrite E.
  destruct (in_range 0 NYEAR i && in_range 0 NLAT j && in_range 0 NLON k) eqn:Hin;
    [|reflexivity].
  replace ((0 <=? i * (NLON * NLAT) + (NLAT * k + j)) &&
           (i * (NLON * NLAT) + (NLAT * k + j) <? NYEAR * NLAT * NLON)) with true;
    [reflexivity|].
  symmetry. unfold in_range, NYEAR, NLAT, NLON in *. revert Hin. clear. zcases.
Qed.

(** * Further properties of the readers *)

(** ** The monthly reader on a file that is too short *)

Lemma agg_year_reads (filename : string) (bf : bin_file) (y : Z) (s : agg_state) :
  file (infile s) = bf ->
  pos (infile s) = (y - 2001) * (12 * NLAT * NLON) ->
  2001 <= y ->
  (y + 1 - 2001) * (12 * NLAT * NLON) <= Z.of_N (size bf) ->
  exists s',
    agg_year filename y s = Continue s' /\
    file (infile s') = bf /\
    pos (infile s') = (y + 1 - 2001) * (12 * NLAT * NLON) /\
    forall a b c,
      data_of s' a b c =
      if kept y && (a =? (y - 2010) / 5) && in_range 0 NLAT b && in_range 0 NLON c
      then annual bf y b c else data_of s a b c.
Proof.
  intros Hf Hp Hy Hsz. unfold agg_year.
  assert (Hav : 12 * NLAT * NLON <= avail (infile s)).
  { unfold avail. rewrite Hf, Hp. unfold NLAT, NLON in *. lia. }
  rewrite fread_some by (unfold NLAT, NLON in *; lia).
  rewrite (Z.min_l _ _ Hav). rewrite Z.eqb_refl. cbn [negb].
  destruct ((y <? 2010) || negb (Z.rem y 5 =? 0)) eqn:Hskip.
  - eexists. split; [reflexivity|]. cbn [infile file pos data_of].
    split; [exact Hf|]. split; [lia|]. intros a b c.
    replace (kept y) with false; [reflexivity|].
    unfold kept. rewrite Z.rem_mod_nonneg in Hskip by lia.
    symmetry. revert Hskip. zcases.
  - eexists. split; [reflexivity|]. cbn [infile file pos data_of].
    split; [exact Hf|]. split; [lia|]. intros a b c.
    rewrite Z.rem_mod_nonneg in Hskip by lia.
    assert (Hk : kept y = true) by (unfold kept; revert Hskip; zcases).
    assert (Hy10 : 2010 <= y) by (revert Hskip; zcases).
    rewrite Hk. rewrite Z.quot_div_nonneg by lia.
    rewrite transpose_scaled_spec. cbn [andb].
    destruct ((a =? (y - 2010) / 5) && in_range 0 NLAT b && in_range 0 NLON c) eqn:Hc;
      [|reflexivity].
    unfold annual. f_equal.
    assert (Hb : 0 <= b < NLAT /\ 0 <= c < NLON).
    { unfold in_range in Hc. revert Hc. zcases. }
    rewrite aggregate_spec.
    replace (in_range 0 (NLAT * NLON) (NLAT * c + b)) with true
      by (symmetry; unfold in_range, NLAT, NLON in *; zcases).
    unfold memset0.
    replace ((0 <=? NLAT * c + b) && (NLAT * c + b <? NLAT * NLON)) with true
      by (symmetry; unfold NLAT, NLON in *; zcases).
    apply acc_months_ext. intros m Hm. cbn beta.
    replace ((0 <=? m * (NLON * NLAT) + (NLAT * c + b)) &&
             (m * (NLON * NLAT) + (NLAT * c + b) <? 12 * NLAT * NLON)) with true
      by (symmetry; unfold NLAT, NLON in *; zcases).
    rewrite Hf, Hp. f_equal. unfold monthly_index. lia.
Qed.

Lemma agg_year_short (filename : string) (bf : bin_file) (y : Z) (s : agg_state) :
  file (infile s) = bf ->
  pos (infile s) = (y - 2001) * (12 * NLAT * NLON) ->
  2001 <= y ->
  (y - 2001) * (12 * NLAT * NLON) <= Z.of_N (size bf) < (y + 1 - 2001) * (12 * NLAT * NLON) ->
  agg_year filename y s =
  Return (ret 3 [Error_reading_data_in_year filename y] (data_of s)).
Proof.
  intros Hf Hp Hy Hsz. unfold agg_year.
  assert (Hav : avail (infile s) < 12 * NLAT * NLON).
  { unfold avail. rewrite Hf, Hp. unfold NLAT, NLON in *. lia. }
  rewrite fread_some by (unfold NLAT, NLON in *; lia).
  replace (Z.min (12 * NLAT * NLON) (avail (infile s)) =? 12 * NLAT * NLON) with false
    by (symmetry; zcases).
  reflexivity.
Qed.

(** The year loop up to, not including, year [y1], on a file that holds
    the blocks of all the years before [y1]. *)
Lemma agg_years_before (filename : string) (bf : bin_file) (y1 : Z)
    (readdata transdata : farray) (data : grid) :
  2001 <= y1 <= 2096 ->
  (y1 - 2001) * (12 * NLAT * NLON) <= Z.of_N (size bf) ->
  exists s',
    for_ctl 2001 y1 (agg_year filename)
      {| infile := {| file := bf; pos := 0 |}; readdata_of := readdata;
         transdata_of := transdata; data_of := data |} = Continue s' /\
    file (infile s') = bf /\
    pos (infile s') = (y1 - 2001) * (12 * NLAT * NLON) /\
    forall a b c,
      data_of s' a b c =
      if in_range 0 NYEAR a && (2010 + 5 * a <? y1) &&
         in_range 0 NLAT b && in_range 0 NLON c
      then annual bf (2010 + 5 * a) b c else data a b c.
Proof.
  intros Hy1 Hsz.
  apply (for_ctl_ind
    (fun y s =>
       file (infile s) = bf /\
       pos (infile s) = (y - 2001) * (12 * NLAT * NLON) /\
       forall a b c,
         data_of s a b c =
         if in_range 0 NYEAR a && (2010 + 5 * a <? y) &&
            in_range 0 NLAT b && in_range 0 NLON c
         then annual bf (2010 + 5 * a) b c else data a b c)).
  - lia.
  - cbn [infile file pos data_of]. split; [reflexivity|]. split; [lia|].
    intros a b c.
    replace (in_range 0 NYEAR a && (2010 + 5 * a <? 2001)) with false; [reflexivity|].
    symmetry. unfold in_range. zcases.
  - intros y s Hy (Hf & Hp & Hd).
    destruct (agg_year_reads filename bf y s Hf Hp ltac:(lia)
                ltac:(unfold NLAT, NLON in *; lia))
      as (s' & Hs' & Hf' & Hp' & Hd').
    exists s'. split; [exact Hs'|]. split; [exact Hf'|]. split; [exact Hp'|].
    intros a b c. rewrite Hd', Hd.
    destruct (in_range 0 NLAT b); rewrite ?andb_false_r; [|reflexivity].
    destruct (in_range 0 NLON c); rewrite ?andb_false_r; [|reflexivity].
    rewrite !andb_true_r. unfold kept, in_range, NYEAR.
    destruct (Z.leb_spec 2010 y), (Z.eqb_spec (y mod 5) 0),
      (Z.eqb_spec a ((y - 2010) / 5)), (Z.leb_spec 0 a), (Z.ltb_spec a 18),
      (Z.ltb_spec (2010 + 5 * a) (y + 1)), (Z.ltb_spec (2010 + 5 * a) y);
      cbn [andb]; try reflexivity;
      try (exfalso; Z.to_euclidean_division_equations; lia).
    f_equal. Z.to_euclidean_division_equations. lia.
Qed.

Lemma first_short_year_bounds (size : N) :
  Z.of_N size < 95 * 12 * (NLAT * NLON) ->
  let y0 := first_short_year size in
  2001 <= y0 <= 2095 /\
  (y0 - 2001) * (12 * NLAT * NLON) <= Z.of_N size < (y0 + 1 - 2001) * (12 * NLAT * NLON).
Proof.
  intros H y0. unfold y0, first_short_year, NLAT, NLON in *.
  Z.to_euclidean_division_equations. lia.
Qed.

(** X1. A monthly-flow file that holds fewer than 95 years of 12 records:
    the reader returns 3 with the diagnostic that names the first year
    whose block is not whole; the kept years before that year are in the
    grid already, and every other cell is as it was. *)
Theorem X1_monthly_truncation (fs : bin_fs) (readdata transdata : farray)
    (filename : string) (data : grid) (bf : bin_file) :
  is_no_data filename = false ->
  fs filename = Some bf ->
  Z.of_N (size bf) < 95 * 12 * (360 * 720) ->
  exists r,
    read_and_aggregate_data fs readdata transdata filename data = Some r /\
    stat r = 3 /\
    errs r = [Error_reading_data_in_year filename (first_short_year (size bf))] /\
    forall a b c,
      out r a b c =
      if in_grid a b c && (2010 + 5 * a <? first_short_year (size bf))
      then annual bf (2010 + 5 * a) b c else data a b c.
Proof.
  intros Hnd Hfs Hsz.
  destruct (first_short_year_bounds (size bf) Hsz) as (Hy0 & Hlo & Hhi).
  set (y0 := first_short_year (size bf)) in *.
  destruct (agg_years_before filename bf y0 readdata transdata data
              ltac:(lia) Hlo) as (s' & Hrun & Hf & Hp & Hd).
  unfold read_and_aggregate_data. rewrite Hnd. unfold fopen. rewrite Hfs.
  rewrite (for_ctl_return 2001 y0 2096 _ _ s' _ ltac:(lia) Hrun
             (agg_year_short filename bf y0 s' Hf Hp ltac:(lia) (conj Hlo Hhi))).
  eexists. split; [reflexivity|]. cbn [ret stat errs out].
  split; [reflexivity|]. split; [reflexivity|].
  intros a b c. rewrite Hd. unfold in_grid.
  destruct (in_range 0 NYEAR a), (2010 + 5 * a <? y0), (in_range 0 NLAT b),
    (in_range 0 NLON c); reflexivity.
Qed.

Lemma X1_monthly_truncation_witness :
  exists r,
    read_and_aggregate_data (one_file "flow.dat" (ramp (125 * 360 * 720)))
      static_floats static_floats "flow.dat" static_grid = Some r /\
    stat r = 3 /\
    errs r = [Error_reading_data_in_year "flow.dat"
                (first_short_year (size (ramp (125 * 360 * 720))))] /\
    forall a b c,
      out r a b c =
      if in_grid a b c &&
         (2010 + 5 * a <? first_short_year (size (ramp (125 * 360 * 720))))
      then annual (ramp (125 * 360 * 720)) (2010 + 5 * a) b c
      else static_grid a b c.
Proof.
  apply (X1_monthly_truncation (one_file "flow.dat" (ramp (125 * 360 * 720)))
           static_floats static_floats "flow.dat" static_grid
           (ramp (125 * 360 * 720))).
  - reflexivity.
  - reflexivity.
  - vm_compute. reflexivity.
Defined.

Example first_short_year_values :
  map first_short_year [0; 12 * 360 * 720 - 1; 12 * 360 * 720; 125 * 360 * 720;
                        95 * 12 * 360 * 720 - 1]%N
  = [2001; 2001; 2002; 2011; 2095].
Proof. vm_compute. reflexivity. Qed.

(** ** What a failed read leaves in the caller's array *)

(** X2. [read_5yr_data] stores all or nothing: whenever it returns a
    status other than 0, that status is 1 and the grid it hands back is
    the grid it was given, whatever the file and the skip count. *)
Theorem X2_read_5yr_data_failure_keeps_grid (fs : bin_fs) (readdata : farray)
    (filename : string) (data : grid) (nskipyr : Z) (r : result grid) :
  read_5yr_data fs readdata filename data nskipyr = Some r ->
  stat r <> 0 ->
  stat r = 1 /\ out r = data.
Proof.
  unfold read_5yr_data, bind.
  destruct (is_no_data filename); [intros [= <-]; cbn; congruence|].
  destruct (fopen fs filename); [|intros [= <-]; now split].
  destruct (int_mul nskipyr NLAT) as [m|]; [|discriminate].
  destruct (int_mul m NLON) as [nskip|]; [|discriminate].
  destruct (fread _ _ _ _) as [[[rd n] f1]|]; [|discriminate].
  destruct (fread _ _ _ _) as [[[rd' n'] f2]|]; [|discriminate].
  destruct (negb _); intros [= <-]; cbn [ret stat out]; [now split | congruence].
Qed.

Lemma X2_read_5yr_data_failure_keeps_grid_witness :
  stat (ret 1 [Error_reading_data_from "short.dat"] static_grid) = 1 /\
  out (ret 1 [Error_reading_data_from "short.dat"] static_grid) = static_grid.
Proof.
  apply (X2_read_5yr_data_failure_keeps_grid (one_file "short.dat" (ramp 10))
           static_floats "short.dat" static_grid 2
           (ret 1 [Error_reading_data_from "short.dat"] static_grid)).
  - vm_compute. reflexivity.
  - discriminate.
Defined.



(** ** Bounds *)

Lemma iyear_in_range (year : Z) :
  2001 <= year < 2096 ->
  (year <? 2010) || negb (Z.rem year 5 =? 0) = false ->
  in_range 0 NYEAR (Z.quot (year - 2010) 5) = true.
Proof.
  intros Hy H. assert (2010 <= year) by (revert H; zcases).
  rewrite Z.quot_div_nonneg by lia. unfold in_range, NYEAR.
  zcases; Z.to_euclidean_division_equations; lia.
Qed.

Lemma read_and_aggregate_data_bounds (fs : bin_fs) (readdata transdata : farray)
    (filename : string) (data : grid) (r : result grid) (a b c : Z) :
  read_and_aggregate_data fs readdata transdata filename data = Some r ->
  in_grid a b c = false ->
  out r a b c = data a b c.
Proof.
  intros Hr Hout. revert Hr. unfold read_and_aggregate_data.
  destruct (is_no_data filename).
  { intros [= <-]. cbn [ret out]. rewrite fill_nan_spec.
    unfold in_grid in Hout. now rewrite Hout. }
  destruct (fopen fs filename); [|now intros [= <-]].
  match goal with |- context [for_ctl ?lo ?hi ?body ?s] =>
    pose proof (for_ctl_holds (fun t0 : agg_state => data_of t0 a b c = data a b c)
                  (fun r0 : result grid => out r0 a b c = data a b c)
                  lo hi body s eq_refl) as H end.
  destruct (for_ctl _ _ _ _) as [s'|r'|]; [| |discriminate];
    intros [= <-]; apply H; clear H.
  all: intros year t Hy Ht; unfold agg_year;
    destruct (fread _ _ _ _) as [[[rd n] f']|]; cbn [ctl_holds]; trivial;
    destruct (negb _); cbn [ctl_holds ret out]; [exact Ht|];
    destruct (_ || _) eqn:Hskip; cbn [ctl_holds data_of]; [exact Ht|];
    rewrite transpose_scaled_spec;
    pose proof (iyear_in_range year Hy Hskip) as Hi;
    replace ((a =? Z.quot (year - 2010) 5) && in_range 0 NLAT b && in_range 0 NLON c)
      with false; [exact Ht|];
    symmetry; destruct (Z.eqb_spec a (Z.quot (year - 2010) 5)) as [->|]; [|reflexivity];
    unfold in_grid in Hout; rewrite Hi in Hout; exact Hout.
Qed.

Lemma read_5yr_data_bounds (fs : bin_fs) (readdata : farray)
    (filename : string) (data : grid) (nskipyr : Z) (r : result grid) (a b c : Z) :
  read_5yr_data fs readdata filename data nskipyr = Some r ->
  in_grid a b c = false ->
  out r a b c = data a b c.
Proof.
  intros Hr Hout. revert Hr. unfold read_5yr_data, bind.
  destruct (is_no_data filename).
  { intros [= <-]. cbn [ret out]. rewrite fill_nan_spec.
    unfold in_grid in Hout. now rewrite Hout. }
  destruct (fopen fs filename); [|now intros [= <-]].
  destruct (int_mul nskipyr NLAT) as [m|]; [|discriminate].
  destruct (int_mul m NLON) as [nskip|]; [|discriminate].
  destruct (fread _ _ _ _) as [[[rd n] f1]|]; [|discriminate].
  destruct (fread _ _ _ _) as [[[rd' n'] f2]|]; [|discriminate].
  destruct (negb _); intros [= <-]; cbn [ret out]; [reflexivity|].
  rewrite transpose_5yr_spec. unfold in_grid in Hout. now rewrite Hout.
Qed.

(** X4. Neither grid reader ever stores outside the 18 x 360 x 720
    cells of the grid: whatever the name, the file and the outcome, what
    the caller's array holds beyond them is as it was. *)
Theorem X4_grid_readers_stay_in_grid (fs : bin_fs) (readdata transdata : farray)
    (filename : string) (data : grid) (nskipyr : Z) (a b c : Z) :
  in_grid a b c = false ->
  match read_and_aggregate_data fs readdata transdata filename data with
  | Some r => out r a b c = data a b c
  | None => True
  end /\
  match read_5yr_data fs readdata filename data nskipyr with
  | Some r => out r a b c = data a b c
  | None => True
  end.
Proof.
  intros Hout. split.
  - destruct (read_and_aggregate_data _ _ _ _ _) as [r|] eqn:Hr; [|exact I].
    now apply (read_and_aggregate_data_bounds fs readdata transdata filename data r).
  - destruct (read_5yr_data _ _ _ _ _) as [r|] eqn:Hr; [|exact I].
    now apply (read_5yr_data_bounds fs readdata filename data nskipyr r).
Qed.

Lemma X4_grid_readers_stay_in_grid_witness :
  match read_and_aggregate_data (one_file "flow.dat" unit_flow) static_floats
          static_floats "flow.dat" static_grid with
  | Some r => out r 18 0 0 = static_grid 18 0 0
  | None => True
  end /\
  match read_5yr_data (one_file "flow.dat" unit_flow) static_floats "flow.dat"
          static_grid 2 with
  | Some r => out r 18 0 0 = static_grid 18 0 0
  | None => True
  end.
Proof.
  apply (X4_grid_readers_stay_in_grid (one_file "flow.dat" unit_flow) static_floats
           static_floats "flow.dat" static_grid 2 18 0 0).
  reflexivity.
Defined.

(** X5. The population reader never stores outside the 18 x 63 entries
    of its table, whatever the text of the file and however the read
    ends. *)
Theorem X5_read_pop_data_stays_in_table
    (strtod : stream -> option (double * stream)) (fs : txt_fs) (tmp : double)
    (filename : string) (data : itable) (y rg : Z) :
  in_range 0 NYEAR y && in_range 0 NRGN rg = false ->
  match read_pop_data strtod fs tmp filename data with
  | Some r => out r y rg = data y rg
  | None => True
  end.
Proof.
  intros Hout. unfold read_pop_data.
  destruct (fs filename) as [content|]; [|reflexivity].
  match goal with |- context [for_ctl ?lo ?hi ?body ?s0] =>
    pose proof (for_ctl_holds (fun t : pop_state => popdata_of t y rg = data y rg)
                  (fun r0 : result itable => out r0 y rg = data y rg)
                  lo hi body s0 eq_refl) as H end.
  destruct (for_ctl _ _ _ _) as [s'|r'|]; [| |exact I]; apply H; clear H.
  all: intros rgn t Hrgn Ht; unfold pop_rgn;
    destruct (fscanf_skip2 strtod _) as [n0 df];
    match goal with |- context [for_ctl ?lo ?hi ?body ?s0] =>
      pose proof (for_ctl_holds (fun t : pop_state => popdata_of t y rg = data y rg)
                    (fun r0 : result itable => out r0 y rg = data y rg)
                    lo hi body s0 Ht) as H end;
    destruct (for_ctl _ _ _ _) as [s2|r2|]; cbn [ctl_holds popdata_of]; trivial;
    apply H; clear H;
    intros iyear t' Hiy Ht'; unfold pop_year;
    destruct (fscanf_comma_lf strtod _ _) as [[nconv tmp'] df'];
    destruct (int_of_round tmp'); cbn [ctl_holds]; trivial;
    assert (Hupd : upd2 (popdata_of t') iyear rgn z y rg = data y rg)
      by (unfold upd2; rewrite <- Ht';
          replace ((y =? iyear) && (rg =? rgn)) with false; [reflexivity|];
          symmetry; revert Hout; unfold in_range; zcases);
    destruct (negb _); cbn [ctl_holds ret out popdata_of]; exact Hupd.
Qed.

Lemma X5_read_pop_data_stays_in_table_witness :
  match read_pop_data strtod_dec (one_text "pop.csv" sample_pop) S754_nan "pop.csv"
          zero_table with
  | Some r => out r 0 63 = zero_table 0 63
  | None => True
  end.
Proof.
  apply (X5_read_pop_data_stays_in_table strtod_dec (one_text "pop.csv" sample_pop)
           S754_nan "pop.csv" zero_table 0 63).
  reflexivity.
Defined.

(** ** What the readers do not depend on *)

Lemma for_ctl_rel {S R : Type} (RS : S -> S -> Prop) (RR : R -> R -> Prop)
    (hi : Z) (body1 body2 : Z -> S -> ctl S R) (n : nat) :
  forall lo s1 s2,
    hi - lo = Z.of_nat n ->
    (forall i t1 t2, lo <= i < hi -> RS t1 t2 ->
       ctl_rel RS RR (body1 i t1) (body2 i t2)) ->
    RS s1 s2 ->
    ctl_rel RS RR (for_ctl lo hi body1 s1) (for_ctl lo hi body2 s2).
Proof.
  induction n as [|n IH]; intros lo s1 s2 Hn Hbody Hs.
  - replace hi with lo by lia. rewrite !for_ctl_nil. exact Hs.
  - rewrite !for_ctl_first by lia.
    pose proof (Hbody lo s1 s2 ltac:(lia) Hs) as H.
    destruct (body1 lo s1), (body2 lo s2); cbn [ctl_rel] in H |- *;
      try contradiction; try exact H.
    apply IH; [lia | | exact H]. intros i t1 t2 Hi. apply Hbody. lia.
Qed.

Lemma read_and_aggregate_data_any_buffers (fs : bin_fs)
    (readdata1 transdata1 readdata2 transdata2 : farray)
    (filename : string) (data : grid) :
  same_outcome same_grid
    (read_and_aggregate_data fs readdata1 transdata1 filename data)
    (read_and_aggregate_data fs readdata2 transdata2 filename data).
Proof.
  unfold read_and_aggregate_data.
  destruct (is_no_data filename); [cbn; now repeat split|].
  destruct (fopen fs filename) as [f|]; [|cbn; now repeat split].
  match goal with
  | |- same_outcome _ (match for_ctl ?lo ?hi ?body ?s1 with _ => _ end)
                      (match for_ctl _ _ _ ?s2 with _ => _ end) =>
    pose proof (for_ctl_rel
                  (fun t1 t2 : agg_state =>
                     infile t1 = infile t2 /\ same_grid (data_of t1) (data_of t2))
                  (fun r1 r2 : result grid =>
                     stat r1 = stat r2 /\ errs r1 = errs r2 /\ same_grid (out r1) (out r2))
                  hi body body (Z.to_nat (hi - lo)) lo s1 s2 ltac:(lia)) as H
  end.
  match type of H with ?A -> ?B -> _ => assert (HA : A); [|assert (HB : B)] end.
  - clear H. intros year t1 t2 Hy [Hf Hd]. unfold agg_year. rewrite Hf.
    unfold fread. cbv zeta.
    destruct (_ <=? _); [|exact I].
    destruct (Z.eqb_spec (Z.min (12 * NLAT * NLON) (avail (infile t2)))
                (12 * NLAT * NLON)) as [E|E]; cbn [negb].
    2:{ cbn [ctl_rel ret stat errs out]. now repeat split. }
    destruct (_ || _); cbn [ctl_rel infile data_of]; (split; [reflexivity|]);
      [exact Hd|].
    intros a b c. rewrite !transpose_scaled_spec, Hd.
    destruct ((a =? _) && in_range 0 NLAT b && in_range 0 NLON c) eqn:Hc; [|reflexivity].
    assert (Hb : 0 <= NLAT * c + b < NLAT * NLON).
    { unfold in_range, NLAT, NLON in *. revert Hc. zcases. }
    match goal with
    | |- F32.mul ?x fac = F32.mul ?y fac =>
      assert (Hxy : x = y); [|rewrite Hxy; reflexivity]
    end.
    rewrite !aggregate_spec.
    replace (in_range 0 (NLAT * NLON) (NLAT * c + b)) with true
      by (symmetry; unfold in_range; zcases).
    unfold memset0.
    replace ((0 <=? NLAT * c + b) && (NLAT * c + b <? NLAT * NLON)) with true
      by (symmetry; zcases).
    apply acc_months_ext. intros m Hm. cbn beta. rewrite E.
    replace ((0 <=? m * (NLON * NLAT) + (NLAT * c + b)) &&
             (m * (NLON * NLAT) + (NLAT * c + b) <? 12 * NLAT * NLON)) with true
      by (symmetry; unfold NLAT, NLON in *; zcases).
    reflexivity.
  - cbn [infile data_of]. split; [reflexivity | intros a b c; reflexivity].
  - specialize (H HA HB). clear HA HB.
    match type of H with
    | ctl_rel _ _ ?x ?y => revert H; generalize x; intros m1; generalize y; intros m2 H
    end.
    destruct m1 as [t1|r1|], m2 as [t2|r2|]; unfold ctl_rel in H; unfold same_outcome.
    + destruct H as [_ H]. split; [reflexivity|]. split; [reflexivity|]. exact H.
    + contradiction.
    + contradiction.
    + contradiction.
    + exact H.
    + contradiction.
    + contradiction.
    + contradiction.
    + exact I.
Qed.

Lemma read_table_data_any_buffer (fs : bin_fs) (tempdata1 tempdata2 : farray)
    (filename : string) (nrow : Z) (data : farray) :
  read_table_data fs tempdata1 filename nrow data =
  read_table_data fs tempdata2 filename nrow data.
Proof.
  unfold read_table_data, bind, fread. cbv zeta.
  destruct (fopen fs filename); [|reflexivity].
  destruct (_ <=? NBASIN); reflexivity.
Qed.

(** X6. The static and automatic buffers of the binary readers carry
    nothing from one call to the next: what a reader returns is the same
    whatever its buffers hold on entry (the read buffer and the sum buffer
    of the monthly reader, the read buffer of the five-year reader, the
    throwaway buffer of the table reader). *)
Theorem X6_buffers_carry_nothing (fs : bin_fs)
    (readdata1 transdata1 tempdata1 readdata2 transdata2 tempdata2 : farray)
    (filename : string) (data : grid) (tdata : farray) (nskipyr nrow : Z) :
  same_outcome same_grid
    (read_and_aggregate_data fs readdata1 transdata1 filename data)
    (read_and_aggregate_data fs readdata2 transdata2 filename data) /\
  same_outcome same_grid
    (read_5yr_data fs readdata1 filename data nskipyr)
    (read_5yr_data fs readdata2 filename data nskipyr) /\
  read_table_data fs tempdata1 filename nrow tdata =
  read_table_data fs tempdata2 filename nrow tdata.
Proof.
  split; [apply read_and_aggregate_data_any_buffers|].
  split; [|apply read_table_data_any_buffer].
  pose proof (read_5yr_data_any_buffer fs readdata1 readdata2 filename data nskipyr) as H.
  unfold same_outcome, same_grid.
  destruct (read_5yr_data fs readdata1 _ _ _), (read_5yr_data fs readdata2 _ _ _);
    exact H.
Qed.

(** X7. The monthly reader reads every year from 2001 to 2095 but its
    result depends only on the records of the years it keeps: for two
    full-length files that agree on the twelve records of each year 2010,
    2015, ..., 2095 the two calls return 0 and the same grid, whatever the
    records of the other years hold. *)
Theorem X7_skipped_years_never_matter (fs1 fs2 : bin_fs)
    (readdata transdata : farray) (filename : string) (data : grid)
    (bf1 bf2 : bin_file) :
  is_no_data filename = false ->
  fs1 filename = Some bf1 ->
  fs2 filename = Some bf2 ->
  95 * 12 * (360 * 720) <= Z.of_N (size bf1) ->
  95 * 12 * (360 * 720) <= Z.of_N (size bf2) ->
  agree_on_kept bf1 bf2 ->
  exists r1 r2,
    read_and_aggregate_data fs1 readdata transdata filename data = Some r1 /\
    read_and_aggregate_data fs2 readdata transdata filename data = Some r2 /\
    stat r1 = 0 /\ stat r2 = 0 /\
    same_grid (out r1) (out r2).
Proof.
  intros Hnd Hfs1 Hfs2 Hsz1 Hsz2 Hag.
  destruct (read_and_aggregate_data_run fs1 readdata transdata filename data bf1
              Hnd Hfs1 Hsz1) as (r1 & Hr1 & Hst1 & _ & Hout1).
  destruct (read_and_aggregate_data_run fs2 readdata transdata filename data bf2
              Hnd Hfs2 Hsz2) as (r2 & Hr2 & Hst2 & _ & Hout2).
  exists r1, r2. split; [exact Hr1|]. split; [exact Hr2|].
  split; [exact Hst1|]. split; [exact Hst2|].
  intros a b c. rewrite Hout1, Hout2.
  destruct (in_range 0 NYEAR a && in_range 0 NLAT b && in_range 0 NLON c) eqn:Hc;
    [|reflexivity].
  assert (Hr : 0 <= a < NYEAR /\ 0 <= b < NLAT /\ 0 <= c < NLON).
  { unfold in_range in Hc. revert Hc. zcases. }
  unfold annual.
  match goal with
  | |- F32.mul ?x fac = F32.mul ?y fac => assert (Hxy : x = y); [|rewrite Hxy; reflexivity]
  end.
  apply acc_months_ext. intros m Hm. cbn beta.
  apply Hag; unfold NYEAR in *; try lia.
  replace (2010 + 5 * a) with (0 + (402 + a) * 5) by lia.
  rewrite Z.mod_add by lia. reflexivity.
Qed.

Lemma unit_flow_noise_kept : agree_on_kept unit_flow unit_flow_noise.
Proof.
  intros y m ilat ilon Hy Hy5 Hm Hlat Hlon.
  unfold unit_flow, unit_flow_noise, monthly_index, NLAT, NLON in *. cbn [contents].
  replace ((((y - 2001) * 12 + m) * (360 * 720) + (360 * ilon + ilat)) / (12 * 360 * 720))
    with (y - 2001).
  2:{ apply (Z.div_unique _ _ _ (m * (360 * 720) + (360 * ilon + ilat))); lia. }
  replace (y - 2001 + 2001) with y by lia. rewrite Hy5.
  replace (2010 <=? y) with true by (symmetry; zcases).
  reflexivity.
Qed.

Lemma X7_skipped_years_never_matter_witness :
  exists r1 r2,
    read_and_aggregate_data (one_file "flow.dat" unit_flow)
      static_floats static_floats "flow.dat" static_grid = Some r1 /\
    read_and_aggregate_data (one_file "flow.dat" unit_flow_noise)
      static_floats static_floats "flow.dat" static_grid = Some r2 /\
    stat r1 = 0 /\ stat r2 = 0 /\
    same_grid (out r1) (out r2).
Proof.
  apply (X7_skipped_years_never_matter (one_file "flow.dat" unit_flow)
           (one_file "flow.dat" unit_flow_noise) static_floats static_floats
           "flow.dat" static_grid unit_flow unit_flow_noise).
  - reflexivity.
  - reflexivity.
  - reflexivity.
  - vm_compute. discriminate.
  - vm_compute. discriminate.
  - exact unit_flow_noise_kept.
Defined.

(** X8. [read_5yr_data] depends on the 18 records that follow the skipped
    ones and on nothing else in the file: for two files that hold at least
    [k + 18] records and agree on records [k] to [k + 17], the two calls
    return 0 and the same grid, whatever the [k] leading records and any
    records after the 18 hold. *)
Theorem X8_read_5yr_data_window (fs1 fs2 : bin_fs) (readdata : farray)
    (filename : string) (data : grid) (k : Z) (bf1 bf2 : bin_file) :
  is_no_data filename = false ->
  fs1 filename = Some bf1 ->
  fs2 filename = Some bf2 ->
  0 <= k <= 18 ->
  (k + 18) * (360 * 720) <= Z.of_N (size bf1) ->
  (k + 18) * (360 * 720) <= Z.of_N (size bf2) ->
  agree_on bf1 bf2 (k * (360 * 720)) ((k + 18) * (360 * 720)) ->
  exists r1 r2,
    read_5yr_data fs1 readdata filename data k = Some r1 /\
    read_5yr_data fs2 readdata filename data k = Some r2 /\
    stat r1 = 0 /\ stat r2 = 0 /\
    same_grid (out r1) (out r2).
Proof.
  intros Hnd Hfs1 Hfs2 Hk Hsz1 Hsz2 Hag.
  destruct (read_5yr_data_run fs1 readdata filename data k bf1 Hnd Hfs1 Hk)
    as (rd1 & Hrd1 & Hrun1).
  destruct (read_5yr_data_run fs2 readdata filename data k bf2 Hnd Hfs2 Hk)
    as (rd2 & Hrd2 & Hrun2).
  rewrite Hrun1, Hrun2.
  replace ((k + NYEAR) * (NLAT * NLON) <=? Z.of_N (size bf1)) with true
    by (symmetry; unfold NYEAR, NLAT, NLON; zcases).
  replace ((k + NYEAR) * (NLAT * NLON) <=? Z.of_N (size bf2)) with true
    by (symmetry; unfold NYEAR, NLAT, NLON; zcases).
  eexists. eexists. split; [reflexivity|]. split; [reflexivity|].
  cbn [ret stat out]. split; [reflexivity|]. split; [reflexivity|].
  intros a b c. rewrite !transpose_5yr_spec.
  destruct (in_range 0 NYEAR a && in_range 0 NLAT b && in_range 0 NLON c) eqn:Hc;
    [|reflexivity].
  assert (Hr : 0 <= a < NYEAR /\ 0 <= b < NLAT /\ 0 <= c < NLON).
  { unfold in_range in Hc. revert Hc. zcases. }
  unfold NYEAR, NLAT, NLON in *.
  rewrite Hrd1, Hrd2 by lia.
  apply Hag. lia.
Qed.

Lemma X8_read_5yr_data_window_witness :
  exists r1 r2,
    read_5yr_data (one_file "demand.dat" (ramp (20 * 360 * 720)))
      static_floats "demand.dat" static_grid 2 = Some r1 /\
    read_5yr_data (one_file "demand.dat" (ramp (31 * 360 * 720)))
      static_floats "demand.dat" static_grid 2 = Some r2 /\
    stat r1 = 0 /\ stat r2 = 0 /\
    same_grid (out r1) (out r2).
Proof.
  apply (X8_read_5yr_data_window (one_file "demand.dat" (ramp (20 * 360 * 720)))
           (one_file "demand.dat" (ramp (31 * 360 * 720))) static_floats
           "demand.dat" static_grid 2 (ramp (20 * 360 * 720)) (ramp (31 * 360 * 720))).
  - reflexivity.
  - reflexivity.
  - reflexivity.
  - lia.
  - vm_compute. discriminate.
  - vm_compute. discriminate.
  - intros j Hj. reflexivity.
Defined.

(** ** Names in the configuration *)

Lemma skip_ws_spaces (ws s : stream) :
  forallb isspace ws = true -> skip_ws (ws ++ s) = skip_ws s.
Proof.
  induction ws as [|c ws IH]; [reflexivity|]. cbn [forallb app skip_ws].
  intros H. apply andb_prop in H as [Hc Hws]. rewrite Hc. now apply IH.
Qed.

Lemma skip_ws_all (ws : stream) :
  skip_ws ws = [] <-> forallb isspace ws = true.
Proof.
  induction ws as [|c ws IH]; [now split|]. cbn [forallb skip_ws].
  destruct (isspace c); cbn [andb]; [exact IH|]. split; discriminate.
Qed.

Lemma take_word_whole (word rest : stream) :
  forallb (fun c => negb (isspace c)) word = true ->
  match rest with [] => True | c :: _ => isspace c = true end ->
  take_word (word ++ rest) = (word, rest).
Proof.
  intros Hw Hr. induction word as [|c word IH].
  - destruct rest as [|c rest]; [reflexivity|]. cbn [app take_word]. now rewrite Hr.
  - cbn [forallb] in Hw. apply andb_prop in Hw as [Hc Hw].
    cbn [app take_word]. destruct (isspace c); [discriminate|].
    now rewrite (IH Hw).
Qed.

(** X9. [read_file_name] skips the white space before a name and takes
    the name up to the next white-space character or the end of the
    input, leaving what follows unread. A name of fewer than 1024
    characters is stored whole with status 0 and no diagnostic; a longer
    one does not fit the caller's buffer and the call has no defined
    behaviour, since the conversion carries no field width. *)
Theorem X9_read_file_name_takes_word (ws word rest : stream) (fn : string) :
  forallb isspace ws = true ->
  word <> [] ->
  forallb (fun c => negb (isspace c)) word = true ->
  match rest with [] => True | c :: _ => isspace c = true end ->
  read_file_name (ws ++ word ++ rest) fn =
  if Z.of_nat (List.length word) <? 1024
  then Some (0, string_of_list_ascii word, rest, [])
  else None.
Proof.
  intros Hws Hne Hw Hr. unfold read_file_name, fscanf_s.
  rewrite (skip_ws_spaces ws _ Hws).
  destruct word as [|c word]; [congruence|].
  pose proof (take_word_whole (c :: word) rest Hw Hr) as Htw.
  cbn [forallb] in Hw. apply andb_prop in Hw as [Hc _].
  cbn [app skip_ws] in *. destruct (isspace c); [discriminate|].
  rewrite Htw. cbn [Z.eqb Pos.eqb]. reflexivity.
Qed.

Lemma X9_read_file_name_takes_word_witness :
  read_file_name ([" "%char; newline] ++ text "out.nc" ++ newline :: text "flow.dat")
    "unset"%string =
  if Z.of_nat (List.length (text "out.nc")) <? 1024
  then Some (0, string_of_list_ascii (text "out.nc"), newline :: text "flow.dat", [])
  else None.
Proof.
  apply (X9_read_file_name_takes_word [" "%char; newline] (text "out.nc")
           (newline :: text "flow.dat") "unset"%string).
  - reflexivity.
  - discriminate.
  - reflexivity.
  - reflexivity.
Defined.

(** X10. The only way [read_file_name] fails is by running out of
    input: when nothing but white space is left (or nothing at all) it
    returns 1, reports the configuration error and leaves the caller's
    buffer as it was; in every other case in which it returns, it
    returns 0 without a diagnostic. *)
Theorem X10_read_file_name_fails_at_end_only (cfg : stream) (fn : string) :
  match read_file_name cfg fn with
  | Some (st, fn', cfg', e) =>
    if forallb isspace cfg
    then st = 1 /\ fn' = fn /\ cfg' = [] /\ e = [Error_reading_config]
    else st = 0 /\ e = []
  | None => forallb isspace cfg = false
  end.
Proof.
  unfold read_file_name, fscanf_s.
  pose proof (skip_ws_all cfg) as Hall.
  destruct (skip_ws cfg) as [|c s1] eqn:Hs.
  - rewrite (proj1 Hall eq_refl). cbn. now repeat split.
  - assert (Hf : forallb isspace cfg = false).
    { destruct (forallb isspace cfg); [|reflexivity].
      now pose proof (proj2 Hall eq_refl). }
    rewrite Hf. destruct (take_word (c :: s1)) as [word rest].
    cbn [Z.eqb Pos.eqb]. destruct (_ <? MAXLEN); [now split | reflexivity].
Qed.

(** ** The writer *)

Lemma run_steps_pass (lib : nc_library) (steps : list nc_step) :
  forall made,
    (forall pre c post, steps = pre ++ Checked c :: post ->
       lib (made ++ map call_of pre) c = NC_NOERR) ->
    run_steps lib made steps = (Returns 0, [], made ++ map call_of steps).
Proof.
  induction steps as [|[c|c] steps IH]; intros made H; cbn [run_steps map call_of].
  - now rewrite app_nil_r.
  - pose proof (H [] c steps eq_refl) as Hc. cbn [map] in Hc. rewrite app_nil_r in Hc.
    unfold check_err. rewrite Hc. cbn [Z.eqb negb NC_NOERR].
    rewrite IH.
    + now rewrite <- app_assoc.
    + intros pre c' post E. rewrite <- app_assoc. cbn [app].
      apply (H (Checked c :: pre) c' post). now rewrite E.
  - rewrite IH.
    + now rewrite <- app_assoc.
    + intros pre c' post E. rewrite <- app_assoc. cbn [app].
      apply (H (Unchecked c :: pre) c' post). now rewrite E.
Qed.

Lemma run_steps_stop (lib : nc_library) (pre : list nc_step) (c : nc_call)
    (post : list nc_step) :
  forall made,
    (forall p1 c1 p2, pre = p1 ++ Checked c1 :: p2 ->
       lib (made ++ map call_of p1) c1 = NC_NOERR) ->
    lib (made ++ map call_of pre) c <> NC_NOERR ->
    run_steps lib made (pre ++ Checked c :: post) =
    (Exits 1, [Nc_error (lib (made ++ map call_of pre) c)],
     made ++ map call_of pre ++ [c]).
Proof.
  induction pre as [|[c0|c0] pre IH]; intros made H Hc; cbn [run_steps map call_of app].
  - cbn [map] in Hc. rewrite app_nil_r in Hc |- *.
    unfold check_err. destruct (Z.eqb_spec (lib made c) NC_NOERR); [contradiction|].
    reflexivity.
  - pose proof (H [] c0 pre eq_refl) as H0. cbn [map] in H0. rewrite app_nil_r in H0.
    unfold check_err. rewrite H0. cbn [Z.eqb negb NC_NOERR].
    rewrite IH.
    + rewrite <- !app_assoc. reflexivity.
    + intros p1 c1 p2 E. rewrite <- app_assoc. cbn [app].
      apply (H (Checked c0 :: p1) c1 p2). now rewrite E.
    + rewrite <- app_assoc. exact Hc.
  - rewrite IH.
    + rewrite <- !app_assoc. reflexivity.
    + intros p1 c1 p2 E. rewrite <- app_assoc. cbn [app].
      apply (H (Unchecked c0 :: p1) c1 p2). now rewrite E.
    + rewrite <- app_assoc. exact Hc.
Qed.

(** Either every checked call passes or there is a first one that does
    not. *)
Lemma run_steps_cases (lib : nc_library) (steps : list nc_step) :
  forall made,
    (forall pre c post, steps = pre ++ Checked c :: post ->
       lib (made ++ map call_of pre) c = NC_NOERR) \/
    (exists pre c post,
       steps = pre ++ Checked c :: post /\
       (forall p1 c1 p2, pre = p1 ++ Checked c1 :: p2 ->
          lib (made ++ map call_of p1) c1 = NC_NOERR) /\
       lib (made ++ map call_of pre) c <> NC_NOERR).
Proof.
  induction steps as [|st steps IH]; intros made.
  - left. intros [|? ?] c post E; discriminate.
  - assert (Hnext : forall c0, call_of st = c0 ->
      (forall pre c post, steps = pre ++ Checked c :: post ->
         lib (made ++ c0 :: map call_of pre) c = NC_NOERR) \/
      (exists pre c post,
         steps = pre ++ Checked c :: post /\
         (forall p1 c1 p2, pre = p1 ++ Checked c1 :: p2 ->
            lib (made ++ c0 :: map call_of p1) c1 = NC_NOERR) /\
         lib (made ++ c0 :: map call_of pre) c <> NC_NOERR)).
    { intros c0 _. destruct (IH (made ++ [c0])) as [H|(pre & c & post & E & H & Hc)].
      - left. intros pre c post E. specialize (H pre c post E).
        now rewrite <- app_assoc in H.
      - right. exists pre, c, post. split; [exact E|]. split.
        + intros p1 c1 p2 E1. specialize (H p1 c1 p2 E1). now rewrite <- app_assoc in H.
        + now rewrite <- app_assoc in Hc. }
    assert (Hlift : forall c0, call_of st = c0 ->
      (st = Unchecked c0 \/ lib made c0 = NC_NOERR) ->
      (forall pre c post, st :: steps = pre ++ Checked c :: post ->
         lib (made ++ map call_of pre) c = NC_NOERR) \/
      (exists pre c post,
         st :: steps = pre ++ Checked c :: post /\
         (forall p1 c1 p2, pre = p1 ++ Checked c1 :: p2 ->
            lib (made ++ map call_of p1) c1 = NC_NOERR) /\
         lib (made ++ map call_of pre) c <> NC_NOERR)).
    { intros c0 Hc0 Hst. destruct (Hnext c0 Hc0) as [H|(pre & c & post & E & H & Hc)].
      - left. intros [|st' pre] c post E; cbn [app] in E.
        + injection E as E1 E2. cbn [map]. rewrite app_nil_r.
          destruct Hst as [Hst|Hst]; [congruence|].
          rewrite E1 in Hc0. cbn [call_of] in Hc0. now subst c0.
        + injection E as E1 E2. subst st'. cbn [map]. rewrite Hc0.
          apply (H pre c post E2).
      - right. exists (st :: pre), c, post. split; [now rewrite E|]. split.
        + intros [|st' p1] c1 p2 E1; cbn [app] in E1.
          * injection E1 as E1 E2. cbn [map]. rewrite app_nil_r.
            destruct Hst as [Hst|Hst]; [congruence|].
            rewrite E1 in Hc0. cbn [call_of] in Hc0. now subst c0.
          * injection E1 as E1 E2. subst st'. cbn [map]. rewrite Hc0.
            apply (H p1 c1 p2 E2).
        + cbn [map]. now rewrite Hc0. }
    destruct st as [c0|c0].
    + destruct (Z.eq_dec (lib made c0) NC_NOERR) as [E0|E0].
      * apply (Hlift c0 eq_refl). now right.
      * right. exists [], c0, steps. split; [reflexivity|]. split.
        -- intros [|? ?] c1 p2 E; discriminate.
        -- cbn [map]. now rewrite app_nil_r.
    + apply (Hlift c0 eq_refl). now left.
Qed.

(** X11. The status of the 24 calls that set the units ["km^3"] and
    ["(unitless)"] is never looked at: if each call that is followed by
    [check_err] returns [NC_NOERR] when it is made, [mat2nc] returns 0,
    writes no diagnostic and has made all its 98 library calls in the
    order of the source, whatever the library returned for the others. *)
Theorem X11_mat2nc_ignores_unchecked_calls (lib : nc_library) (outfilename : string)
    (md : metadata) (d : dataset) (rgn_garbage basin_garbage : iarray) :
  (forall pre c post,
     mat2nc_steps outfilename md d rgn_garbage basin_garbage = pre ++ Checked c :: post ->
     lib (map call_of pre) c = NC_NOERR) ->
  mat2nc lib outfilename md d rgn_garbage basin_garbage =
    (Returns 0, [],
     map call_of (mat2nc_steps outfilename md d rgn_garbage basin_garbage)) /\
  List.length (map call_of (mat2nc_steps outfilename md d rgn_garbage basin_garbage))
    = 98%nat /\
  List.length (filter (fun st => match st with Unchecked _ => true | _ => false end)
                 (mat2nc_steps outfilename md d rgn_garbage basin_garbage)) = 24%nat.
Proof.
  intros H. split; [|split; reflexivity].
  unfold mat2nc. rewrite run_steps_pass; [reflexivity|].
  intros pre c post E. cbn [app]. now apply (H pre c post).
Qed.

Lemma checked_in (steps pre post : list nc_step) (c : nc_call) :
  steps = pre ++ Checked c :: post -> In (Checked c) steps.
Proof. intros ->. apply in_or_app. right. now left. Qed.

Lemma X11_mat2nc_ignores_unchecked_calls_witness :
  mat2nc nc_units_fail "out.nc" no_metadata
    {| grids := fun _ => static_grid; pop := zero_table;
       btables := fun _ => static_floats; rtables := fun _ => static_floats |}
    (fun _ => 0) (fun _ => 0) =
    (Returns 0, [],
     map call_of (mat2nc_steps "out.nc" no_metadata
       {| grids := fun _ => static_grid; pop := zero_table;
          btables := fun _ => static_floats; rtables := fun _ => static_floats |}
       (fun _ => 0) (fun _ => 0))) /\
  List.length (map call_of (mat2nc_steps "out.nc" no_metadata
       {| grids := fun _ => static_grid; pop := zero_table;
          btables := fun _ => static_floats; rtables := fun _ => static_floats |}
       (fun _ => 0) (fun _ => 0))) = 98%nat /\
  List.length (filter (fun st => match st with Unchecked _ => true | _ => false end)
                 (mat2nc_steps "out.nc" no_metadata
       {| grids := fun _ => static_grid; pop := zero_table;
          btables := fun _ => static_floats; rtables := fun _ => static_floats |}
       (fun _ => 0) (fun _ => 0))) = 24%nat.
Proof.
  apply (X11_mat2nc_ignores_unchecked_calls nc_units_fail "out.nc" no_metadata
           {| grids := fun _ => static_grid; pop := zero_table;
              btables := fun _ => static_floats; rtables := fun _ => static_floats |}
           (fun _ => 0) (fun _ => 0)).
  intros pre c post E. apply checked_in in E. unfold mat2nc_steps in E.
  repeat (destruct E as [E|E];
          [first [discriminate E | injection E as <-; reflexivity]|]).
  destruct E.
Defined.

(** X12. [mat2nc] stops at the first checked call for which the library
    reports an error: the process exits with status 1 after one
    diagnostic that carries the library's status, the calls made are
    those of the source up to and including the failing one, and no later
    call is made; in particular the archive is not closed unless the
    failing call is [nc_close] itself. *)
Theorem X12_mat2nc_stops_at_first_failure (lib : nc_library) (outfilename : string)
    (md : metadata) (d : dataset) (rgn_garbage basin_garbage : iarray)
    (pre post : list nc_step) (c : nc_call) :
  mat2nc_steps outfilename md d rgn_garbage basin_garbage = pre ++ Checked c :: post ->
  (forall p1 c1 p2, pre = p1 ++ Checked c1 :: p2 ->
     lib (map call_of p1) c1 = NC_NOERR) ->
  lib (map call_of pre) c <> NC_NOERR ->
  mat2nc lib outfilename md d rgn_garbage basin_garbage =
    (Exits 1, [Nc_error (lib (map call_of pre) c)], map call_of pre ++ [c]) /\
  (post <> [] -> ~ In nc_close (map call_of pre ++ [c])).
Proof.
  intros E Hpre Hc. split.
  - unfold mat2nc. rewrite E.
    rewrite run_steps_stop; [reflexivity | | exact Hc].
    intros p1 c1 p2 E1. cbn [app]. now apply (Hpre p1 c1 p2).
  - intros Hpost Hin.
    assert (Hlast : exists front, pre ++ Checked c :: post = front ++ [Checked nc_close]).
    { rewrite <- E.
      exists (removelast (mat2nc_steps outfilename md d rgn_garbage basin_garbage)).
      reflexivity. }
    destruct Hlast as (front & Hfront).
    assert (Hno : ~ In nc_close (map call_of front)).
    { assert (Hf : front = removelast (mat2nc_steps outfilename md d rgn_garbage
                                         basin_garbage)).
      { rewrite E, Hfront. now rewrite removelast_last. }
      rewrite Hf. unfold mat2nc_steps. cbn [removelast map call_of].
      intros H. repeat (destruct H as [H|H]; [discriminate H|]). destruct H. }
    destruct (exists_last Hpost) as (post' & lst & ->).
    replace (pre ++ Checked c :: post' ++ [lst])
      with ((pre ++ Checked c :: post') ++ [lst]) in Hfront
      by (now rewrite <- app_assoc).
    apply app_inj_tail in Hfront as [Hfront _]. subst front.
    apply Hno. rewrite map_app. cbn [map call_of].
    apply in_app_or in Hin as [Hin|[<-|[]]].
    + apply in_or_app. now left.
    + apply in_or_app. right. now left.
Qed.

Lemma X12_mat2nc_stops_at_first_failure_witness :
  mat2nc nc_close_fails "out.nc" no_metadata
    {| grids := fun _ => static_grid; pop := zero_table;
       btables := fun _ => static_floats; rtables := fun _ => static_floats |}
    (fun _ => 0) (fun _ => 0) =
    (Exits 1,
     [Nc_error (nc_close_fails
        (map call_of (removelast (mat2nc_steps "out.nc" no_metadata
           {| grids := fun _ => static_grid; pop := zero_table;
              btables := fun _ => static_floats; rtables := fun _ => static_floats |}
           (fun _ => 0) (fun _ => 0)))) nc_close)],
     map call_of (removelast (mat2nc_steps "out.nc" no_metadata
           {| grids := fun _ => static_grid; pop := zero_table;
              btables := fun _ => static_floats; rtables := fun _ => static_floats |}
           (fun _ => 0) (fun _ => 0))) ++ [nc_close]) /\
  (@nil nc_step <> [] ->
   ~ In nc_close
       (map call_of (removelast (mat2nc_steps "out.nc" no_metadata
           {| grids := fun _ => static_grid; pop := zero_table;
              btables := fun _ => static_floats; rtables := fun _ => static_floats |}
           (fun _ => 0) (fun _ => 0))) ++ [nc_close])).
Proof.
  apply (X12_mat2nc_stops_at_first_failure nc_close_fails "out.nc" no_metadata
           {| grids := fun _ => static_grid; pop := zero_table;
              btables := fun _ => static_floats; rtables := fun _ => static_floats |}
           (fun _ => 0) (fun _ => 0)).
  - reflexivity.
  - intros p1 c1 p2 E. apply checked_in in E. unfold mat2nc_steps in E.
    cbn [removelast] in E.
    repeat (destruct E as [E|E];
            [first [discriminate E | injection E as <-; reflexivity]|]).
    destruct E.
  - discriminate.
Defined.

(** X13. The calls of [mat2nc] keep to the order the library asks for
    and are consistent with one another, whatever is written: the archive
    is created first and closed last; dimensions, variables and attributes
    are all defined before [nc_enddef] and all data are written after it;
    the 30 variables have distinct names, and each is written exactly
    once, in the order of definition, by the call for its type; every
    dimension a variable uses has been defined; every text attribute
    belongs to a variable that is defined and the length passed with it is
    the length of its text. *)
Theorem X13_mat2nc_calls_well_formed (outfilename : string) (md : metadata)
    (d : dataset) (rgn_garbage basin_garbage : iarray) :
  let calls := map call_of (mat2nc_steps outfilename md d rgn_garbage basin_garbage) in
  (exists defs puts,
     calls = nc_create outfilename :: defs ++ nc_enddef :: puts ++ [nc_close] /\
     forallb in_define_mode defs = true /\
     forallb in_data_mode puts = true) /\
  written_vars calls = defined_vars calls /\
  List.length (defined_vars calls) = 30%nat /\
  distinct (map fst (defined_vars calls)) = true /\
  forallb (fun dim => mem dim (map fst (defined_dims calls))) (used_dims calls) = true /\
  forallb (fun '(var, _, len, text) =>
             mem var (map fst (defined_vars calls)) &&
             (len =? Z.of_nat (String.length text)))
          (text_atts calls) = true.
Proof.
  cbv zeta. split.
  - exists (firstn 65 (tl (map call_of (mat2nc_steps outfilename md d rgn_garbage
                                          basin_garbage)))),
           (firstn 30 (skipn 67 (map call_of (mat2nc_steps outfilename md d rgn_garbage
                                                basin_garbage)))).
    split; [reflexivity|]. split; reflexivity.
  - split; [reflexivity|]. split; [reflexivity|]. split; [reflexivity|].
    split; reflexivity.
Qed.

(** ** The run as a whole *)

(** X14. The third number of the configuration, the per-capita GDP, has
    to be there but goes nowhere: the block that would write it as a
    global attribute is compiled out, so the calls of [mat2nc], and with
    them everything [main] does once the three numbers are read, are the
    same for two metadata records that agree on forcing and population. *)
Theorem X14_pcgdp_is_read_and_dropped (strtod : stream -> option (double * stream))
    (w : world) (lib : nc_library) (outfilename : string) (md1 md2 : metadata)
    (d : dataset) (rgn_garbage basin_garbage : iarray) (s : main_state) :
  global_forcing md1 = global_forcing md2 ->
  global_pop md1 = global_pop md2 ->
  mat2nc lib outfilename md1 d rgn_garbage basin_garbage =
  mat2nc lib outfilename md2 d rgn_garbage basin_garbage /\
  main_files strtod w md1 s = main_files strtod w md2 s /\
  forall v, ~ In (nc_put_att_float "pcGDP" v)
                 (map call_of (mat2nc_steps outfilename md1 d rgn_garbage basin_garbage)).
Proof.
  destruct md1 as [f1 p1 g1], md2 as [f2 p2 g2]. cbn [global_forcing global_pop].
  intros <- <-. split; [reflexivity|]. split; [reflexivity|].
  intros v H. unfold mat2nc_steps in H. cbn [map call_of] in H.
  repeat (destruct H as [H|H]; [discriminate H|]). destruct H.
Qed.

Lemma X14_pcgdp_is_read_and_dropped_witness :
  mat2nc nc_ok "out.nc"
    {| global_forcing := c_float 4.5; global_pop := c_float 9000;
       global_pcgdp := c_float 12.5 |}
    {| grids := fun _ => static_grid; pop := zero_table;
       btables := fun _ => static_floats; rtables := fun _ => static_floats |}
    (fun _ => 0) (fun _ => 0) =
  mat2nc nc_ok "out.nc"
    {| global_forcing := c_float 4.5; global_pop := c_float 9000;
       global_pcgdp := c_float 77 |}
    {| grids := fun _ => static_grid; pop := zero_table;
       btables := fun _ => static_floats; rtables := fun _ => static_floats |}
    (fun _ => 0) (fun _ => 0).
Proof.
  apply (X14_pcgdp_is_read_and_dropped strtod_dec world_good nc_ok "out.nc"
           {| global_forcing := c_float 4.5; global_pop := c_float 9000;
              global_pcgdp := c_float 12.5 |}
           {| global_forcing := c_float 4.5; global_pop := c_float 9000;
              global_pcgdp := c_float 77 |}
           {| grids := fun _ => static_grid; pop := zero_table;
              btables := fun _ => static_floats; rtables := fun _ => static_floats |}
           (fun _ => 0) (fun _ => 0)
           {| cfg := []; log := []; filename := ""%string; nskipyr := 0;
              data := (fun _ => static_grid); popdata := zero_table;
              bdata := (fun _ => static_floats); rdata := (fun _ => static_floats) |}).
  - reflexivity.
  - reflexivity.
Defined.

Section ArchiveProofs.

Variable strtod : stream -> option (double * stream).
Variable w : world.

Lemma stop_shape (s : main_state) (st : Z) :
  ctl_holds any_state (run_shape w) (if negb (st =? 0) then Return (leave s st) else Continue s).
Proof.
  destruct (Z.eqb_spec st 0); cbn [negb ctl_holds]; [exact I|].
  left. now split.
Qed.

Lemma next_file_name_shape (s : main_state) :
  ctl_holds any_state (run_shape w) (next_file_name s).
Proof.
  unfold next_file_name. apply defined_holds.
  intros [[[st fn] c] e] _. destruct (negb (st =? 0)); cbn [ctl_holds]; [|exact I].
  left. split; [discriminate | reflexivity].
Qed.

Lemma main_grid_shape (i : Z) (s : main_state) :
  ctl_holds any_state (run_shape w) (main_grid w i s).
Proof.
  unfold main_grid. apply (cbind_holds any_state); [apply next_file_name_shape|].
  intros t _. apply defined_holds. intros r _. apply stop_shape.
Qed.

Lemma main_basin_shape (i : Z) (s : main_state) :
  ctl_holds any_state (run_shape w) (main_basin w i s).
Proof.
  unfold main_basin. apply (cbind_holds any_state); [apply next_file_name_shape|].
  intros t _. apply defined_holds. intros r _. apply stop_shape.
Qed.

Lemma main_region_shape (i : Z) (s : main_state) :
  ctl_holds any_state (run_shape w) (main_region w i s).
Proof.
  unfold main_region. apply (cbind_holds any_state); [apply next_file_name_shape|].
  intros t _. apply defined_holds. intros r _. apply stop_shape.
Qed.

Lemma mat2nc_shape (outfilename : string) (md : metadata) (d : dataset)
    (l : list diag) :
  let '(e, dg, calls) :=
    mat2nc (nc_lib w) outfilename md d (rgn_data0 w) (basin_data0 w) in
  run_shape w {| exit_status := match e with Returns stat => stat | Exits status => status end;
           stderr := l ++ dg; archive := calls |}.
Proof.
  unfold mat2nc.
  destruct (run_steps_cases (nc_lib w)
              (mat2nc_steps outfilename md d (rgn_data0 w) (basin_data0 w)) [])
    as [H|(pre & c & post & E & H & Hc)].
  - rewrite (run_steps_pass _ _ _ H). right. left. cbn [exit_status archive app].
    split; [reflexivity|]. now exists outfilename, md, d.
  - rewrite E, (run_steps_stop _ _ _ _ _ H Hc). right. right.
    cbn [exit_status archive stderr app] in *.
    split; [reflexivity|]. exists outfilename, md, d, pre, c, post.
    split; [exact E|]. split; [reflexivity|]. split; [exact Hc|]. now exists l.
Qed.

Lemma main_files_shape (md : metadata) (s : main_state) :
  ctl_holds any_state (run_shape w) (main_files strtod w md s).
Proof.
  unfold main_files.
  apply (cbind_holds any_state); [apply next_file_name_shape|]. intros s0 _. cbv zeta.
  apply (cbind_holds any_state); [apply next_file_name_shape|]. intros s1 _.
  apply (cbind_holds any_state); [apply defined_holds; intros r _; exact I|]. intros s2 _.
  apply (cbind_holds any_state);
    [apply for_ctl_holds; [exact I | intros j t _ _; apply main_grid_shape]|].
  intros s3 _.
  apply (cbind_holds any_state); [apply next_file_name_shape|]. intros s4 _.
  apply (cbind_holds any_state); [apply defined_holds; intros r _; apply stop_shape|].
  intros s5 _.
  apply (cbind_holds any_state);
    [apply for_ctl_holds; [exact I | intros j t _ _; apply main_basin_shape]|].
  intros s6 _.
  apply (cbind_holds any_state);
    [apply for_ctl_holds; [exact I | intros j t _ _; apply main_region_shape]|].
  intros s7 _.
  pose proof (mat2nc_shape (filename s0) md
                {| grids := data s7; pop := popdata s7; btables := bdata s7;
                   rtables := rdata s7 |} (log s7)) as H.
  destruct (mat2nc _ _ _ _ _ _) as [[e dg] calls]. exact H.
Qed.

Lemma main_shape (argc : Z) (argv : list string) (r : run) :
  main strtod w argc argv = Some r -> run_shape w r.
Proof.
  unfold main.
  assert (Hstart : forall infile e,
    (let '(n1, forcing, infile) := fscanf_f strtod infile (global_forcing (md0 w)) in
     let '(n2, gpop, infile) := fscanf_f strtod infile (global_pop (md0 w)) in
     let '(n3, pcgdp, infile) := fscanf_f strtod infile (global_pcgdp (md0 w)) in
     let nread := n1 + n2 + n3 in
     if negb (nread =? 3) then
       Some {| exit_status := 3; stderr := e ++ [Failed_to_read_global_attributes];
               archive := [] |}
     else
       match main_files strtod w
               {| global_forcing := forcing; global_pop := gpop; global_pcgdp := pcgdp |}
               {| cfg := infile; log := e; filename := filename0 w; nskipyr := 0;
                  data := (fun _ => static_grid); popdata := popdata0 w;
                  bdata := (fun _ => static_floats);
                  rdata := (fun _ => static_floats) |} with
       | Return r => Some r
       | Continue _ | Undefined => None
       end) = Some r -> run_shape w r).
  { intros infile e.
    destruct (fscanf_f strtod infile _) as [[n1 forcing] in1].
    destruct (fscanf_f strtod in1 _) as [[n2 gpop] in2].
    destruct (fscanf_f strtod in2 _) as [[n3 pcgdp] in3].
    cbv zeta. destruct (negb _).
    - intros [= <-]. left. split; [discriminate | reflexivity].
    - match goal with |- context [main_files strtod w ?md ?s] =>
        pose proof (main_files_shape md s) as H;
        destruct (main_files strtod w md s) end; try discriminate.
      intros [= <-]. exact H. }
  destruct (argc =? 2).
  - destruct (is_dash _).
    + apply Hstart.
    + destruct (text_files w _).
      * apply Hstart.
      * intros [= <-]. left. split; [discriminate | reflexivity].
  - intros [= <-]. left. split; [discriminate | reflexivity].
Qed.

End ArchiveProofs.

(** X15. A run leaves the archive in one of three ways. With status 0
    every call of the writer was made, [nc_close] included. With status 1
    after an error of the library, the calls were made up to the first
    checked call that failed and the archive is left as it was then.
    In every other case the status is 1, 2 or 3 and no call was made to
    the library at all: the writer is not entered before every input has
    been read. *)
Theorem X15_archive_complete_or_untouched
    (strtod : stream -> option (double * stream)) (w : world)
    (argc : Z) (argv : list string) (r : run) :
  main strtod w argc argv = Some r ->
  archive_left w r.
Proof.
  intros Hmain. unfold archive_left.
  destruct (main_shape strtod w argc argv r Hmain) as [[Hst Har]|[H|H]].
  - right. right. split; [|exact Har].
    destruct (main_ends_well strtod w argc argv r Hmain)
      as [[H0 _]|(pre & d & _ & _ & Hd & Hs)]; [contradiction|].
    rewrite Hs. destruct d; cbn [status_of] in *; auto; contradiction.
  - now left.
  - right. now left.
Qed.

Lemma X15_archive_complete_or_untouched_witness :
  exists r, main strtod_dec world_nc 2 argv_stdin = Some r /\ archive_left world_nc r.
Proof.
  destruct (main strtod_dec world_nc 2 argv_stdin) as [r|] eqn:E.
  - exists r. split; [reflexivity|].
    apply (X15_archive_complete_or_untouched strtod_dec world_nc 2 argv_stdin r E).
  - exfalso.
    assert (H : match main strtod_dec world_nc 2 argv_stdin with
                | Some _ => true
                | None => false
                end = true) by (vm_compute; reflexivity).
    rewrite E in H. discriminate H.
Defined.

Lemma fscanf_f_count (strtod : stream -> option (double * stream)) (s : stream)
    (x : float) :
  -1 <= fst (fst (fscanf_f strtod s x)) <= 1.
Proof.
  unfold fscanf_f. destruct (skip_ws s) as [|c s1]; [cbn; unfold EOF; lia|].
  destruct (strtod (c :: s1)) as [[v s2]|]; cbn; lia.
Qed.

(** X16. The sum of the three conversion counts cannot hide a failure:
    each count is 1, 0 or [EOF], so the sum is 3 only when each of the
    three numbers was read. When one of them is missing or is not a
    number, whichever it is, the run ends with status 3 after the
    diagnostic on the global attributes, and nothing else is read or
    written. *)
Theorem X16_header_needs_three_numbers (strtod : stream -> option (double * stream))
    (w : world) (prog arg : string)
    (n1 n2 n3 : Z) (f1 f2 f3 : float) (s1 s2 s3 : stream) :
  is_dash arg = true ->
  fscanf_f strtod (stdin w) (global_forcing (md0 w)) = (n1, f1, s1) ->
  fscanf_f strtod s1 (global_pop (md0 w)) = (n2, f2, s2) ->
  fscanf_f strtod s2 (global_pcgdp (md0 w)) = (n3, f3, s3) ->
  (n1 =? 1) && (n2 =? 1) && (n3 =? 1) = false ->
  main strtod w 2 [prog; arg] =
  Some {| exit_status := 3;
          stderr := [Reading_config_from_stdin; Failed_to_read_global_attributes];
          archive := [] |}.
Proof.
  intros Hd H1 H2 H3 Hn. unfold main. cbn [Z.eqb Pos.eqb nth]. rewrite Hd.
  pose proof (fscanf_f_count strtod (stdin w) (global_forcing (md0 w))) as C1.
  pose proof (fscanf_f_count strtod s1 (global_pop (md0 w))) as C2.
  pose proof (fscanf_f_count strtod s2 (global_pcgdp (md0 w))) as C3.
  rewrite H1 in C1 |- *. rewrite H2 in C2 |- *. rewrite H3 in C3 |- *.
  cbn [fst] in C1, C2, C3. cbv zeta.
  replace (n1 + n2 + n3 =? 3) with false; [reflexivity|].
  symmetry. revert Hn. zcases.
Qed.

Lemma X16_header_needs_three_numbers_witness :
  main strtod_dec world_two_numbers 2 ["mat2nc"; "-"]%string =
  Some {| exit_status := 3;
          stderr := [Reading_config_from_stdin; Failed_to_read_global_attributes];
          archive := [] |}.
Proof.
  apply (X16_header_needs_three_numbers strtod_dec world_two_numbers
           "mat2nc" "-" 1 1 (-1) (c_float 4.5) (c_float 9000) F32.zero
           (text " 9000") [] []).
  - reflexivity.
  - vm_compute. reflexivity.
  - vm_compute. reflexivity.
  - vm_compute. reflexivity.
  - reflexivity.
Defined.

(** ** A population file that ends early *)

(** X17. When the population file ends (but for white space) after
    fewer than 63 lines, [read_pop_data] returns 1 with the diagnostic
    that names the first missing region and year 0. The regions read
    before keep their values, and cell [0] of the missing region is
    overwritten with the rounding [g] of what the temporary still holds:
    the last field of the line before or, in an empty file, whatever the
    variable held on entry. *)
Theorem X17_read_pop_data_short_file
    (strtod : stream -> option (double * stream)) (fs : txt_fs) (tmp : double)
    (filename : string) (data : itable) (good : list pop_line) (blank : stream)
    (g : Z) :
  fs filename = Some (List.concat (map line_text good) ++ blank) ->
  Forall (line_ok strtod) good ->
  forallb isspace blank = true ->
  (List.length good < 63)%nat ->
  int_of_round (tmp_after good tmp) = Some g ->
  exists res,
    read_pop_data strtod fs tmp filename data = Some res /\
    stat res = 1 /\
    errs res = [Error_reading_data_rgn filename (Z.of_nat (List.length good)) 0] /\
    forall y r,
      out res y r =
      if in_range 0 (Z.of_nat (List.length good)) r && in_range 0 NYEAR y
      then year_int (years_of good r) y
      else if (r =? Z.of_nat (List.length good)) && (y =? 0) then g
      else data y r.
Proof.
  intros Hfs Hgood Hblank Hlen Hg.
  unfold read_pop_data. rewrite Hfs.
  destruct (pop_lines_run strtod filename good 0
              {| datafile_of := List.concat (map line_text good) ++ blank;
                 tmp_of := tmp; popdata_of := data |} blank Hgood eq_refl)
    as (s1 & Hrun1 & Hd1 & Htmp1 & Hdata1).
  cbn [tmp_of popdata_of] in Htmp1, Hdata1.
  rewrite Z.add_0_l in Hrun1, Hdata1.
  set (rg := Z.of_nat (List.length good)) in *.
  assert (Hrgn : pop_rgn strtod filename rg s1 =
                 Return (ret 1 [Error_reading_data_rgn filename rg 0]
                           (upd2 (popdata_of s1) 0 rg g))).
  { unfold pop_rgn, fscanf_skip2. rewrite Hd1.
    rewrite (proj2 (skip_ws_all blank) Hblank). cbv beta iota.
    rewrite for_ctl_first by (unfold NYEAR; lia).
    unfold pop_year at 1, fscanf_comma_lf. cbn [datafile_of tmp_of popdata_of].
    rewrite Htmp1, Hg. reflexivity. }
  rewrite (for_ctl_return 0 rg NRGN _ _ s1 _ ltac:(unfold rg, NRGN; lia) Hrun1 Hrgn).
  eexists. split; [reflexivity|]. cbn [ret stat errs out].
  split; [reflexivity|]. split; [reflexivity|].
  intros y r. unfold upd2. rewrite Hdata1. rewrite Z.sub_0_r. unfold in_range, NYEAR.
  destruct (Z.eqb_spec r rg), (Z.eqb_spec y 0), (Z.leb_spec 0 r), (Z.ltb_spec r rg),
    (Z.leb_spec 0 y), (Z.ltb_spec y 18);
    cbn [andb]; try reflexivity; try lia.
Qed.

Lemma X17_read_pop_data_short_file_witness :
  exists res,
    read_pop_data strtod_dec (one_text "pop.csv" short_pop) S754_nan "pop.csv" zero_table
      = Some res /\
    stat res = 1 /\
    errs res = [Error_reading_data_rgn "pop.csv"
                  (Z.of_nat (List.length (repeat sample_line 5))) 0] /\
    forall y r,
      out res y r =
      if in_range 0 (Z.of_nat (List.length (repeat sample_line 5))) r &&
         in_range 0 NYEAR y
      then year_int (years_of (repeat sample_line 5) r) y
      else if (r =? Z.of_nat (List.length (repeat sample_line 5))) && (y =? 0)
      then 1234
      else zero_table y r.
Proof.
  apply (X17_read_pop_data_short_file strtod_dec (one_text "pop.csv" short_pop)
           S754_nan "pop.csv" zero_table (repeat sample_line 5) [newline] 1234).
  - reflexivity.
  - apply Forall_repeat, sample_line_ok.
  - reflexivity.
  - cbn. lia.
  - vm_compute. reflexivity.
Defined.

(** ** From the configuration to the archive *)

Lemma read_file_name_short (ws word rest : stream) (fn : string) :
  forallb isspace ws = true ->
  word <> [] ->
  forallb (fun c => negb (isspace c)) word = true ->
  Z.of_nat (List.length word) < MAXLEN ->
  ends_name rest ->
  read_file_name (ws ++ word ++ rest) fn =
  Some (0, string_of_list_ascii word, rest, []).
Proof.
  intros Hws Hne Hw Hlen Hr. unfold read_file_name, fscanf_s.
  rewrite (skip_ws_spaces ws _ Hws).
  destruct word as [|c word]; [congruence|].
  pose proof (take_word_whole (c :: word) rest Hw Hr) as Htw.
  cbn [forallb] in Hw. apply andb_prop in Hw as [Hc _].
  cbn [app skip_ws] in *. destruct (isspace c); [discriminate|].
  rewrite Htw. cbn [Z.eqb Pos.eqb].
  replace (_ <? MAXLEN) with true by (symmetry; zcases). reflexivity.
Qed.

Lemma skipn_nth {A : Type} (d : A) (l : list A) :
  forall n, (n < List.length l)%nat -> skipn n l = nth n l d :: skipn (Datatypes.S n) l.
Proof.
  induction l as [|a l IH]; intros [|n] H; cbn [List.length] in H; try lia.
  - reflexivity.
  - cbn [skipn nth]. rewrite IH by lia. reflexivity.
Qed.

Lemma mat2nc_ext (lib : nc_library) (outfilename : string) (md : metadata)
    (d1 d2 : dataset) (rgn_garbage basin_garbage : iarray) :
  (forall i, 0 <= i <= 7 -> grids d1 i = grids d2 i) ->
  pop d1 = pop d2 ->
  (forall i, 0 <= i <= 7 -> btables d1 i = btables d2 i) ->
  (forall i, 0 <= i <= 7 -> rtables d1 i = rtables d2 i) ->
  mat2nc lib outfilename md d1 rgn_garbage basin_garbage =
  mat2nc lib outfilename md d2 rgn_garbage basin_garbage.
Proof.
  intros Hg Hp Hb Hr. unfold mat2nc, mat2nc_steps.
  rewrite Hp.
  rewrite (Hg 0), (Hg 1), (Hg 2), (Hg 3), (Hg 4), (Hg 5), (Hg 6), (Hg 7) by lia.
  rewrite (Hb 0), (Hb 1), (Hb 2), (Hb 3), (Hb 4), (Hb 5), (Hb 6), (Hb 7) by lia.
  rewrite (Hr 0), (Hr 1), (Hr 2), (Hr 3), (Hr 4), (Hr 5), (Hr 6), (Hr 7) by lia.
  reflexivity.
Qed.



Lemma stat_0_quiet {A : Type} (r : result A) :
  reader_ends r -> stat r = 0 -> errs r = [].
Proof. intros [[_ H]|(d & H & _)] Hst; [exact H | lia]. Qed.

Lemma before_ext (entries : list (stream * stream)) (tail : stream) (k : Z)
    (L L' : list diag) (G G' : Z -> grid) (P : itable) (B B' R R' : Z -> farray)
    (t : main_state) :
  before entries tail k L G P B R t ->
  L = L' ->
  (forall i, G i = G' i) -> (forall i, B i = B' i) -> (forall i, R i = R' i) ->
  before entries tail k L' G' P B' R' t.
Proof.
  intros (Hc & Hl & Hg & Hp & Hb & Hr) <- EG EB ER. unfold before.
  split; [exact Hc|]. split; [exact Hl|].
  split; [intros i; now rewrite Hg, EG|]. split; [exact Hp|].
  split; intros i; [now rewrite Hb, EB | now rewrite Hr, ER].
Qed.

Section WiringProofs.

Variable strtod : stream -> option (double * stream).
Variable w : world.
Variable entries : list (stream * stream).
Variable tail : stream.

Hypothesis Hok : Forall entry_ok entries.
Hypothesis Htail : ends_name tail.

Lemma entry_at_ok (k : Z) :
  0 <= k < Z.of_nat (List.length entries) -> entry_ok (entry_at entries k).
Proof. intros Hk. unfold entry_at. apply Forall_nth; [exact Hok | lia]. Qed.

Lemma rest_from_step (k : Z) :
  0 <= k < Z.of_nat (List.length entries) ->
  rest_from entries tail k = fst (entry_at entries k)
      ++ snd (entry_at entries k) ++ rest_from entries tail (k + 1).
Proof.
  intros Hk. unfold rest_from, entry_at, names_text.
  rewrite (@skipn_nth (stream * stream) ([], []) entries (Z.to_nat k)) by lia.
  replace (Z.to_nat (k + 1)) with (Datatypes.S (Z.to_nat k)) by lia.
  cbn [map List.concat]. now rewrite <- !app_assoc.
Qed.

Lemma rest_from_end : rest_from entries tail (Z.of_nat (List.length entries)) = tail.
Proof. unfold rest_from. rewrite skipn_all2 by lia. reflexivity. Qed.

Lemma rest_from_ends (k : Z) :
  0 <= k <= Z.of_nat (List.length entries) -> ends_name (rest_from entries tail k).
Proof.
  intros Hk. destruct (Z.eq_dec k (Z.of_nat (List.length entries))) as [->|Hne].
  - rewrite rest_from_end. exact Htail.
  - rewrite rest_from_step by lia.
    destruct (entry_at_ok k ltac:(lia)) as (Hne1 & Hws & _).
    destruct (fst (entry_at entries k)) as [|c ws]; [congruence|].
    cbn [forallb] in Hws. apply andb_prop in Hws as [Hc _]. exact Hc.
Qed.

(** A name that is there is read. *)
Lemma name_step (k : Z) (L : list diag) (G : Z -> grid) (P : itable)
    (B R : Z -> farray) (t : main_state) :
  0 <= k < Z.of_nat (List.length entries) ->
  before entries tail k L G P B R t ->
  exists t',
    next_file_name t = Continue t' /\
    before entries tail (k + 1) L G P B R t' /\
    filename t' = name_at entries k /\
    nskipyr t' = nskipyr t.
Proof.
  intros Hk (Hc & Hl & Hg & Hp & Hb & Hr).
  destruct (entry_at_ok k Hk) as (_ & Hws & Hne & Hw & Hlenw).
  unfold next_file_name. rewrite Hc, (rest_from_step k Hk).
  rewrite (read_file_name_short _ _ _ _ Hws Hne Hw Hlenw
             (rest_from_ends (k + 1) ltac:(lia))).
  cbn [defined Z.eqb negb]. eexists. split; [reflexivity|].
  unfold before, set_name. cbn [cfg log data popdata bdata rdata filename nskipyr].
  rewrite app_nil_r. repeat split; assumption.
Qed.


(** One pass of the grid loop, whatever the reader returns. *)
Lemma main_grid_pass (j : Z) (L : list diag) (G : Z -> grid) (P : itable)
    (B R : Z -> farray) (t : main_state) (r : result grid) :
  2 <= j <= 8 ->
  j < Z.of_nat (List.length entries) ->
  before entries tail j L G P B R t ->
  G (j - 1) = static_grid ->
  nskipyr t = 2 ->
  read_5yr_data (binary_files w) static_floats (name_at entries j) static_grid
    (if j =? 8 then 1 else 2) = Some r ->
  exists t',
    main_grid w j t =
      (if negb (stat r =? 0) then Return (leave t' (stat r)) else Continue t') /\
    before entries tail (j + 1) (L ++ errs r)
      (fun i => if i =? j - 1 then out r else G i) P B R t' /\
    (j + 1 <= 8 -> nskipyr t' = 2).
Proof.
  intros Hj Hlen Hbefore HG Hn Hread.
  destruct (name_step j L _ _ _ _ t ltac:(lia) Hbefore)
    as (t1 & Hrun & (Hc & Hl & Hg & Hp & Hb & Hr) & Hfn & Hn1).
  unfold main_grid. rewrite Hrun. cbn [cbind].
  assert (Hdata : forall t2, data t2 = data t1 -> filename t2 = filename t1 ->
            nskipyr t2 = (if j =? 8 then 1 else 2) ->
            read_5yr_data (binary_files w) static_floats (filename t2)
              (data t2 (j - G_SUPPLY)) (nskipyr t2) = Some r).
  { intros t2 E1 E2 E3. rewrite E1, E2, E3, Hfn, Hg. unfold G_SUPPLY.
    rewrite HG. exact Hread. }
  unfold G_WSI. destruct (Z.eqb_spec j 8) as [E|E].
  - rewrite (Hdata (set_nskipyr t1 1) eq_refl eq_refl eq_refl).
    cbn [defined]. eexists. split; [reflexivity|]. split; [|lia].
    unfold before, set_data, set_nskipyr, G_SUPPLY.
    cbn [cfg log data popdata bdata rdata filename nskipyr].
    rewrite Hl. repeat split; try assumption.
    intros i. now rewrite Hg.
  - rewrite (Hdata t1 eq_refl eq_refl (eq_trans Hn1 Hn)).
    cbn [defined]. eexists. split; [reflexivity|].
    split; [|intros _; cbn [set_data nskipyr]; lia].
    unfold before, set_data, G_SUPPLY.
    cbn [cfg log data popdata bdata rdata filename nskipyr].
    rewrite Hl. repeat split; try assumption.
    intros i. now rewrite Hg.
Qed.

(** One pass of the loop over the basin tables. *)
Lemma main_basin_pass (j : Z) (L : list diag) (G : Z -> grid) (P : itable)
    (B R : Z -> farray) (t : main_state) (r : result farray) :
  10 <= j <= 17 ->
  j < Z.of_nat (List.length entries) ->
  before entries tail j L G P B R t ->
  B (j - 10) = static_floats ->
  read_table_data (binary_files w) (tempdata0 w) (name_at entries j) NBASIN
    static_floats = Some r ->
  exists t',
    main_basin w j t =
      (if negb (stat r =? 0) then Return (leave t' (stat r)) else Continue t') /\
    before entries tail (j + 1) (L ++ errs r) G P
      (fun i => if i =? j - 10 then out r else B i) R t'.
Proof.
  intros Hj Hlen Hbefore HB Hread.
  destruct (name_step j L _ _ _ _ t ltac:(lia) Hbefore)
    as (t1 & Hrun & (Hc & Hl & Hg & Hp & Hb & Hr) & Hfn & _).
  unfold main_basin. rewrite Hrun. cbn [cbind].
  rewrite Hfn, Hb. unfold B_SUPPLY. rewrite HB, Hread. cbn [defined].
  eexists. split; [reflexivity|].
  unfold before, set_bdata. cbn [cfg log data popdata bdata rdata].
  rewrite Hl. repeat split; try assumption.
  intros i. now rewrite Hb.
Qed.

(** One pass of the loop over the region tables. *)
Lemma main_region_pass (j : Z) (L : list diag) (G : Z -> grid) (P : itable)
    (B R : Z -> farray) (t : main_state) (r : result farray) :
  18 <= j <= 25 ->
  j < Z.of_nat (List.length entries) ->
  before entries tail j L G P B R t ->
  R (j - 18) = static_floats ->
  read_table_data (binary_files w) (tempdata0 w) (name_at entries j) NRGN
    static_floats = Some r ->
  exists t',
    main_region w j t =
      (if negb (stat r =? 0) then Return (leave t' (stat r)) else Continue t') /\
    before entries tail (j + 1) (L ++ errs r) G P B
      (fun i => if i =? j - 18 then out r else R i) t'.
Proof.
  intros Hj Hlen Hbefore HR Hread.
  destruct (name_step j L _ _ _ _ t ltac:(lia) Hbefore)
    as (t1 & Hrun & (Hc & Hl & Hg & Hp & Hb & Hr) & Hfn & _).
  unfold main_region. rewrite Hrun. cbn [cbind].
  rewrite Hfn, Hr. unfold R_SUPPLY. rewrite HR, Hread. cbn [defined].
  eexists. split; [reflexivity|].
  unfold before, set_rdata. cbn [cfg log data popdata bdata rdata].
  rewrite Hl. repeat split; try assumption.
  intros i. now rewrite Hr.
Qed.

Variable rd : Z -> result grid.
Variable p : result itable.
Variable tb : Z -> result farray.

Lemma grids_read_next (j i : Z) :
  1 <= j ->
  (if i =? j - 1 then out (rd j) else grids_read rd j i) = grids_read rd (j + 1) i.
Proof.
  intros Hj. unfold grids_read, in_range.
  destruct (Z.eqb_spec i (j - 1)) as [->|Hi].
  - replace (j - 1 + 1) with j by lia.
    now replace ((0 <=? j - 1) && (j - 1 <? j + 1 - 1)) with true by (symmetry; zcases).
  - now replace ((0 <=? i) && (i <? j + 1 - 1)) with ((0 <=? i) && (i <? j - 1))
      by zcases.
Qed.

Lemma tables_read_next (first j i : Z) :
  first <= j ->
  (if i =? j - first then out (tb j) else tables_read tb first j i)
  = tables_read tb first (j + 1) i.
Proof.
  intros Hj. unfold tables_read, in_range.
  destruct (Z.eqb_spec i (j - first)) as [->|Hi].
  - replace (j - first + first) with j by lia.
    now replace ((0 <=? j - first) && (j - first <? j + 1 - first)) with true
      by (symmetry; zcases).
  - now replace ((0 <=? i) && (i <? j + 1 - first))
      with ((0 <=? i) && (i <? j - first)) by zcases.
Qed.

Lemma grids_read_later (j : Z) : grids_read rd j (j - 1) = static_grid.
Proof.
  unfold grids_read, in_range.
  now replace ((0 <=? j - 1) && (j - 1 <? j - 1)) with false by (symmetry; zcases).
Qed.

Lemma tables_read_later (first j : Z) : tables_read tb first j (j - first) = static_floats.
Proof.
  unfold tables_read, in_range.
  now replace ((0 <=? j - first) && (j - first <? j - first)) with false
    by (symmetry; zcases).
Qed.

Lemma tables_read_none (first i : Z) : tables_read tb first first i = static_floats.
Proof.
  unfold tables_read, in_range.
  now replace ((0 <=? i) && (i <? first - first)) with false by (symmetry; zcases).
Qed.

(** The grid loop up to name [j], when the readers before it return 0. *)
Lemma grid_loop (j : Z) (L : list diag) (P : itable) (B R : Z -> farray)
    (t : main_state) :
  2 <= j <= 9 ->
  j <= Z.of_nat (List.length entries) ->
  (forall i, 2 <= i <= 8 -> i < j ->
     read_5yr_data (binary_files w) static_floats (name_at entries i) static_grid
       (if i =? 8 then 1 else 2) = Some (rd i) /\
     stat (rd i) = 0) ->
  before entries tail 2 L (grids_read rd 2) P B R t ->
  nskipyr t = 2 ->
  exists t',
    for_ctl 2 j (main_grid w) t = Continue t' /\
    before entries tail j L (grids_read rd j) P B R t' /\
    (j <= 8 -> nskipyr t' = 2).
Proof.
  intros Hj Hlen Hread H2 Hn.
  destruct (for_ctl_ind
              (fun i s => before entries tail i L (grids_read rd i) P B R s /\
                          (i <= 8 -> nskipyr s = 2))
              2 j (main_grid w) t ltac:(lia) (conj H2 (fun _ => Hn)))
    as (t' & Hrun & Hb & Hn'); [|now exists t'].
  intros i s Hi (Hbefore & Hns).
  destruct (Hread i ltac:(lia) ltac:(lia)) as (Hr & Hst).
  destruct (main_grid_pass i L _ P B R s (rd i) ltac:(lia) ltac:(lia) Hbefore
              (grids_read_later i) (Hns ltac:(lia)) Hr) as (s' & Hs' & Hb' & Hn').
  rewrite Hst in Hs'. cbn [Z.eqb negb] in Hs'.
  exists s'. split; [exact Hs'|]. split; [|exact Hn'].
  apply (before_ext _ _ _ _ _ _ _ _ _ _ _ _ _ Hb').
  - rewrite (stat_0_quiet _ (read_5yr_data_ends _ _ _ _ _ _ Hr) Hst). apply app_nil_r.
  - intros k. apply grids_read_next. lia.
  - reflexivity.
  - reflexivity.
Qed.

Lemma basin_loop (j : Z) (L : list diag) (G : Z -> grid) (P : itable)
    (R : Z -> farray) (t : main_state) :
  10 <= j <= 18 ->
  j <= Z.of_nat (List.length entries) ->
  (forall i, 10 <= i <= 17 -> i < j ->
     read_table_data (binary_files w) (tempdata0 w) (name_at entries i) NBASIN
       static_floats = Some (tb i) /\
     stat (tb i) = 0) ->
  before entries tail 10 L G P (tables_read tb 10 10) R t ->
  exists t',
    for_ctl 10 j (main_basin w) t = Continue t' /\
    before entries tail j L G P (tables_read tb 10 j) R t'.
Proof.
  intros Hj Hlen Hread H10.
  apply (for_ctl_ind
           (fun i s => before entries tail i L G P (tables_read tb 10 i) R s)
           10 j (main_basin w) t ltac:(lia) H10).
  intros i s Hi Hbefore.
  destruct (Hread i ltac:(lia) ltac:(lia)) as (Hr & Hst).
  destruct (main_basin_pass i L G P _ R s (tb i) ltac:(lia) ltac:(lia) Hbefore
              (tables_read_later 10 i) Hr) as (s' & Hs' & Hb').
  rewrite Hst in Hs'. cbn [Z.eqb negb] in Hs'.
  exists s'. split; [exact Hs'|].
  apply (before_ext _ _ _ _ _ _ _ _ _ _ _ _ _ Hb').
  - rewrite (stat_0_quiet _ (read_table_data_ends _ _ _ _ _ _ Hr) Hst). apply app_nil_r.
  - reflexivity.
  - intros k. apply tables_read_next. lia.
  - reflexivity.
Qed.

Lemma region_loop (j : Z) (L : list diag) (G : Z -> grid) (P : itable)
    (B : Z -> farray) (t : main_state) :
  18 <= j <= 26 ->
  j <= Z.of_nat (List.length entries) ->
  (forall i, 18 <= i <= 25 -> i < j ->
     read_table_data (binary_files w) (tempdata0 w) (name_at entries i) NRGN
       static_floats = Some (tb i) /\
     stat (tb i) = 0) ->
  before entries tail 18 L G P B (tables_read tb 18 18) t ->
  exists t',
    for_ctl 18 j (main_region w) t = Continue t' /\
    before entries tail j L G P B (tables_read tb 18 j) t'.
Proof.
  intros Hj Hlen Hread H18.
  apply (for_ctl_ind
           (fun i s => before entries tail i L G P B (tables_read tb 18 i) s)
           18 j (main_region w) t ltac:(lia) H18).
  intros i s Hi Hbefore.
  destruct (Hread i ltac:(lia) ltac:(lia)) as (Hr & Hst).
  destruct (main_region_pass i L G P B _ s (tb i) ltac:(lia) ltac:(lia) Hbefore
              (tables_read_later 18 i) Hr) as (s' & Hs' & Hb').
  rewrite Hst in Hs'. cbn [Z.eqb negb] in Hs'.
  exists s'. split; [exact Hs'|].
  apply (before_ext _ _ _ _ _ _ _ _ _ _ _ _ _ Hb').
  - rewrite (stat_0_quiet _ (read_table_data_ends _ _ _ _ _ _ Hr) Hst). apply app_nil_r.
  - reflexivity.
  - reflexivity.
  - intros k. apply tables_read_next. lia.
Qed.




(** The variables of [main] after the first two names and the monthly
    reader. *)
Lemma main_files_start (L : list diag) (t : main_state) (m : Z) :
  inputs_ok_upto strtod w entries rd p tb m ->
  2 <= m <= Z.of_nat (List.length entries) ->
  before entries tail 0 L (fun _ => static_grid) (popdata0 w)
    (fun _ => static_floats) (fun _ => static_floats) t ->
  exists t0 t1,
    next_file_name t = Continue t0 /\
    filename t0 = name_at entries 0 /\
    next_file_name t0 = Continue t1 /\
    read_and_aggregate_data (binary_files w) static_floats static_floats
      (filename t1) (data t1 0) = Some (rd 1) /\
    before entries tail 2 (L ++ errs (rd 1)) (grids_read rd 2) (popdata0 w)
      (tables_read tb 10 10) (tables_read tb 18 18)
      (set_nskipyr (set_data t1 0 (rd 1)) 2).
Proof.
  intros Hin Hm H0.
  destruct (name_step 0 L _ _ _ _ t ltac:(lia) H0) as (t0 & Hrun0 & H1 & Hfn0 & _).
  destruct (name_step 1 L _ _ _ _ t0 ltac:(lia) H1)
    as (t1 & Hrun1 & (Hc1 & Hl1 & Hg1 & Hp1 & Hb1 & Hr1) & Hfn1 & _).
  destruct Hin as (Hmon & _).
  exists t0, t1. split; [exact Hrun0|]. split; [exact Hfn0|]. split; [exact Hrun1|].
  split; [rewrite Hfn1, Hg1; apply Hmon; lia|].
  unfold before, set_nskipyr, set_data. cbn [cfg log data popdata bdata rdata].
  rewrite Hl1. split; [exact Hc1|]. split; [reflexivity|].
  split; [|split; [exact Hp1|split]].
  - intros i. unfold grids_read, in_range.
    destruct (Z.eqb_spec i 0) as [->|Hi]; [reflexivity|].
    rewrite Hg1. now replace ((0 <=? i) && (i <? 2 - 1)) with false
      by (symmetry; zcases).
  - intros i. now rewrite Hb1, tables_read_none.
  - intros i. now rewrite Hr1, tables_read_none.
Qed.


(** [main] once the three numbers are read, when every name is there
    and every reader but the monthly one returns 0: the names are taken
    in order, each reader gets the name at its place, and the writer gets
    the name at place 0 and what the readers returned. *)
Lemma main_files_wired (md : metadata) (L : list diag) (t : main_state) :
  inputs_ok_upto strtod w entries rd p tb 26 ->
  Z.of_nat (List.length entries) = 26 ->
  before entries tail 0 L (fun _ => static_grid) (popdata0 w)
    (fun _ => static_floats) (fun _ => static_floats) t ->
  main_files strtod w md t =
  let '(e, dg, calls) :=
    mat2nc (nc_lib w) (name_at entries 0) md (dataset_read rd p tb)
      (rgn_data0 w) (basin_data0 w) in
  Return {| exit_status := match e with Returns stat => stat | Exits status => status end;
            stderr := (L ++ errs (rd 1)) ++ dg;
            archive := calls |}.
Proof.
  intros Hin Hlen H0.
  destruct (main_files_start L t 26 Hin ltac:(lia) H0)
    as (t0 & t1 & Hrun0 & Hfn0 & Hrun1 & Hmon & H2).
  unfold main_files.
  rewrite Hrun0. cbn [cbind]. cbv zeta.
  rewrite Hrun1. cbn [cbind]. rewrite Hmon. cbn [defined cbind].
  destruct Hin as (_ & H5 & Hpop & Hbas & Hreg).
  change G_IRR with 2. change (G_WSI + 1) with 9.
  change B_SUPPLY with 10. change (B_WSI + 1) with 18.
  change R_SUPPLY with 18. change (R_WSI + 1) with 26.
  destruct (grid_loop 9 _ _ _ _ _ ltac:(lia) ltac:(lia)
              (fun i Hi _ => H5 i Hi ltac:(lia)) H2 eq_refl)
    as (t2 & Hrun2 & Hb2 & _).
  rewrite Hrun2. cbn [cbind].
  destruct (name_step 9 _ _ _ _ _ t2 ltac:(lia) Hb2)
    as (t3 & Hrun3 & (Hc3 & Hl3 & Hg3 & Hp3 & Hb3 & Hr3) & Hfn3 & _).
  rewrite Hrun3. cbn [cbind].
  destruct (Hpop ltac:(lia)) as (Hp & Hpst).
  pose proof (stat_0_quiet _ (read_pop_data_ends _ _ _ _ _ _ Hp) Hpst) as Hperr.
  rewrite Hfn3, Hp3, Hp. cbn [defined]. rewrite Hpst. cbn [Z.eqb negb cbind].
  assert (H10 : before entries tail 10 (L ++ errs (rd 1)) (grids_read rd 9) (out p)
                  (tables_read tb 10 10) (tables_read tb 18 18) (set_popdata t3 p)).
  { unfold before, set_popdata. cbn [cfg log data popdata bdata rdata].
    rewrite Hperr, app_nil_r. repeat split; assumption. }
  destruct (basin_loop 18 _ _ _ _ _ ltac:(lia) ltac:(lia)
              (fun i Hi _ => Hbas i Hi ltac:(lia)) H10)
    as (t4 & Hrun4 & Hb4).
  rewrite Hrun4. cbn [cbind].
  destruct (region_loop 26 _ _ _ _ _ ltac:(lia) ltac:(lia)
              (fun i Hi _ => Hreg i Hi ltac:(lia)) Hb4)
    as (t5 & Hrun5 & (Hc5 & Hl5 & Hg5 & Hp5 & Hb5 & Hr5)).
  rewrite Hrun5. cbn [cbind].
  (* the writer *)
  rewrite Hfn0, Hl5.
  rewrite (mat2nc_ext (nc_lib w) (name_at entries 0) md
             {| grids := data t5; pop := popdata t5; btables := bdata t5;
                rtables := rdata t5 |}
             (dataset_read rd p tb)).
  - reflexivity.
  - intros i Hi. cbn [grids dataset_read]. rewrite Hg5. unfold grids_read.
    match goal with |- context [in_range 0 ?n i] =>
      now replace (in_range 0 n i) with true by (symmetry; unfold in_range; zcases)
    end.
  - exact Hp5.
  - intros i Hi. cbn [btables dataset_read]. rewrite Hb5. unfold tables_read.
    match goal with |- context [in_range 0 ?n i] =>
      now replace (in_range 0 n i) with true by (symmetry; unfold in_range; zcases)
    end.
  - intros i Hi. cbn [rtables dataset_read]. rewrite Hr5. unfold tables_read.
    match goal with |- context [in_range 0 ?n i] =>
      now replace (in_range 0 n i) with true by (symmetry; unfold in_range; zcases)
    end.
Qed.

End WiringProofs.

Lemma inputs_read_upto (strtod : stream -> option (double * stream)) (w : world)
    (entries : list (stream * stream))
    (rd : Z -> result grid) (p : result itable) (tb : Z -> result farray) :
  inputs_read strtod w entries rd p tb ->
  inputs_ok_upto strtod w entries rd p tb 26.
Proof.
  intros (Hmon & H5 & Hpop & Hbas & Hreg). unfold inputs_ok_upto.
  split; [intros _; exact Hmon|]. split; [intros i Hi _; now apply H5|].
  split; [intros _; exact Hpop|].
  split; intros i Hi _; [now apply Hbas | now apply Hreg].
Qed.

(** The variables of [main] when it begins to read the names. *)
Lemma before_start (w : world) (entries : list (stream * stream)) (tail : stream)
    (L : list diag) :
  before entries tail 0 L (fun _ => static_grid) (popdata0 w)
    (fun _ => static_floats) (fun _ => static_floats)
    {| cfg := names_text entries ++ tail; log := L; filename := filename0 w;
       nskipyr := 0; data := (fun _ => static_grid); popdata := popdata0 w;
       bdata := (fun _ => static_floats); rdata := (fun _ => static_floats) |}.
Proof. unfold before. cbn [cfg log data popdata bdata rdata]. now repeat split. Qed.

(** X18. How [main] wires the configuration to the archive. After the
    three numbers the configuration gives 26 names: the archive, the
    monthly supply file, seven five-year grid files, the population file,
    eight basin tables and eight region tables. Each reader is called on
    the name at its place, on arrays that start out as zeros, the
    five-year reader with two skipped records but for the last grid, the
    scarcity index, with one. When every reader but the monthly one
    returns 0, the writer is called with the first name and with the
    arrays in the order of the names, and the run ends as the writer
    ends; a failure of the monthly reader leaves its diagnostic and does
    not stop the run. *)
Theorem X18_main_wires_names_to_variables
    (strtod : stream -> option (double * stream)) (w : world) (prog arg : string)
    (entries : list (stream * stream)) (tail : stream)
    (rd : Z -> result grid) (p : result itable) (tb : Z -> result farray)
    (f1 f2 f3 : float) (s1 s2 : stream) :
  is_dash arg = true ->
  fscanf_f strtod (stdin w) (global_forcing (md0 w)) = (1, f1, s1) ->
  fscanf_f strtod s1 (global_pop (md0 w)) = (1, f2, s2) ->
  fscanf_f strtod s2 (global_pcgdp (md0 w)) = (1, f3, names_text entries ++ tail) ->
  List.length entries = 26%nat ->
  Forall entry_ok entries ->
  ends_name tail ->
  inputs_read strtod w entries rd p tb ->
  main strtod w 2 [prog; arg] =
  let '(e, dg, calls) :=
    mat2nc (nc_lib w) (name_at entries 0)
      {| global_forcing := f1; global_pop := f2; global_pcgdp := f3 |}
      (dataset_read rd p tb) (rgn_data0 w) (basin_data0 w) in
  Some {| exit_status := match e with Returns stat => stat | Exits status => status end;
          stderr := (Reading_config_from_stdin :: errs (rd 1)) ++ dg;
          archive := calls |}.
Proof.
  intros Hd H1 H2 H3 Hlen Hok Htail Hin.
  unfold main. cbn [Z.eqb Pos.eqb nth]. rewrite Hd, H1, H2, H3. cbv zeta.
  cbn [Z.add Pos.add Pos.succ Z.eqb Pos.eqb negb].
  rewrite (main_files_wired strtod w entries tail Hok Htail rd p tb _
             [Reading_config_from_stdin] _ (inputs_read_upto _ _ _ _ _ _ Hin)
             ltac:(lia) (before_start w entries tail _)).
  destruct (mat2nc _ _ _ _ _ _) as [[e dg] calls]. reflexivity.
Qed.

Lemma sample_entries_ok : Forall entry_ok sample_entries.
Proof.
  unfold sample_entries. cbn [map app repeat].
  repeat (apply Forall_cons;
          [unfold entry_ok; cbn [fst snd];
           split; [discriminate|]; split; [reflexivity|];
           split; [intros E; vm_compute in E; discriminate E|];
           split; [reflexivity | vm_compute; reflexivity]|]).
  apply Forall_nil.
Qed.

Lemma X18_main_wires_names_to_variables_witness :
  exists (rd : Z -> result grid) (p : result itable) (tb : Z -> result farray),
    main strtod_dec world_entries 2 argv_stdin =
    let '(e, dg, calls) :=
      mat2nc nc_ok (name_at sample_entries 0)
        {| global_forcing := c_float 4.5; global_pop := c_float 9000;
           global_pcgdp := c_float 12.5 |}
        (dataset_read rd p tb) (fun _ => 0) (fun _ => 0) in
    Some {| exit_status := match e with Returns stat => stat | Exits status => status end;
            stderr := (Reading_config_from_stdin :: errs (rd 1)) ++ dg;
            archive := calls |}.
Proof.
  destruct (read_pop_data_run strtod_dec "pop.csv" (one_text "pop.csv" sample_pop)
              (S754_zero false) zero_table sample_lines [])
    as (p & Hp & Hpst & _); [reflexivity | reflexivity | apply Forall_repeat, sample_line_ok |].
  destruct (read_table_data_run table_files static_floats "basin.dat" NBASIN
              static_floats (ramp (19 * 235)) eq_refl ltac:(unfold NBASIN; lia))
    as (dB & _ & _ & HB).
  destruct (read_table_data_run table_files static_floats "rgn.dat" NRGN
              static_floats (ramp (19 * 63)) eq_refl ltac:(unfold NRGN, NBASIN; lia))
    as (dR & _ & _ & HR).
  exists (fun _ => ret 0 [] (fill_nan static_grid)), p,
         (fun i => if i <? 18 then ret 0 [] dB else ret 0 [] dR).
  apply (X18_main_wires_names_to_variables strtod_dec world_entries "mat2nc" "-"
           sample_entries [newline]
           (fun _ => ret 0 [] (fill_nan static_grid)) p
           (fun i => if i <? 18 then ret 0 [] dB else ret 0 [] dR)
           (c_float 4.5) (c_float 9000) (c_float 12.5)
           (text " 9000 12.5" ++ names_text sample_entries ++ [newline])
           (text " 12.5" ++ names_text sample_entries ++ [newline])).
  - reflexivity.
  - vm_compute. reflexivity.
  - vm_compute. reflexivity.
  - vm_compute. reflexivity.
  - reflexivity.
  - exact sample_entries_ok.
  - reflexivity.
  - unfold inputs_read. cbn [binary_files text_files tmp0 popdata0 tempdata0 world_entries].
    split; [|split; [|split; [|split]]].
    + change (name_at sample_entries 1) with "no-data"%string.
      apply read_and_aggregate_data_no_data.
    + intros i Hi.
      assert (Hc : i = 2 \/ i = 3 \/ i = 4 \/ i = 5 \/ i = 6 \/ i = 7 \/ i = 8) by lia.
      destruct Hc as [->|[->|[->|[->|[->|[->| ->]]]]]];
        (split; [|reflexivity]);
        match goal with |- context [name_at sample_entries ?k] =>
          change (name_at sample_entries k) with "no-data"%string
        end; apply read_5yr_data_no_data.
    + split; [|exact Hpst].
      change (name_at sample_entries 9) with "pop.csv"%string. exact Hp.
    + intros i Hi.
      assert (Hc : i = 10 \/ i = 11 \/ i = 12 \/ i = 13 \/ i = 14 \/ i = 15 \/
                   i = 16 \/ i = 17) by lia.
      destruct Hc as [->|[->|[->|[->|[->|[->|[->| ->]]]]]]];
        (split; [|reflexivity]);
        match goal with |- context [name_at sample_entries ?k] =>
          change (name_at sample_entries k) with "basin.dat"%string
        end; rewrite HB; reflexivity.
    + intros i Hi.
      assert (Hc : i = 18 \/ i = 19 \/ i = 20 \/ i = 21 \/ i = 22 \/ i = 23 \/
                   i = 24 \/ i = 25) by lia.
      destruct Hc as [->|[->|[->|[->|[->|[->|[->| ->]]]]]]];
        (split; [|reflexivity]);
        match goal with |- context [name_at sample_entries ?k] =>
          change (name_at sample_entries k) with "rgn.dat"%string
        end; rewrite HR; reflexivity.
Defined.




(** ** The coordinates *)

(** C8. In a run of the writer in which no checked call fails,
    [mat2nc] returns 0 and the calls it makes about dimensions and
    coordinate variables are exactly these, in this order: the five
    dimensions are defined with the lengths 360, 720, 18, 63 and 235;
    [lat], [lon] and [time] are defined as [float] and [rgn] and [basin]
    as [int], each over the dimension of its own name; the first three
    get their units; and each of the five is written once, whole. The
    array written to [lat] holds the 360 values -89.75 + 0.5 i, the one
    written to [lon] the 720 values -179.75 + 0.5 i, the one written to
    [time] the 18 values 2010 + 5 i, the one written to [rgn] the 63
    values 0..62 and the one written to [basin] the 235 values 1..235,
    whatever the two [int] arrays held before they were filled. *)
Theorem C8_coordinate_values (lib : nc_library) (outfilename : string)
    (md : metadata) (d : dataset) (rgn_garbage basin_garbage : iarray) :
  (forall pre c post,
     mat2nc_steps outfilename md d rgn_garbage basin_garbage = pre ++ Checked c :: post ->
     lib (map call_of pre) c = NC_NOERR) ->
  (exists calls,
     mat2nc lib outfilename md d rgn_garbage basin_garbage = (Returns 0, [], calls) /\
     filter about_coordinate calls =
     [ nc_def_dim "lat" 360;
       nc_def_dim "lon" 720;
       nc_def_dim "time" 18;
       nc_def_dim "rgn" 63;
       nc_def_dim "basin" 235;
       nc_def_var "lat" NC_FLOAT ["lat"%string];
       nc_def_var "lon" NC_FLOAT ["lon"%string];
       nc_def_var "time" NC_FLOAT ["time"%string];
       nc_def_var "rgn" NC_INT ["rgn"%string];
       nc_def_var "basin" NC_INT ["basin"%string];
       nc_put_att_text "lat" "units" 13 "degrees_north";
       nc_put_att_text "lon" "units" 12 "degrees_east";
       nc_put_att_text "time" "units" 4 "year";
       nc_put_vara "lat" 0 360 lat_data;
       nc_put_vara "lon" 0 720 lon_data;
       nc_put_vara "time" 0 18 time_data;
       nc_put_var_int "rgn" (rgn_data rgn_garbage);
       nc_put_var_int "basin" (basin_data basin_garbage) ]) /\
  map (fun i => value_of (lat_data i)) (zrange 0 360) =
    map (fun i => Some (Qred (-89.75 + inject_Z i * 0.5))) (zrange 0 360) /\
  map (fun i => value_of (lon_data i)) (zrange 0 720) =
    map (fun i => Some (Qred (-179.75 + inject_Z i * 0.5))) (zrange 0 720) /\
  map (fun i => value_of (time_data i)) (zrange 0 18) =
    map (fun i => Some (Qred (2010 + inject_Z i * 5))) (zrange 0 18) /\
  map (rgn_data rgn_garbage) (zrange 0 63) = zrange 0 63 /\
  map (basin_data basin_garbage) (zrange 0 235) = zrange 1 235.
Proof.
  intros H. split.
  - eexists. split.
    + unfold mat2nc. rewrite run_steps_pass; [reflexivity|].
      intros pre c post E. cbn [app]. now apply (H pre c post).
    + reflexivity.
  - split; [exact lat_values|]. split; [exact lon_values|].
    split; [exact time_values|]. split; [apply rgn_values | apply basin_values].
Qed.

Lemma C8_coordinate_values_witness :
  exists calls,
    mat2nc nc_ok "out.nc" no_metadata
      {| grids := fun _ => static_grid; pop := zero_table;
         btables := fun _ => static_floats; rtables := fun _ => static_floats |}
      (fun _ => 7) (fun _ => 7) = (Returns 0, [], calls) /\
    filter about_coordinate calls =
    [ nc_def_dim "lat" 360;
      nc_def_dim "lon" 720;
      nc_def_dim "time" 18;
      nc_def_dim "rgn" 63;
      nc_def_dim "basin" 235;
      nc_def_var "lat" NC_FLOAT ["lat"%string];
      nc_def_var "lon" NC_FLOAT ["lon"%string];
      nc_def_var "time" NC_FLOAT ["time"%string];
      nc_def_var "rgn" NC_INT ["rgn"%string];
      nc_def_var "basin" NC_INT ["basin"%string];
      nc_put_att_text "lat" "units" 13 "degrees_north";
      nc_put_att_text "lon" "units" 12 "degrees_east";
      nc_put_att_text "time" "units" 4 "year";
      nc_put_vara "lat" 0 360 lat_data;
      nc_put_vara "lon" 0 720 lon_data;
      nc_put_vara "time" 0 18 time_data;
      nc_put_var_int "rgn" (rgn_data (fun _ => 7));
      nc_put_var_int "basin" (basin_data (fun _ => 7)) ].
Proof.
  apply (C8_coordinate_values nc_ok "out.nc" no_metadata
           {| grids := fun _ => static_grid; pop := zero_table;
              btables := fun _ => static_floats; rtables := fun _ => static_floats |}
           (fun _ => 7) (fun _ => 7)).
  intros pre c post E. reflexivity.
Defined.

(** ** The population reader on a file that fits *)

Lemma field_int_defined (strtod : stream -> option (double * stream))
    (flds : list field) (y : Z) :
  Forall (field_ok strtod) flds ->
  0 <= y < Z.of_nat (List.length flds) ->
  int_of_round (year_value flds y) = Some (year_int flds y).
Proof.
  intros Hf Hy.
  assert (Hfy : field_ok strtod (nth (Z.to_nat y) flds ([], S754_nan)))
    by (apply Forall_nth; [exact Hf | lia]).
  destruct Hfy as [_ Hint]. unfold year_int, year_value in *.
  destruct (int_of_round _); [reflexivity | congruence].
Qed.

(** X21. Of a population file whose first 62 lines each hold two
    leading numbers, 18 comma-prefixed year fields and a remainder that
    fits the buffer of [fgets], and whose last line holds the two numbers
    and the 18 fields followed by anything at all (more fields or none, a
    newline or the end of the file), [read_pop_data] returns 0 without a
    diagnostic and stores in [y][r] the value of year field [y] of line
    [r] rounded to the nearest integer, halves away from zero. The two
    leading numbers and the remainder of each line leave no trace. *)
Theorem X21_read_pop_data_rounds_fields
    (strtod : stream -> option (double * stream)) (fs : txt_fs) (tmp : double)
    (filename : string) (data : itable) (lines : list pop_line)
    (l1 l2 : stream) (flds : list field) (rest : stream) (v1 v2 : double)
    (r y : Z) :
  fs filename =
    Some (List.concat (map line_text lines) ++
          l1 ++ comma :: l2 ++ fields_text flds ++ rest) ->
  List.length lines = 62%nat ->
  Forall (line_ok strtod) lines ->
  numeral strtod l1 v1 -> numeral strtod l2 v2 ->
  List.length flds = 18%nat ->
  Forall (field_ok strtod) flds ->
  ends_field rest ->
  0 <= r < 63 -> 0 <= y < 18 ->
  exists res num den,
    read_pop_data strtod fs tmp filename data = Some res /\
    stat res = 0 /\ errs res = [] /\
    fraction_of (year_value (if r <? 62 then years_of lines r else flds) y)
      = Some (num, den) /\
    0 < den /\
    nearest_half_away num den (out res y r).
Proof.
  intros Hfs Hlen Hok H1 H2 Hlenf Hflds Hrest Hr Hy.
  unfold read_pop_data. rewrite Hfs.
  destruct (pop_lines_run strtod filename lines 0
              {| datafile_of := List.concat (map line_text lines) ++
                                l1 ++ comma :: l2 ++ fields_text flds ++ rest;
                 tmp_of := tmp; popdata_of := data |} _ Hok eq_refl)
    as (s1 & Hrun1 & Hd1 & Htmp1 & Hdata1).
  cbn [tmp_of popdata_of] in Htmp1, Hdata1.
  rewrite Hlen in Hrun1, Hdata1. change (0 + Z.of_nat 62) with 62 in Hrun1, Hdata1.
  set (T := fields_text flds ++ rest) in *.
  assert (HT : ends_field T) by (apply ends_field_fields, Hrest).
  pose proof (fscanf_skip2_conv strtod (l1 ++ comma :: l2 ++ T) (l2 ++ T) T v1 v2
                (H1 _ (ends_field_comma _)) (H2 _ HT)) as Hskip.
  destruct (pop_years_run strtod filename 62 flds 0
              {| datafile_of := T; tmp_of := tmp_of s1; popdata_of := popdata_of s1 |}
              rest Hflds Hrest eq_refl)
    as (s2 & Hrun2 & Hd2 & Htmp2 & Hdata2).
  cbn [tmp_of popdata_of] in Htmp2, Hdata2.
  rewrite Hlenf in Hrun2, Hdata2. change (0 + Z.of_nat 18) with NYEAR in Hrun2, Hdata2.
  assert (Hrgn : pop_rgn strtod filename 62 s1 =
                 Continue {| datafile_of := fgets 1024 (datafile_of s2);
                             tmp_of := tmp_of s2; popdata_of := popdata_of s2 |}).
  { unfold pop_rgn. rewrite Hd1.
    destruct (fscanf_skip2 strtod _) as [n0 df]. cbn [snd] in Hskip. subst df.
    cbv beta iota. rewrite Hrun2. reflexivity. }
  rewrite (for_ctl_split 0 62 NRGN) by (unfold NRGN; lia). rewrite Hrun1.
  rewrite for_ctl_first by (unfold NRGN; lia). rewrite Hrgn.
  change (62 + 1) with NRGN. rewrite for_ctl_nil.
  assert (Hint : int_of_round
                   (year_value (if r <? 62 then years_of lines r else flds) y)
                 = Some (popdata_of s2 y r)).
  { rewrite Hdata2, Hdata1. rewrite !Z.sub_0_r. unfold in_range, NYEAR.
    destruct (Z.ltb_spec r 62) as [Hlt|Hge].
    - replace (r =? 62) with false by (symmetry; zcases). cbn [andb].
      replace ((0 <=? r) && true && ((0 <=? y) && (y <? 18))) with true
        by (symmetry; zcases).
      apply (year_int_defined strtod); [now apply Forall_line_wf | lia | lia].
    - replace (r =? 62) with true by (symmetry; zcases).
      replace (true && ((0 <=? y) && (y <? 18))) with true by (symmetry; zcases).
      apply (field_int_defined strtod); [exact Hflds | lia]. }
  destruct (int_of_round_nearest _ _ Hint) as (num & den & Hfr & Hden & Hnear).
  eexists. exists num, den. split; [reflexivity|]. cbn [ret stat errs out popdata_of].
  split; [reflexivity|]. split; [reflexivity|]. split; [exact Hfr|].
  split; [exact Hden | exact Hnear].
Qed.

Lemma X21_read_pop_data_rounds_fields_witness :
  exists res num den,
    read_pop_data strtod_dec (one_text "pop.csv" pop_no_final_newline) S754_nan
      "pop.csv" zero_table = Some res /\
    stat res = 0 /\ errs res = [] /\
    fraction_of (year_value (if 62 <? 62 then years_of (repeat sample_line 62) 62
                             else years sample_line) 1)
      = Some (num, den) /\
    0 < den /\
    nearest_half_away num den (out res 1 62).
Proof.
  apply (X21_read_pop_data_rounds_fields strtod_dec
           (one_text "pop.csv" pop_no_final_newline) S754_nan "pop.csv" zero_table
           (repeat sample_line 62) (text "1") (text "2005") (years sample_line)
           (text ",7,8") (c_double 1) (c_double 2005) 62 1).
  - reflexivity.
  - reflexivity.
  - apply Forall_repeat, sample_line_ok.
  - exact numeral_1.
  - exact numeral_2005.
  - reflexivity.
  - destruct sample_line_ok as ((_ & _ & _ & Hf & _) & _). exact Hf.
  - left. reflexivity.
  - lia.
  - lia.
Defined.

(** ** Failures and exit statuses *)
















(** ** Reading the exit status backwards *)

Lemma quiet_note_or_monthly (d : diag) :
  quiet d -> note d || monthly_failure d = true.
Proof. unfold quiet. destruct d; cbn; intros H; try reflexivity; lia. Qed.

Lemma Forall_quiet_notes (l : list diag) :
  Forall quiet l -> forallb (fun d => note d || monthly_failure d) l = true.
Proof.
  induction 1 as [|d l Hd Hl IH]; [reflexivity|]. cbn [forallb].
  now rewrite (quiet_note_or_monthly d Hd), IH.
Qed.

(** X22. What the exit status tells about a run, whatever its input.
    A run that ends with status 0 has written nothing to [stderr] but
    notes on the configuration and diagnostics of the monthly reader. A
    run that ends with another status has written one more diagnostic,
    its last, and the status goes with it: 2 with the usage message, 3
    with the two diagnostics on the configuration, and 1 with every
    other. *)
Theorem X22_exit_status_by_last_diagnostic
    (strtod : stream -> option (double * stream))
    (w : world) (argc : Z) (argv : list string) (r : run) :
  main strtod w argc argv = Some r ->
  (exit_status r = 0 /\
   forallb (fun d => note d || monthly_failure d) (stderr r) = true) \/
  (exists pre d,
     stderr r = pre ++ [d] /\
     forallb (fun d => note d || monthly_failure d) pre = true /\
     note d || monthly_failure d = false /\
     exit_status r <> 0 /\
     exit_status r =
     match d with
     | Usage _ => 2
     | Failed_to_read_global_attributes | Error_reading_config => 3
     | _ => 1
     end).
Proof.
  intros Hmain.
  destruct (main_ends_well strtod w argc argv r Hmain)
    as [[Hst Hq]|(pre & d & Herr & Hpre & Hd & Hst)].
  - left. split; [exact Hst|]. now apply Forall_quiet_notes.
  - right. exists pre, d. split; [exact Herr|].
    split; [now apply Forall_quiet_notes|].
    split; [destruct d; cbn in Hd; try reflexivity; congruence|].
    split; [congruence|].
    rewrite Hst. destruct d; cbn in *; try reflexivity; try lia; discriminate.
Qed.

Lemma X22_exit_status_by_last_diagnostic_witness :
  main strtod_dec world_open 2 argv_stdin = Some run_open /\
  ((exit_status run_open = 0 /\
    forallb (fun d => note d || monthly_failure d) (stderr run_open) = true) \/
   (exists pre d,
      stderr run_open = pre ++ [d] /\
      forallb (fun d => note d || monthly_failure d) pre = true /\
      note d || monthly_failure d = false /\
      exit_status run_open <> 0 /\
      exit_status run_open =
      match d with
      | Usage _ => 2
      | Failed_to_read_global_attributes | Error_reading_config => 3
      | _ => 1
      end)).
Proof.
  split; [vm_compute; reflexivity|].
  apply (X22_exit_status_by_last_diagnostic strtod_dec world_open 2 argv_stdin run_open).
  vm_compute. reflexivity.
Defined.

(** ** From a grid file to the archive *)




